(** * dso-file-name-anonymizer: a shallow embedding of [main.py]

    The tool renames every file of a directory to
    [prefix + hexdigest(name) + extension(name)].  This development embeds

    - Python [str] values as lists of code points and [bytes] as lists of
      octets, with [str.encode('utf-8')] and [hexdigest];
    - the four digests the command line offers (MD5, SHA-1, SHA-256,
      SHA-512), executable, checked against published test vectors;
    - [posixpath.splitext] and [posixpath.join];
    - [is_valid_directory], [anonymize_file_name], [process_directory] and
      [main], written in a small state-and-exception monad over an abstract
      host (the [os] and [hashlib] modules, and the file handlers of
      [logging]), together with one concrete host: a flat POSIX directory;
    - the root logger: every record goes to the log and to each file
      handler that [main] attached, which writes it to its log file.

    Definitions come first, the theorems about them follow. *)

From Stdlib Require Import String Ascii ZArith List Bool Lia.
Import ListNotations.
Local Open Scope Z_scope.

(* ================================================================== *)
(** * Python values *)

(** A Python [str] is a sequence of code points.  Lone surrogates
    (U+D800..U+DFFF) are legal members of a [str]: [os.listdir] produces
    them for file names that are not valid UTF-8 (the [surrogateescape]
    error handler). *)
Definition pystr := list Z.

(** [bytes]: a sequence of octets. *)
Definition pybytes := list Z.

(** ASCII literals, for readable examples. *)
Definition lit (s : string) : pystr :=
  map (fun a => Z.of_N (N_of_ascii a)) (list_ascii_of_string s).

(** Equality of two strings, [==] on [str]. *)
Fixpoint str_eqb (a b : pystr) : bool :=
  match a, b with
  | [], [] => true
  | x :: a', y :: b' => (x =? y) && str_eqb a' b'
  | _, _ => false
  end.

(** Python exceptions met in this program; every one of them is a subclass
    of [Exception].  [OSError] carries its errno. *)
Inductive errno := ENOENT | EACCES | EISDIR | ENOTDIR | ENOTEMPTY | EINVAL | ENAMETOOLONG | EOTHER (code : Z).

Inductive exn :=
| OSError (e : errno)
| ValueError
| TypeError
| UnicodeEncodeError.

(** [isinstance(e, OSError)] *)
Definition is_OSError (e : exn) : bool :=
  match e with OSError _ => true | _ => false end.

Inductive result (A : Type) :=
| Ok (a : A)
| Raise (e : exn).
Arguments Ok {A} a.
Arguments Raise {A} e.

(* ================================================================== *)
(** * [str.encode('utf-8')] *)

Module Utf8.

(** Encoding of one code point.  The strict error handler refuses
    surrogates; values outside the Unicode range are not members of a
    Python [str] and are refused as well. *)
Definition encode_cp (c : Z) : option pybytes :=
  if c <? 0 then None
  else if c <? 0x80 then Some [c]
  else if c <? 0x800 then
    Some [Z.lor 0xC0 (Z.shiftr c 6); Z.lor 0x80 (Z.land c 0x3F)]
  else if (0xD800 <=? c) && (c <=? 0xDFFF) then None
  else if c <? 0x10000 then
    Some [Z.lor 0xE0 (Z.shiftr c 12);
          Z.lor 0x80 (Z.land (Z.shiftr c 6) 0x3F);
          Z.lor 0x80 (Z.land c 0x3F)]
  else if c <? 0x110000 then
    Some [Z.lor 0xF0 (Z.shiftr c 18);
          Z.lor 0x80 (Z.land (Z.shiftr c 12) 0x3F);
          Z.lor 0x80 (Z.land (Z.shiftr c 6) 0x3F);
          Z.lor 0x80 (Z.land c 0x3F)]
  else None.

Fixpoint encode (s : pystr) : option pybytes :=
  match s with
  | [] => Some []
  | c :: t =>
      match encode_cp c, encode t with
      | Some b, Some bs => Some (b ++ bs)
      | _, _ => None
      end
  end.

(** A string of scalar values: what the spec calls UTF-8 encodable. *)
Definition scalar (c : Z) : bool :=
  (0 <=? c) && (c <? 0x110000) && negb ((0xD800 <=? c) && (c <=? 0xDFFF)).

Definition encodable (s : pystr) : bool := forallb scalar s.

End Utf8.

(* ================================================================== *)
(** * Hexadecimal rendering, [hexdigest] *)

Module Hex.

(** One nibble as a lowercase hexadecimal digit. *)
Definition digit (d : Z) : Z := if d <? 10 then 48 + d else 87 + d.

Definition of_byte (b : Z) : pystr :=
  [digit (Z.land (Z.shiftr b 4) 15); digit (Z.land b 15)].

Definition hexlify (bs : pybytes) : pystr := flat_map of_byte bs.

(** [0-9a-f] *)
Definition is_lower_hex (c : Z) : bool :=
  ((48 <=? c) && (c <=? 57)) || ((97 <=? c) && (c <=? 102)).

End Hex.

(* ================================================================== *)
(** * [hashlib]: the four digests of the command line *)

Module Digest.

(** ** Words and octets *)

Definition add32 (x y : Z) : Z := (x + y) mod 2 ^ 32.
Definition add64 (x y : Z) : Z := (x + y) mod 2 ^ 64.
Definition not32 (x : Z) : Z := Z.lxor x 0xffffffff.
Definition not64 (x : Z) : Z := Z.lxor x 0xffffffffffffffff.

Definition rotl32 (x n : Z) : Z :=
  Z.lor (Z.shiftl x n mod 2 ^ 32) (Z.shiftr x (32 - n)).
Definition rotr32 (x n : Z) : Z :=
  Z.lor (Z.shiftr x n) (Z.shiftl x (32 - n) mod 2 ^ 32).
Definition rotr64 (x n : Z) : Z :=
  Z.lor (Z.shiftr x n) (Z.shiftl x (64 - n) mod 2 ^ 64).

(** The [n] low octets of [x], most significant first. *)
Fixpoint be_bytes (n : nat) (x : Z) : pybytes :=
  match n with
  | O => []
  | S k => Z.shiftr x (8 * Z.of_nat k) mod 256 :: be_bytes k x
  end.

(** The [n] low octets of [x], least significant first. *)
Fixpoint le_bytes (n : nat) (x : Z) : pybytes :=
  match n with
  | O => []
  | S k => x mod 256 :: le_bytes k (Z.shiftr x 8)
  end.

Definition be_word (bs : pybytes) : Z :=
  fold_left (fun acc b => acc * 256 + b) bs 0.

Definition le_word (bs : pybytes) : Z :=
  fold_right (fun b acc => b + 256 * acc) 0 bs.

(** Consecutive pieces of [n] elements; [fuel] bounds their number. *)
Fixpoint chunks_fuel {A} (fuel n : nat) (l : list A) : list (list A) :=
  match fuel with
  | O => []
  | S f =>
      match l with
      | [] => []
      | _ => firstn n l :: chunks_fuel f n (skipn n l)
      end
  end.

Definition chunks {A} (n : nat) (l : list A) : list (list A) :=
  chunks_fuel (length l) n l.

(** Merkle-Damgard padding: a [0x80] octet, zeros up to the block
    boundary less the length field, then the bit length on [lenbytes]
    octets encoded by [enc]. *)
Definition pad (block lenbytes : nat) (enc : nat -> Z -> pybytes)
    (msg : pybytes) : pybytes :=
  let used := (Z.of_nat (length msg) + 1 + Z.of_nat lenbytes)
                mod Z.of_nat block in
  let zeros := (Z.of_nat block - used) mod Z.of_nat block in
  msg ++ [0x80] ++ repeat 0 (Z.to_nat zeros)
      ++ enc lenbytes (8 * Z.of_nat (length msg)).

(** The integer cube root of [n], built from its bit [b - 1] down on
    top of [r]. *)
Fixpoint icbrt (b : nat) (n r : Z) : Z :=
  match b with
  | O => r
  | S b' =>
      let c := r + 2 ^ Z.of_nat b' in
      icbrt b' n (if c * c * c <=? n then c else r)
  end.

Definition is_prime (n : Z) : bool :=
  (2 <=? n)
  && forallb (fun d => negb (n mod d =? 0))
             (map Z.of_nat (seq 2 (Z.to_nat n - 2))).

(** The first [k] primes (below 512, enough for the 80 of SHA-512). *)
Definition first_primes (k : nat) : list Z :=
  firstn k (filter is_prime (map Z.of_nat (seq 0 512))).

(** ** MD5 (RFC 1321) *)

Definition md5_T : list Z :=
  [0xd76aa478; 0xe8c7b756; 0x242070db; 0xc1bdceee; 0xf57c0faf; 0x4787c62a;
   0xa8304613; 0xfd469501; 0x698098d8; 0x8b44f7af; 0xffff5bb1; 0x895cd7be;
   0x6b901122; 0xfd987193; 0xa679438e; 0x49b40821; 0xf61e2562; 0xc040b340;
   0x265e5a51; 0xe9b6c7aa; 0xd62f105d; 0x02441453; 0xd8a1e681; 0xe7d3fbc8;
   0x21e1cde6; 0xc33707d6; 0xf4d50d87; 0x455a14ed; 0xa9e3e905; 0xfcefa3f8;
   0x676f02d9; 0x8d2a4c8a; 0xfffa3942; 0x8771f681; 0x6d9d6122; 0xfde5380c;
   0xa4beea44; 0x4bdecfa9; 0xf6bb4b60; 0xbebfbc70; 0x289b7ec6; 0xeaa127fa;
   0xd4ef3085; 0x04881d05; 0xd9d4d039; 0xe6db99e5; 0x1fa27cf8; 0xc4ac5665;
   0xf4292244; 0x432aff97; 0xab9423a7; 0xfc93a039; 0x655b59c3; 0x8f0ccc92;
   0xffeff47d; 0x85845dd1; 0x6fa87e4f; 0xfe2ce6e0; 0xa3014314; 0x4e0811a1;
   0xf7537e82; 0xbd3af235; 0x2ad7d2bb; 0xeb86d391].

Definition md5_S : list Z :=
  [7; 12; 17; 22; 7; 12; 17; 22; 7; 12; 17; 22; 7; 12; 17; 22;
   5; 9; 14; 20; 5; 9; 14; 20; 5; 9; 14; 20; 5; 9; 14; 20;
   4; 11; 16; 23; 4; 11; 16; 23; 4; 11; 16; 23; 4; 11; 16; 23;
   6; 10; 15; 21; 6; 10; 15; 21; 6; 10; 15; 21; 6; 10; 15; 21].

Definition md5_state : Type := (Z * Z * Z * Z)%type.

Definition md5_init : md5_state :=
  (0x67452301, 0xefcdab89, 0x98badcfe, 0x10325476).

(** Step [i] of the 64: the round function and the index of the message
    word it consumes. *)
Definition md5_step (M : list Z) (st : md5_state) (i : Z) : md5_state :=
  let '(a, b, c, d) := st in
  let q := i / 16 in
  let f :=
    if q =? 0 then Z.lor (Z.land b c) (Z.land (not32 b) d)
    else if q =? 1 then Z.lor (Z.land d b) (Z.land (not32 d) c)
    else if q =? 2 then Z.lxor (Z.lxor b c) d
    else Z.lxor c (Z.lor b (not32 d)) in
  let g :=
    if q =? 0 then i
    else if q =? 1 then (5 * i + 1) mod 16
    else if q =? 2 then (3 * i + 5) mod 16
    else (7 * i) mod 16 in
  let x := add32 (add32 (add32 a f) (nth (Z.to_nat i) md5_T 0))
                 (nth (Z.to_nat g) M 0) in
  (d, add32 b (rotl32 x (nth (Z.to_nat i) md5_S 0)), b, c).

Definition md5_block (st : md5_state) (blk : pybytes) : md5_state :=
  let M := map le_word (chunks 4 blk) in
  let '(a, b, c, d) := st in
  let '(a', b', c', d') :=
    fold_left (md5_step M) (map Z.of_nat (seq 0 64)) st in
  (add32 a a', add32 b b', add32 c c', add32 d d').

Definition md5 (msg : pybytes) : pybytes :=
  let '(a, b, c, d) :=
    fold_left md5_block (chunks 64 (pad 64 8 le_bytes msg)) md5_init in
  le_bytes 4 a ++ le_bytes 4 b ++ le_bytes 4 c ++ le_bytes 4 d.

(** ** SHA-1 (FIPS 180-4) *)

Definition sha1_state : Type := (Z * Z * Z * Z * Z)%type.

Definition sha1_init : sha1_state :=
  (0x67452301, 0xefcdab89, 0x98badcfe, 0x10325476, 0xc3d2e1f0).

(** The message schedule, newest word first: [k] more words computed
    from the words already in [r]. *)
Fixpoint sha1_extend (k : nat) (r : list Z) : list Z :=
  match k with
  | O => r
  | S k' =>
      let w := rotl32 (Z.lxor (Z.lxor (nth 2 r 0) (nth 7 r 0))
                              (Z.lxor (nth 13 r 0) (nth 15 r 0))) 1 in
      sha1_extend k' (w :: r)
  end.

Definition sha1_step (st : sha1_state) (tw : Z * Z) : sha1_state :=
  let '(a, b, c, d, e) := st in
  let '(t, w) := tw in
  let q := t / 20 in
  let f :=
    if q =? 0 then Z.lor (Z.land b c) (Z.land (not32 b) d)
    else if q =? 1 then Z.lxor (Z.lxor b c) d
    else if q =? 2 then Z.lor (Z.lor (Z.land b c) (Z.land b d)) (Z.land c d)
    else Z.lxor (Z.lxor b c) d in
  let k :=
    if q =? 0 then 0x5a827999
    else if q =? 1 then 0x6ed9eba1
    else if q =? 2 then 0x8f1bbcdc
    else 0xca62c1d6 in
  let tmp := add32 (add32 (add32 (add32 (rotl32 a 5) f) e) k) w in
  (tmp, a, rotl32 b 30, c, d).

Definition sha1_block (st : sha1_state) (blk : pybytes) : sha1_state :=
  let W := rev (sha1_extend 64 (rev (map be_word (chunks 4 blk)))) in
  let '(a, b, c, d, e) := st in
  let '(a', b', c', d', e') :=
    fold_left sha1_step (combine (map Z.of_nat (seq 0 80)) W) st in
  (add32 a a', add32 b b', add32 c c', add32 d d', add32 e e').

Definition sha1 (msg : pybytes) : pybytes :=
  let '(a, b, c, d, e) :=
    fold_left sha1_block (chunks 64 (pad 64 8 be_bytes msg)) sha1_init in
  be_bytes 4 a ++ be_bytes 4 b ++ be_bytes 4 c ++ be_bytes 4 d
    ++ be_bytes 4 e.

(** ** SHA-256 (FIPS 180-4) *)

(** The round constants are the first 32 bits of the fractional parts
    of the cube roots of the first 64 primes. *)
Definition sha256_K : list Z :=
  Eval vm_compute in
    map (fun q => icbrt 40 (q * 2 ^ 96) 0 mod 2 ^ 32) (first_primes 64).

Definition sha2_state : Type := (Z * Z * Z * Z * Z * Z * Z * Z)%type.

Definition sha256_init : sha2_state :=
  (0x6a09e667, 0xbb67ae85, 0x3c6ef372, 0xa54ff53a,
   0x510e527f, 0x9b05688c, 0x1f83d9ab, 0x5be0cd19).

Fixpoint sha256_extend (k : nat) (r : list Z) : list Z :=
  match k with
  | O => r
  | S k' =>
      let w2 := nth 1 r 0 in
      let w15 := nth 14 r 0 in
      let s0 := Z.lxor (Z.lxor (rotr32 w15 7) (rotr32 w15 18))
                       (Z.shiftr w15 3) in
      let s1 := Z.lxor (Z.lxor (rotr32 w2 17) (rotr32 w2 19))
                       (Z.shiftr w2 10) in
      let w := add32 (add32 (add32 s1 (nth 6 r 0)) s0) (nth 15 r 0) in
      sha256_extend k' (w :: r)
  end.

Definition sha256_step (st : sha2_state) (kw : Z * Z) : sha2_state :=
  let '(a, b, c, d, e, f, g, h) := st in
  let '(k, w) := kw in
  let S1 := Z.lxor (Z.lxor (rotr32 e 6) (rotr32 e 11)) (rotr32 e 25) in
  let ch := Z.lxor (Z.land e f) (Z.land (not32 e) g) in
  let t1 := add32 (add32 (add32 (add32 h S1) ch) k) w in
  let S0 := Z.lxor (Z.lxor (rotr32 a 2) (rotr32 a 13)) (rotr32 a 22) in
  let maj := Z.lxor (Z.lxor (Z.land a b) (Z.land a c)) (Z.land b c) in
  let t2 := add32 S0 maj in
  (add32 t1 t2, a, b, c, add32 d t1, e, f, g).

Definition sha256_block (st : sha2_state) (blk : pybytes) : sha2_state :=
  let W := rev (sha256_extend 48 (rev (map be_word (chunks 4 blk)))) in
  let '(a, b, c, d, e, f, g, h) := st in
  let '(a', b', c', d', e', f', g', h') :=
    fold_left sha256_step (combine sha256_K W) st in
  (add32 a a', add32 b b', add32 c c', add32 d d',
   add32 e e', add32 f f', add32 g g', add32 h h').

Definition sha256 (msg : pybytes) : pybytes :=
  let '(a, b, c, d, e, f, g, h) :=
    fold_left sha256_block (chunks 64 (pad 64 8 be_bytes msg)) sha256_init in
  be_bytes 4 a ++ be_bytes 4 b ++ be_bytes 4 c ++ be_bytes 4 d
    ++ be_bytes 4 e ++ be_bytes 4 f ++ be_bytes 4 g ++ be_bytes 4 h.

(** ** SHA-512 (FIPS 180-4) *)

(** The round constants are the first 64 bits of the fractional parts
    of the cube roots of the first 80 primes. *)
Definition sha512_K : list Z :=
  Eval vm_compute in
    map (fun q => icbrt 72 (q * 2 ^ 192) 0 mod 2 ^ 64) (first_primes 80).

Definition sha512_init : sha2_state :=
  (0x6a09e667f3bcc908, 0xbb67ae8584caa73b,
   0x3c6ef372fe94f82b, 0xa54ff53a5f1d36f1,
   0x510e527fade682d1, 0x9b05688c2b3e6c1f,
   0x1f83d9abfb41bd6b, 0x5be0cd19137e2179).

Fixpoint sha512_extend (k : nat) (r : list Z) : list Z :=
  match k with
  | O => r
  | S k' =>
      let w2 := nth 1 r 0 in
      let w15 := nth 14 r 0 in
      let s0 := Z.lxor (Z.lxor (rotr64 w15 1) (rotr64 w15 8))
                       (Z.shiftr w15 7) in
      let s1 := Z.lxor (Z.lxor (rotr64 w2 19) (rotr64 w2 61))
                       (Z.shiftr w2 6) in
      let w := add64 (add64 (add64 s1 (nth 6 r 0)) s0) (nth 15 r 0) in
      sha512_extend k' (w :: r)
  end.

Definition sha512_step (st : sha2_state) (kw : Z * Z) : sha2_state :=
  let '(a, b, c, d, e, f, g, h) := st in
  let '(k, w) := kw in
  let S1 := Z.lxor (Z.lxor (rotr64 e 14) (rotr64 e 18)) (rotr64 e 41) in
  let ch := Z.lxor (Z.land e f) (Z.land (not64 e) g) in
  let t1 := add64 (add64 (add64 (add64 h S1) ch) k) w in
  let S0 := Z.lxor (Z.lxor (rotr64 a 28) (rotr64 a 34)) (rotr64 a 39) in
  let maj := Z.lxor (Z.lxor (Z.land a b) (Z.land a c)) (Z.land b c) in
  let t2 := add64 S0 maj in
  (add64 t1 t2, a, b, c, add64 d t1, e, f, g).

Definition sha512_block (st : sha2_state) (blk : pybytes) : sha2_state :=
  let W := rev (sha512_extend 64 (rev (map be_word (chunks 8 blk)))) in
  let '(a, b, c, d, e, f, g, h) := st in
  let '(a', b', c', d', e', f', g', h') :=
    fold_left sha512_step (combine sha512_K W) st in
  (add64 a a', add64 b b', add64 c c', add64 d d',
   add64 e e', add64 f f', add64 g g', add64 h h').

Definition sha512 (msg : pybytes) : pybytes :=
  let '(a, b, c, d, e, f, g, h) :=
    fold_left sha512_block (chunks 128 (pad 128 16 be_bytes msg))
              sha512_init in
  be_bytes 8 a ++ be_bytes 8 b ++ be_bytes 8 c ++ be_bytes 8 d
    ++ be_bytes 8 e ++ be_bytes 8 f ++ be_bytes 8 g ++ be_bytes 8 h.

End Digest.

(* ================================================================== *)
(** * [posixpath]: [splitext] and [join] *)

Module Posixpath.

Definition sep : Z := 47.      (* '/' *)
Definition extsep : Z := 46.   (* '.' *)

(** [s.rfind(c)] for a single character [c]: the highest index holding
    [c], or [-1].  [i] is the index of the head of [s], [acc] the best
    index seen so far. *)
Fixpoint rfind_from (c : Z) (s : pystr) (i acc : Z) : Z :=
  match s with
  | [] => acc
  | x :: t => rfind_from c t (i + 1) (if x =? c then i else acc)
  end.

Definition rfind (s : pystr) (c : Z) : Z := rfind_from c s 0 (-1).

(** Slices [p[:k]], [p[k:]] and [p[i:j]] for indices that are not
    negative, the only ones [splitext] produces. *)
Definition slice_to (p : pystr) (k : Z) : pystr := firstn (Z.to_nat k) p.
Definition slice_from (p : pystr) (k : Z) : pystr := skipn (Z.to_nat k) p.
Definition slice (p : pystr) (i j : Z) : pystr :=
  firstn (Z.to_nat (j - i)) (skipn (Z.to_nat i) p).

(** The loop of [genericpath._splitext] that skips leading dots:
<<
        while filenameIndex < dotIndex:
            if p[filenameIndex:filenameIndex+1] != extsep:
                return p[:dotIndex], p[dotIndex:]
            filenameIndex += 1
    return p, p[:0]
>>
    [n] bounds the iterations left, [dotIndex - filenameIndex] at entry. *)
Fixpoint skip_leading_dots (n : nat) (p : pystr) (dotIndex filenameIndex : Z)
  : pystr * pystr :=
  match n with
  | O => (p, [])
  | S k =>
      if filenameIndex <? dotIndex then
        if negb (str_eqb (slice p filenameIndex (filenameIndex + 1)) [extsep])
        then (slice_to p dotIndex, slice_from p dotIndex)
        else skip_leading_dots k p dotIndex (filenameIndex + 1)
      else (p, [])
  end.

(** [posixpath.splitext(p)], that is [genericpath._splitext(p, '/', None,
    '.')]. *)
Definition splitext (p : pystr) : pystr * pystr :=
  let sepIndex := rfind p sep in
  let dotIndex := rfind p extsep in
  if sepIndex <? dotIndex then
    let filenameIndex := sepIndex + 1 in
    skip_leading_dots (Z.to_nat (dotIndex - filenameIndex)) p dotIndex
                      filenameIndex
  else (p, []).

(** A character other than the dot. *)
Definition nondot (c : Z) : bool := negb (c =? extsep).

(** [s.startswith('/')] and [s.endswith('/')] *)
Definition startswith_sep (s : pystr) : bool :=
  match s with
  | c :: _ => c =? sep
  | [] => false
  end.

Definition endswith_sep (s : pystr) : bool := startswith_sep (rev s).

(** [posixpath.join(a, b)] with one component [b]. *)
Definition join (a b : pystr) : pystr :=
  if startswith_sep b then b
  else if match a with [] => true | _ => endswith_sep a end then a ++ b
  else a ++ sep :: b.

End Posixpath.

(* ================================================================== *)
(** * The host and the monad of the program *)

(** What [logging.error] and [logging.info] are given.  The formatter
    adds a timestamp and the level; a record keeps the level and the
    data of the message. *)
Inductive level := INFO | ERROR.

Inductive message :=
| NotADirectory (directory : pystr)
| AnonymizeFailed (file_name : pystr) (e : exn)
| DryRunRenaming (file_name anonymized_name : pystr)
| Renamed (file_name anonymized_name : pystr)
| RenameFailed (file_name anonymized_name : pystr) (e : exn)
| UnexpectedRenameFailure (file_name anonymized_name : pystr) (e : exn)
| ProcessingFailed (directory : pystr) (e : exn).

Definition record : Type := (level * message)%type.

(** The [os] and [hashlib] modules as the program meets them, over an
    abstract file system [FS].  Queries do not change the file system;
    [os_rename] returns the new one, or raises and leaves it as it was.
    [hashlib_other] stands for [hashlib.new(name, data).hexdigest()] at
    the names outside the four guaranteed digests (whatever the
    interpreter's OpenSSL offers; [ValueError] for an unknown name).
    [logging_FileHandler] opens a log file for appending and returns the
    number of the stream it holds open; [handler_emit] is what that
    handler does with a record: it writes it to its stream.  A handler
    never raises ([logging] reports its failures on the side). *)
Class Host (FS : Type) := {
  os_path_isdir : FS -> pystr -> bool;
  os_path_isfile : FS -> pystr -> bool;
  os_listdir : FS -> pystr -> result (list pystr);
  os_rename : FS -> pystr -> pystr -> result FS;
  hashlib_other : pystr -> pybytes -> result pystr;
  logging_FileHandler : FS -> pystr -> result (Z * FS);
  handler_emit : FS -> Z -> record -> FS
}.

(** The state the program runs in: the file system, the records logged
    so far, oldest first, and the file handlers attached to the root
    logger, by the number of their stream.  (The console handler that
    [logging.basicConfig] installs writes to no file.) *)
Record world (FS : Type) := Running {
  fs : FS;
  log : list record;
  handlers : list Z
}.
Arguments Running {FS} fs log handlers.
Arguments fs {FS} w.
Arguments log {FS} w.
Arguments handlers {FS} w.

(** A world that logs to the console only. *)
Definition World {FS} (f : FS) (l : list record) : world FS :=
  Running f l [].

(** A computation returns a value or raises, and leaves a world. *)
Definition M (FS A : Type) : Type := world FS -> world FS * result A.

Definition ret {FS A} (a : A) : M FS A := fun w => (w, Ok a).

Definition bind {FS A B} (c : M FS A) (k : A -> M FS B) : M FS B :=
  fun w =>
    match c w with
    | (w', Ok a) => k a w'
    | (w', Raise e) => (w', Raise e)
    end.

Definition raise {FS A} (e : exn) : M FS A := fun w => (w, Raise e).

(** [try: body  except Exception as e: handler(e)] *)
Definition try_except {FS A} (body : M FS A) (handler : exn -> M FS A)
  : M FS A :=
  fun w =>
    match body w with
    | (w', Ok a) => (w', Ok a)
    | (w', Raise e) => handler e w'
    end.

Declare Scope py_scope.
Delimit Scope py_scope with py.
Notation "x <- c ;; k" := (bind c (fun x => k))
  (at level 61, c at next level, right associativity) : py_scope.
Notation "c ;; k" := (bind c (fun _ => k))
  (at level 61, right associativity) : py_scope.
Local Open Scope py_scope.

(** [for x in l: body(x)] *)
Fixpoint for_each {FS A} (l : list A) (body : A -> M FS unit) : M FS unit :=
  match l with
  | [] => ret tt
  | x :: t => body x ;; for_each t body
  end.

Definition of_result {FS A} (r : result A) : M FS A := fun w => (w, r).

Section Program.

Context {FS : Type} {host : Host FS}.

(** Every attached file handler, in order, is given the record. *)
Definition emit_all (hs : list Z) (r : record) (f : FS) : FS :=
  fold_left (fun f' h => handler_emit f' h r) hs f.

(** The root logger handles a record: the record is logged and the
    file handlers write it. *)
Definition handle (r : record) : M FS unit :=
  fun w =>
    (Running (emit_all (handlers w) r (fs w)) (log w ++ [r]) (handlers w),
     Ok tt).

Definition logging_error (m : message) : M FS unit := handle (ERROR, m).

Definition logging_info (m : message) : M FS unit := handle (INFO, m).

(** The host's operations as computations. *)
Definition isdir (p : pystr) : M FS bool :=
  fun w => (w, Ok (os_path_isdir (fs w) p)).

Definition isfile (p : pystr) : M FS bool :=
  fun w => (w, Ok (os_path_isfile (fs w) p)).

Definition listdir (p : pystr) : M FS (list pystr) :=
  fun w => (w, os_listdir (fs w) p).

Definition rename (src dst : pystr) : M FS unit :=
  fun w =>
    match os_rename (fs w) src dst with
    | Ok f => (Running f (log w) (handlers w), Ok tt)
    | Raise e => (w, Raise e)
    end.

(** [logging.getLogger().addHandler(logging.FileHandler(p))]: the file
    is opened, and from then on every record is written to it too. *)
Definition add_file_handler (p : pystr) : M FS unit :=
  fun w =>
    match logging_FileHandler (fs w) p with
    | Ok (h, f) => (Running f (log w) (handlers w ++ [h]), Ok tt)
    | Raise e => (w, Raise e)
    end.

(** [file_name.encode('utf-8')] *)
Definition encode_utf8 (s : pystr) : result pybytes :=
  match Utf8.encode s with
  | Some b => Ok b
  | None => Raise UnicodeEncodeError
  end.

(** [hashlib.new(algorithm, data).hexdigest()] *)
Definition hashlib_new_hexdigest (algorithm : pystr) (data : pybytes)
  : result pystr :=
  if str_eqb algorithm (lit "md5") then Ok (Hex.hexlify (Digest.md5 data))
  else if str_eqb algorithm (lit "sha1") then
    Ok (Hex.hexlify (Digest.sha1 data))
  else if str_eqb algorithm (lit "sha256") then
    Ok (Hex.hexlify (Digest.sha256 data))
  else if str_eqb algorithm (lit "sha512") then
    Ok (Hex.hexlify (Digest.sha512 data))
  else hashlib_other algorithm data.

(** [is_valid_directory].  The [isinstance(directory, str)] test cannot
    fail here: [directory] is a [pystr]. *)
Definition is_valid_directory (directory : pystr) : M FS bool :=
  d <- isdir directory ;;
  if negb d then
    logging_error (NotADirectory directory) ;;
    ret false
  else ret true.

(** [anonymize_file_name].  [None] is the value the [except] clause
    returns. *)
Definition anonymize_file_name (file_name algorithm prefix : pystr)
  : M FS (option pystr) :=
  try_except
    (data <- of_result (encode_utf8 file_name) ;;
     hashed_name <- of_result (hashlib_new_hexdigest algorithm data) ;;
     let file_extension := snd (Posixpath.splitext file_name) in
     let anonymized_name := prefix ++ hashed_name ++ file_extension in
     ret (Some anonymized_name))
    (fun e =>
       logging_error (AnonymizeFailed file_name e) ;;
       ret None).

(** Truth value of [anonymized_name] in [if anonymized_name:]: [None]
    and the empty string are false. *)
Definition truthy (v : option pystr) : bool :=
  match v with
  | Some (_ :: _) => true
  | _ => false
  end.

(** The body of the [for] loop of [process_directory]. *)
Definition process_entry (directory algorithm prefix : pystr)
    (dry_run : bool) (file_name : pystr) : M FS unit :=
  let file_path := Posixpath.join directory file_name in
  f <- isfile file_path ;;
  if f then
    anonymized <- anonymize_file_name file_name algorithm prefix ;;
    match anonymized with
    | Some anonymized_name =>
        if truthy anonymized then
          let anonymized_path := Posixpath.join directory anonymized_name in
          if dry_run then
            logging_info (DryRunRenaming file_name anonymized_name)
          else
            try_except
              (rename file_path anonymized_path ;;
               logging_info (Renamed file_name anonymized_name))
              (fun e =>
                 if is_OSError e then
                   logging_error (RenameFailed file_name anonymized_name e)
                 else
                   logging_error
                     (UnexpectedRenameFailure file_name anonymized_name e))
        else ret tt
    | None => ret tt
    end
  else ret tt.

(** [process_directory] *)
Definition process_directory (directory algorithm prefix : pystr)
    (dry_run : bool) : M FS unit :=
  try_except
    (valid <- is_valid_directory directory ;;
     if negb valid then ret tt
     else
       names <- listdir directory ;;
       for_each names (process_entry directory algorithm prefix dry_run))
    (fun e => logging_error (ProcessingFailed directory e)).

(** The namespace [parser.parse_args()] returns. *)
Record args := Args {
  directory : pystr;
  algorithm : pystr;
  prefix : pystr;
  dry_run : bool;
  log_file : option pystr
}.

(** The log sink of [main]:
<<
    if args.log_file:
        file_handler = logging.FileHandler(args.log_file)
        ...
        logging.getLogger().addHandler(file_handler)
>> *)
Definition attach_log_file (a : args) : M FS unit :=
  match log_file a with
  | Some p => if truthy (log_file a) then add_file_handler p else ret tt
  | None => ret tt
  end.

(** [main], from the parsed arguments on. *)
Definition main (a : args) : M FS Z :=
  attach_log_file a ;;
  valid <- is_valid_directory (directory a) ;;
  if negb valid then ret 1
  else
    process_directory (directory a) (algorithm a) (prefix a) (dry_run a) ;;
    ret 0.

(** [sys.exit(main())]: the status of the process.  An exception that
    leaves [main] ends the interpreter with status 1. *)
Definition exit_status (r : result Z) : Z :=
  match r with
  | Ok c => c
  | Raise _ => 1
  end.

Definition script (a : args) (w : world FS) : world FS * Z :=
  let (w', r) := main a w in (w', exit_status r).

End Program.

(* ================================================================== *)
(** * A concrete host: one flat POSIX directory *)

Module FlatDir.

(** What a name of the directory denotes.  A subdirectory is opaque (it
    cannot be listed and is not empty); a symbolic link holds a relative
    target, a name of the same directory. *)
Inductive node :=
| Regular (content : pybytes)
| Directory
| Special
| Symlink (target : pystr).

(** The directory: its path, whether the user may write to it, and its
    entries in the order [os.listdir] reports them; then the log streams
    the process holds open, by number, each with the name of the file it
    is open on while that file is a file of the directory; and what those
    streams have written, record by record, under the name the file has
    now (the bytes the formatter produces, with their time stamp, are not
    modelled).

    The model is one directory of a POSIX system, and this is its
    domain: a path is recognised when it is written as the path of the
    directory, character for character, or as that path joined with a
    name (another spelling of the same path, with a trailing ['/'] or a
    [.], is taken for a path that leads nowhere); a link is followed
    when its target is a name of the directory; the path of the
    directory and the names present are taken to be valid; and what lies
    outside the directory, the inside of its subdirectories included, is
    out of the user's reach; each entry is a file of its own (no two
    names are hard links to one file).  The statements made on this host stay
    within that domain: the directory is processed under its own path,
    with a prefix that holds no ['/'], and where links matter their
    targets are names of the directory. *)
Record dir := MkDir {
  path : pystr;
  writable : bool;
  entries : list (pystr * node);
  streams : list (Z * option pystr);
  appended : list (pystr * record)
}.

(** A directory on which no log stream is open. *)
Definition Dir (p : pystr) (w : bool) (es : list (pystr * node)) : dir :=
  MkDir p w es [] [].

Fixpoint lookup (name : pystr) (es : list (pystr * node)) : option node :=
  match es with
  | [] => None
  | (k, v) :: t => if str_eqb k name then Some v else lookup name t
  end.

(** [s] without its prefix [pre], when it has it. *)
Fixpoint strip_prefix (pre s : pystr) : option pystr :=
  match pre, s with
  | [], _ => Some s
  | x :: pre', y :: s' => if x =? y then strip_prefix pre' s' else None
  | _ :: _, [] => None
  end.

(** The name that the path [p] gives to an immediate child of [d]. *)
Definition child_of (d : dir) (p : pystr) : option pystr :=
  match strip_prefix (Posixpath.join (path d) []) p with
  | Some (c :: r) =>
      if existsb (Z.eqb Posixpath.sep) (c :: r) then None else Some (c :: r)
  | _ => None
  end.

(** Follow symbolic links, at most [fuel] of them ([ELOOP] beyond). *)
Fixpoint resolve (fuel : nat) (es : list (pystr * node)) (name : pystr)
  : option node :=
  match lookup name es with
  | Some (Symlink target) =>
      match fuel with
      | O => None
      | S k => resolve k es target
      end
  | other => other
  end.

(** The name at the end of a chain of links: a name that is present and
    is no link, or a name that is absent. *)
Fixpoint resolve_name (fuel : nat) (es : list (pystr * node))
    (name : pystr) : option pystr :=
  match lookup name es with
  | Some (Symlink target) =>
      match fuel with
      | O => None
      | S k => resolve_name k es target
      end
  | _ => Some name
  end.

Definition SYMLOOP_MAX : nat := 40.

(** [stat], which follows links, of a path written as the path of the
    directory or as the path of one of its children. *)
Definition stat (d : dir) (p : pystr) : option node :=
  if str_eqb p (path d) then
    match p with [] => None | _ => Some Directory end
  else
    match child_of d p with
    | Some name => resolve SYMLOOP_MAX (entries d) name
    | None => None
    end.

Definition flat_isdir (d : dir) (p : pystr) : bool :=
  match stat d p with
  | Some Directory => true
  | _ => false
  end.

Definition flat_isfile (d : dir) (p : pystr) : bool :=
  match stat d p with
  | Some (Regular _) => true
  | _ => false
  end.

Definition flat_listdir (d : dir) (p : pystr) : result (list pystr) :=
  if str_eqb p (path d) then
    match p with
    | [] => Raise (OSError ENOENT)
    | _ => Ok (map fst (entries d))
    end
  else
    match stat d p with
    | Some Directory => Raise (OSError EACCES)
    | Some _ => Raise (OSError ENOTDIR)
    | None => Raise (OSError ENOENT)
    end.

(** The entries after [src] took the name [dst]: an entry that held
    [dst] is gone. *)
Definition move (src dst : pystr) (es : list (pystr * node))
  : list (pystr * node) :=
  map (fun kv => if str_eqb (fst kv) src then (dst, snd kv) else kv)
      (filter (fun kv => negb (str_eqb (fst kv) dst)) es).

(** What was written to files, after [src] took the name [dst]: it
    follows the file, and what was written to a replaced file is gone
    with it. *)
Definition move_appended (src dst : pystr) (l : list (pystr * record))
  : list (pystr * record) :=
  map (fun kv => if str_eqb (fst kv) src then (dst, snd kv) else kv)
      (filter (fun kv => negb (str_eqb (fst kv) dst)) l).

(** The open streams after [src] took the name [dst]: a stream stays on
    its file; a file that was replaced is no longer in the directory. *)
Definition move_streams (src dst : pystr) (l : list (Z * option pystr))
  : list (Z * option pystr) :=
  map (fun hn =>
         match snd hn with
         | Some n =>
             if str_eqb n dst then (fst hn, None)
             else if str_eqb n src then (fst hn, Some dst)
             else hn
         | None => hn
         end) l.

Definition moved (d : dir) (s t : pystr) : dir :=
  MkDir (path d) (writable d) (move s t (entries d))
        (move_streams s t (streams d)) (move_appended s t (appended d)).

(** The length of a string once [os.fsencode] has made it a path: UTF-8,
    with an escaped octet (U+DC80..U+DCFF) back to one octet; no length
    when it cannot be encoded. *)
Fixpoint fs_length (n : pystr) : option Z :=
  match n with
  | [] => Some 0
  | c :: t =>
      match (if (0xDC80 <=? c) && (c <=? 0xDCFF) then Some 1
             else option_map (fun b => Z.of_nat (length b))
                             (Utf8.encode_cp c)),
            fs_length t with
      | Some k, Some m => Some (k + m)
      | _, _ => None
      end
  end.

Definition NAME_MAX : Z := 255.
Definition PATH_MAX : Z := 4096.

(** What stops the name [t], not yet in the directory of path [dpath],
    from being given: Python cannot make the path ([UnicodeEncodeError],
    or [ValueError] for an embedded null character), or the system
    refuses its length. *)
Definition refused (dpath t : pystr) : option exn :=
  match fs_length t, fs_length (Posixpath.join dpath t) with
  | Some k, Some kp =>
      if existsb (Z.eqb 0) (Posixpath.join dpath t) then Some ValueError
      else if (k <=? NAME_MAX) && (kp <? PATH_MAX) then None
      else Some (OSError ENAMETOOLONG)
  | _, _ => Some UnicodeEncodeError
  end.

(** [os.rename] between two names of the directory.  It acts on a link
    itself, not on its target.  A name that is new is checked as Python
    and the system check it ([refused]); a name that is present has
    passed those checks.  Renaming a file onto itself succeeds, even in
    a directory that is not writable.  A target that is not a child of
    the directory (one inside a subdirectory, for a prefix that holds a
    ['/']) is out of reach. *)
Definition flat_rename (d : dir) (src dst : pystr) : result dir :=
  match child_of d src, child_of d dst with
  | Some s, Some t =>
      match lookup s (entries d) with
      | None => Raise (OSError ENOENT)
      | Some n =>
          match lookup t (entries d) with
          | None =>
              match refused (path d) t with
              | Some e => Raise e
              | None =>
                  if negb (writable d) then Raise (OSError EACCES)
                  else Ok (moved d s t)
              end
          | Some m =>
              if str_eqb s t then Ok d
              else if negb (writable d) then Raise (OSError EACCES)
              else
                match n, m with
                | Directory, Directory => Raise (OSError ENOTEMPTY)
                | Directory, _ => Raise (OSError ENOTDIR)
                | _, Directory => Raise (OSError EISDIR)
                | _, _ => Ok (moved d s t)
                end
          end
      end
  | _, _ => Raise (OSError EACCES)
  end.

(** A file name: a string that is not empty and holds no ['/']. *)
Definition file_name_ok (n : pystr) : bool :=
  match n with
  | [] => false
  | _ => negb (existsb (Z.eqb Posixpath.sep) n)
  end.

(** A file name other than [.] and [..]. *)
Definition plain_name (n : pystr) : bool :=
  file_name_ok n && negb (str_eqb n (lit ".")) && negb (str_eqb n (lit "..")).

(** The number of the next stream. *)
Definition next_stream (d : dir) : Z := Z.of_nat (length (streams d)).

Definition with_stream (d : dir) (on : option pystr) : Z * dir :=
  (next_stream d,
   MkDir (path d) (writable d) (entries d)
         (streams d ++ [(next_stream d, on)]) (appended d)).

(** [open(p, 'a')], as [logging.FileHandler] does it: links are
    followed, a missing file is created, and the stream stays open.  A
    path that names no child of the directory is taken for a log file
    elsewhere, which can be written and of which no more is said. *)
Definition flat_FileHandler (d : dir) (p : pystr) : result (Z * dir) :=
  if str_eqb p (path d) then Raise (OSError EISDIR) else
  match child_of d p with
  | Some name =>
      match resolve_name SYMLOOP_MAX (entries d) name with
      | None => Raise (OSError (EOTHER 40))
      | Some final =>
          match lookup final (entries d) with
          | Some (Regular _) => Ok (with_stream d (Some final))
          | Some Directory => Raise (OSError EISDIR)
          | Some _ => Ok (with_stream d None)
          | None =>
              if negb (plain_name final) then Raise (OSError EACCES)
              else
                match refused (path d) final with
                | Some e => Raise e
                | None =>
                    if writable d
                    then Ok (with_stream
                               (MkDir (path d) (writable d)
                                      (entries d ++ [(final, Regular [])])
                                      (streams d) (appended d))
                               (Some final))
                    else Raise (OSError EACCES)
                end
          end
      end
  | None => Ok (with_stream d None)
  end.

Fixpoint stream_file (h : Z) (l : list (Z * option pystr))
  : option pystr :=
  match l with
  | [] => None
  | (k, on) :: t => if k =? h then on else stream_file h t
  end.

(** The strings that the text of a message quotes as they are.  (The
    text of an exception quotes names escaped.) *)
Definition quoted (m : message) : list pystr :=
  match m with
  | NotADirectory directory => [directory]
  | AnonymizeFailed file_name _ => [file_name]
  | DryRunRenaming file_name anonymized_name => [file_name; anonymized_name]
  | Renamed file_name anonymized_name => [file_name; anonymized_name]
  | RenameFailed file_name anonymized_name _ => [file_name; anonymized_name]
  | UnexpectedRenameFailure file_name anonymized_name _ =>
      [file_name; anonymized_name]
  | ProcessingFailed directory _ => [directory]
  end.

(** The line of the record can be written to a log file: the stream of
    a [FileHandler] encodes it in UTF-8 (the encoding of the locale) and
    is strict about it. *)
Definition can_be_written (r : record) : bool :=
  forallb Utf8.encodable (quoted (snd r)).

(** The handler of stream [h] writes the record: it is appended to the
    file the stream is open on.  When the line cannot be encoded the
    write raises inside the handler, which reports it on the side:
    nothing is written. *)
Definition flat_emit (d : dir) (h : Z) (r : record) : dir :=
  match stream_file h (streams d) with
  | Some name =>
      match lookup name (entries d) with
      | Some (Regular _) =>
          if can_be_written r
          then MkDir (path d) (writable d) (entries d) (streams d)
                     (appended d ++ [(name, r)])
          else d
      | _ => d
      end
  | None => d
  end.

(** The name denotes a regular file once links are followed. *)
Definition is_regular_target (d : dir) (name : pystr) : bool :=
  match resolve SYMLOOP_MAX (entries d) name with
  | Some (Regular _) => true
  | _ => false
  end.

(** The directory as a host, for an interpreter whose [hashlib] answers
    [other] to the names outside the four digests of the command line. *)
Definition flat_host_with (other : pystr -> pybytes -> result pystr)
  : Host dir := {|
  os_path_isdir := flat_isdir;
  os_path_isfile := flat_isfile;
  os_listdir := flat_listdir;
  os_rename := flat_rename;
  hashlib_other := other;
  logging_FileHandler := flat_FileHandler;
  handler_emit := flat_emit
|}.

(** The host of the examples: its [hashlib] knows no other name, and
    answers [ValueError] as [hashlib.new] does for a name such as
    [crc32].  (A real [hashlib] knows more digests, [sha224] or
    [blake2b] among them: the statements that are to hold for them too
    are made with [flat_host_with].) *)
#[global] Instance flat_host : Host dir :=
  flat_host_with (fun _ _ => Raise ValueError).

Fixpoint distinct (ns : list pystr) : bool :=
  match ns with
  | [] => true
  | n :: t => negb (existsb (str_eqb n) t) && distinct t
  end.



(** What the log streams have written to the file that now holds the
    name. *)
Definition written (d : dir) (name : pystr) : list record :=
  map snd (filter (fun kv => str_eqb (fst kv) name) (appended d)).

(** A file of the directory as an observer sees it: what its name
    denotes, and what has been appended to it. *)
Definition file_content (d : dir) (name : pystr)
  : option node * list record :=
  (lookup name (entries d), written d name).

End FlatDir.

(* ================================================================== *)
(** * The vocabulary of the specification *)

(** The algorithms of the command line ([choices] of [--algorithm]). *)
Inductive HashAlgorithm := MD5 | SHA1 | SHA256 | SHA512.

Definition algorithm_name (a : HashAlgorithm) : pystr :=
  match a with
  | MD5 => lit "md5"
  | SHA1 => lit "sha1"
  | SHA256 => lit "sha256"
  | SHA512 => lit "sha512"
  end.

Definition digest (a : HashAlgorithm) : pybytes -> pybytes :=
  match a with
  | MD5 => Digest.md5
  | SHA1 => Digest.sha1
  | SHA256 => Digest.sha256
  | SHA512 => Digest.sha512
  end.

Definition digest_size (a : HashAlgorithm) : nat :=
  match a with
  | MD5 => 16
  | SHA1 => 20
  | SHA256 => 32
  | SHA512 => 64
  end%nat.

(** [s] begins with [p]; [s] ends with [e]. *)
Definition starts_with (p s : pystr) : Prop := exists r, s = p ++ r.
Definition ends_with (e s : pystr) : Prop := exists r, s = r ++ e.

(** The extension as the specification words it: the substring from the
    final ['.'] (inclusive), or empty if there is none. *)
Definition final_dot_suffix (n : pystr) : pystr :=
  let k := Posixpath.rfind n Posixpath.extsep in
  if k <? 0 then [] else Posixpath.slice_from n k.

(** The final dot lies after the last ['/'] and some character between
    the two is not a dot. *)
Definition has_extension (n : pystr) : bool :=
  let s := Posixpath.rfind n Posixpath.sep in
  let k := Posixpath.rfind n Posixpath.extsep in
  (s <? k) && existsb Posixpath.nondot (Posixpath.slice n (s + 1) k).

Section Vocabulary.

Context {FS : Type} {host : Host FS}.

(** The name can be hashed under [algorithm]. *)
Definition hashable (algorithm file_name : pystr) : bool :=
  match encode_utf8 file_name with
  | Ok data =>
      match hashlib_new_hexdigest algorithm data with
      | Ok _ => true
      | Raise _ => false
      end
  | Raise _ => false
  end.

(** The record logged when [os.rename] raises [e]. *)
Definition rename_error (file_name anonymized_name : pystr) (e : exn)
  : record :=
  if is_OSError e then (ERROR, RenameFailed file_name anonymized_name e)
  else (ERROR, UnexpectedRenameFailure file_name anonymized_name e).

(** The world once one more record is logged. *)
Definition logged (w : world FS) (r : record) : world FS :=
  Running (emit_all (handlers w) r (fs w)) (log w ++ [r]) (handlers w).

(** The world once the records are logged, one after the other. *)
Definition logged_all (w : world FS) (recs : list record) : world FS :=
  fold_left logged recs w.

End Vocabulary.

(** The extension claim as the specification states it: the name
    returned is the prefix, the digest and the final-dot suffix. *)
Definition extension_is_final_dot_suffix : Prop :=
  forall (n p : pystr) (a : HashAlgorithm) (data : pybytes)
         (w : world FlatDir.dir),
    Utf8.encode n = Some data ->
    snd (anonymize_file_name n (algorithm_name a) p w)
    = Ok (Some (p ++ Hex.hexlify (digest a data) ++ final_dot_suffix n)).



(** The dry-run claim as the specification states it: after a dry run
    on a valid directory every file has the name and the content it
    had. *)
Definition dry_run_leaves_files : Prop :=
  forall (a p name : pystr) (w : world FlatDir.dir),
    os_path_isdir (fs w) (FlatDir.path (fs w)) = true ->
    FlatDir.file_content
      (fs (fst (process_directory (FlatDir.path (fs w)) a p true w))) name
    = FlatDir.file_content (fs w) name.

(** The exit-status claim as the specification states it: status 1 when
    the directory path is missing or not a directory, with no file
    touched; status 0 otherwise. *)
Definition status_follows_directory : Prop :=
  forall (a : args) (w : world FlatDir.dir),
    (os_path_isdir (fs w) (directory a) = false ->
     snd (script a w) = 1 /\ fs (fst (script a w)) = fs w)
    /\ (os_path_isdir (fs w) (directory a) = true ->
        snd (script a w) = 0).

(** The purity claim as the specification states it: a call of
    [anonymize_file_name] has no side effect. *)
Definition anonymize_has_no_effect : Prop :=
  forall (n a p : pystr) (w : world FlatDir.dir),
    fst (anonymize_file_name n a p w) = w.

(* ================================================================== *)
(** * Sample directories *)

Module Samples.
Import FlatDir.

Definition data : pystr := lit "/data".

(** The name [anonymize_file_name] gives under SHA-256 and the default
    prefix. *)
Definition anonymized (n : pystr) : pystr :=
  lit "anonymized_" ++ Hex.hexlify (Digest.sha256 n)
    ++ snd (Posixpath.splitext n).

(** One file, [report.txt]. *)
Definition report : dir :=
  Dir data true [(lit "report.txt", Regular (lit "figures"))].

(** A subdirectory [archive] and a file [a.log]. *)
Definition mixed : dir :=
  Dir data true [(lit "archive", Directory); (lit "a.log", Regular (lit "x"))].

(** A symbolic link to a regular file, a FIFO, and the file. *)
Definition linked : dir :=
  Dir data true
      [(lit "ln.txt", Symlink (lit "report.txt"));
       (lit "pipe", Special);
       (lit "report.txt", Regular (lit "figures"))].

(** A name that is not valid UTF-8 (one escaped octet [0x80]) between
    two ordinary files. *)
Definition undecodable : dir :=
  Dir data true
      [(lit "a.txt", Regular (lit "A"));
       ([0xDC80], Regular (lit "?"));
       (lit "b.txt", Regular (lit "B"))].

(** The name that [b.txt] should take is held by a directory. *)
Definition blocked : dir :=
  Dir data true
      [(lit "a.txt", Regular (lit "A"));
       (lit "b.txt", Regular (lit "B"));
       (anonymized (lit "b.txt"), Directory);
       (lit "c.txt", Regular (lit "C"))].

Definition default_args (dry : bool) : args :=
  Args data (lit "sha256") (lit "anonymized_") dry None.

(** The same with [--log-file /data/run.log]: the log file lies in the
    directory that is processed. *)
Definition logging_args (dry : bool) : args :=
  Args data (lit "sha256") (lit "anonymized_") dry
       (Some (lit "/data/run.log")).

(** [--log-file /data/archive]: a path that cannot be opened for
    writing in [mixed], where it is a directory. *)
Definition unopenable_args : args :=
  Args data (lit "sha256") (lit "anonymized_") false
       (Some (lit "/data/archive")).

(** The world [main] runs [process_directory] in, under
    [logging_args], from the directory [report]: the log file is
    created and its handler attached. *)
Definition report_logging (dry : bool) : world dir :=
  fst (attach_log_file (logging_args dry) (World report [])).

(** A file, and another that already holds the name the first is to
    take. *)
Definition clash : dir :=
  Dir data true
      [(lit "a.txt", Regular (lit "new"));
       (anonymized (lit "a.txt"), Regular (lit "old"))].

(** Files, a subdirectory, a FIFO and a name that is not valid UTF-8. *)
Definition office : dir :=
  Dir data true
      [(lit "report.txt", Regular (lit "figures"));
       (lit "archive", Directory);
       (lit ".profile", Regular (lit "set"));
       (lit "pipe", Special);
       ([0x66; 0xDCE9], Regular (lit "?"));
       (lit "notes.tar.gz", Regular (lit "n"))].

End Samples.

(* ================================================================== *)
(** * Outcomes of a run: names, previews, journals *)

Section Outcomes.

Context {FS : Type} {host : Host FS}.

(** The name the [try] block of [anonymize_file_name] computes, or the
    exception its [except] clause catches. *)
Definition name_for (algorithm file_name prefix : pystr) : result pystr :=
  match encode_utf8 file_name with
  | Ok data =>
      match hashlib_new_hexdigest algorithm data with
      | Ok hashed_name =>
          Ok (prefix ++ hashed_name ++ snd (Posixpath.splitext file_name))
      | Raise e => Raise e
      end
  | Raise e => Raise e
  end.

(** What a dry run logs for the name [n] of the listing of [d], on the
    file system [f]. *)
Definition preview (d algorithm prefix : pystr) (f : FS) (n : pystr)
  : list record :=
  if os_path_isfile f (Posixpath.join d n) then
    match name_for algorithm n prefix with
    | Ok (c :: r) => [(INFO, DryRunRenaming n (c :: r))]
    | Ok [] => []
    | Raise e => [(ERROR, AnonymizeFailed n e)]
    end
  else [].

(** The file system [f] once the handlers [hs] have written the
    records. *)
Definition emitted (hs : list Z) (recs : list record) (f : FS) : FS :=
  fold_left (fun f' r => emit_all hs r f') recs f.

(** What a dry run logs for the names, one after the other, from the
    file system [f] with the file handlers [hs] attached: a record that
    is written to a log file changes the file system the next name is
    looked up in. *)
Fixpoint previews (d algorithm prefix : pystr) (hs : list Z)
    (names : list pystr) (f : FS) : list record :=
  match names with
  | [] => []
  | n :: t =>
      preview d algorithm prefix f n
      ++ previews d algorithm prefix hs t
           (emitted hs (preview d algorithm prefix f n) f)
  end.

(** The rename that a record reports, done again on [f]; another record
    reports no change. *)
Definition redo (d : pystr) (r : record) (f : FS) : result FS :=
  match r with
  | (INFO, Renamed src dst) =>
      os_rename f (Posixpath.join d src) (Posixpath.join d dst)
  | _ => Ok f
  end.

(** The records of a log replayed in order on the file system [f]: the
    rename a record reports is done again, then the handlers [hs] write
    the record. *)
Fixpoint replay (d : pystr) (hs : list Z) (recs : list record) (f : FS)
  : result FS :=
  match recs with
  | [] => Ok f
  | r :: t =>
      match redo d r f with
      | Ok f' => replay d hs t (emit_all hs r f')
      | Raise e => Raise e
      end
  end.

(** The record reports a rename that was done. *)
Definition is_rename_report (r : record) : bool :=
  match r with
  | (INFO, Renamed _ _) => true
  | _ => false
  end.

(** The preview of a record: a rename as the dry run announces it. *)
Definition as_preview (r : record) : record :=
  match r with
  | (INFO, Renamed file_name anonymized_name) =>
      (INFO, DryRunRenaming file_name anonymized_name)
  | _ => r
  end.

(** The records of a level. *)
Definition at_level (l : level) (recs : list record) : list record :=
  filter (fun r => match fst r, l with
                   | INFO, INFO | ERROR, ERROR => true
                   | _, _ => false
                   end) recs.

End Outcomes.

Module Renaming.
Import FlatDir.

(** The name a file takes under a digest of the command line. *)
Definition new_name (a : HashAlgorithm) (p n : pystr) : option pystr :=
  match Utf8.encode n with
  | Some data =>
      Some (p ++ Hex.hexlify (digest a data) ++ snd (Posixpath.splitext n))
  | None => None
  end.

(** An entry after the run: a regular file whose name can be encoded
    has its new name, anything else is as it was. *)
Definition target (a : HashAlgorithm) (p : pystr) (kv : pystr * node)
  : pystr * node :=
  match snd kv, new_name a p (fst kv) with
  | Regular _, Some n' => (n', snd kv)
  | _, _ => kv
  end.

(** The names the run introduces. *)
Definition new_names (a : HashAlgorithm) (p : pystr)
    (es : list (pystr * node)) : list pystr :=
  flat_map (fun kv => match snd kv, new_name a p (fst kv) with
                      | Regular _, Some n' => [n']
                      | _, _ => []
                      end) es.

(** The record the run logs for an entry. *)
Definition journal (a : HashAlgorithm) (p : pystr) (kv : pystr * node)
  : list record :=
  match snd kv with
  | Regular _ =>
      match new_name a p (fst kv) with
      | Some n' => [(INFO, Renamed (fst kv) n')]
      | None => [(ERROR, AnonymizeFailed (fst kv) UnicodeEncodeError)]
      end
  | _ => []
  end.

Definition no_links (es : list (pystr * node)) : bool :=
  forallb (fun kv => match snd kv with Symlink _ => false | _ => true end)
          es.

(** The string holds no ['/']. *)
Definition no_sep (s : pystr) : bool :=
  negb (existsb (Z.eqb Posixpath.sep) s).

(** The name can be given to a file of the directory of path [dpath]:
    Python can make the path, and the system accepts its length. *)
Definition fits (dpath name : pystr) : bool :=
  match refused dpath name with
  | None => true
  | Some _ => false
  end.

End Renaming.

(* ================================================================== *)
(** * Facts: strings, UTF-8, hexadecimal digits *)

Lemma str_eqb_eq (a b : pystr) : str_eqb a b = true <-> a = b.
Proof.
  revert b; induction a as [|x a IH]; intros [|y b]; simpl;
    try (split; [discriminate | discriminate]); try tauto.
  rewrite andb_true_iff, Z.eqb_eq, IH.
  split; [intros [-> ->]; reflexivity | intros H; inversion H; auto].
Qed.

Lemma str_eqb_refl (a : pystr) : str_eqb a a = true.
Proof. apply str_eqb_eq; reflexivity. Qed.

Lemma str_eqb_neq (a b : pystr) : str_eqb a b = false <-> a <> b.
Proof.
  rewrite <- str_eqb_eq. destruct (str_eqb a b); split; congruence.
Qed.

Lemma str_eqb_sym (a b : pystr) : str_eqb a b = str_eqb b a.
Proof.
  destruct (str_eqb a b) eqn:E.
  - apply str_eqb_eq in E. subst. symmetry. apply str_eqb_refl.
  - symmetry. apply str_eqb_neq. apply str_eqb_neq in E. congruence.
Qed.

Module Utf8Facts.
Import Utf8.

Lemma encode_cp_scalar (c : Z) :
  scalar c = true <-> exists b, encode_cp c = Some b.
Proof.
  unfold scalar, encode_cp.
  destruct (c <? 0) eqn:E0; destruct (c <? 0x80) eqn:E1;
    destruct (c <? 0x800) eqn:E2;
    destruct ((0xD800 <=? c) && (c <=? 0xDFFF)) eqn:E3;
    destruct (c <? 0x10000) eqn:E4; destruct (c <? 0x110000) eqn:E5;
    destruct (0 <=? c) eqn:E6; simpl;
    try (split; [intros _; eexists; reflexivity | reflexivity]);
    try (split; [discriminate | intros [b Hb]; discriminate]);
    exfalso;
    repeat match goal with
           | H : (_ && _) = true |- _ => apply andb_true_iff in H; destruct H
           | H : (_ <? _) = true |- _ => apply Z.ltb_lt in H
           | H : (_ <? _) = false |- _ => apply Z.ltb_ge in H
           | H : (_ <=? _) = true |- _ => apply Z.leb_le in H
           | H : (_ <=? _) = false |- _ => apply Z.leb_gt in H
           end; lia.
Qed.

(** [encode] succeeds exactly on the strings of scalar values. *)
Lemma encodable_encode (s : pystr) :
  encodable s = true <-> exists b, encode s = Some b.
Proof.
  induction s as [|c s IH]; simpl.
  - split; [eexists; reflexivity | reflexivity].
  - fold (encodable s). rewrite andb_true_iff, IH, encode_cp_scalar.
    split.
    + intros [[b Hb] [bs Hbs]]. rewrite Hb, Hbs. eexists; reflexivity.
    + intros [b Hb]. destruct (encode_cp c); [|discriminate].
      destruct (encode s); [|discriminate]. split; eexists; reflexivity.
Qed.

Lemma not_encodable_encode (s : pystr) :
  encodable s = false <-> encode s = None.
Proof.
  destruct (encodable s) eqn:E.
  - apply encodable_encode in E. destruct E as [b ->].
    split; discriminate.
  - split; [intros _|reflexivity].
    destruct (encode s) eqn:E'; [|reflexivity].
    assert (encodable s = true) by (apply encodable_encode; eauto).
    congruence.
Qed.

(** The encoder follows the standard: some fixed points of it. *)
Example encode_ascii : encode (lit "a.txt") = Some [97; 46; 116; 120; 116].
Proof. reflexivity. Qed.

Example encode_two_three_four :
  encode [0xE9; 0x20AC; 0x1F600]
  = Some [0xC3; 0xA9; 0xE2; 0x82; 0xAC; 0xF0; 0x9F; 0x98; 0x80].
Proof. reflexivity. Qed.

Example encode_surrogate : encode [0xDC80] = None.
Proof. reflexivity. Qed.

End Utf8Facts.

Module HexFacts.
Import Hex.

Lemma nibble_range (x : Z) : 0 <= Z.land x 15 < 16.
Proof.
  change 15 with (Z.ones 4). rewrite Z.land_ones by lia.
  apply Z.mod_pos_bound. reflexivity.
Qed.

Lemma digit_lower_hex (d : Z) : 0 <= d < 16 -> is_lower_hex (digit d) = true.
Proof.
  intros H. unfold digit, is_lower_hex.
  destruct (d <? 10) eqn:E.
  - apply Z.ltb_lt in E. apply orb_true_iff. left.
    apply andb_true_iff. split; apply Z.leb_le; lia.
  - apply Z.ltb_ge in E. apply orb_true_iff. right.
    apply andb_true_iff. split; apply Z.leb_le; lia.
Qed.

(** Every character of a hexadecimal rendering is in [0-9a-f]. *)
Lemma hexlify_lower (bs : pybytes) : forallb is_lower_hex (hexlify bs) = true.
Proof.
  induction bs as [|b bs IH]; simpl; [reflexivity|].
  rewrite !digit_lower_hex by apply nibble_range. exact IH.
Qed.

Lemma hexlify_length (bs : pybytes) :
  length (hexlify bs) = (2 * length bs)%nat.
Proof.
  induction bs as [|b bs IH]; simpl; [reflexivity|]. rewrite IH. lia.
Qed.

Lemma lower_hex_not_sep_dot (c : Z) :
  is_lower_hex c = true -> c <> Posixpath.sep /\ c <> Posixpath.extsep.
Proof.
  unfold is_lower_hex, Posixpath.sep, Posixpath.extsep. intros H.
  apply orb_true_iff in H.
  destruct H as [H|H]; apply andb_true_iff in H; destruct H as [H1 H2];
    apply Z.leb_le in H1; apply Z.leb_le in H2; lia.
Qed.

Example hexlify_bytes : hexlify [0; 10; 171; 255] = lit "000aabff".
Proof. reflexivity. Qed.

End HexFacts.

(* ================================================================== *)
(** * Facts: the digests *)

Module DigestFacts.
Import Digest.

Lemma be_bytes_length (n : nat) (x : Z) : length (be_bytes n x) = n.
Proof. induction n as [|n IH]; simpl; [reflexivity | now rewrite IH]. Qed.

Lemma le_bytes_length (n : nat) (x : Z) : length (le_bytes n x) = n.
Proof.
  revert x; induction n as [|n IH]; intros x; simpl;
    [reflexivity | now rewrite IH].
Qed.

Lemma md5_length (msg : pybytes) : length (md5 msg) = 16%nat.
Proof.
  unfold md5. destruct (fold_left _ _ _) as [[[a b] c] d].
  rewrite !length_app, !le_bytes_length. reflexivity.
Qed.

Lemma sha1_length (msg : pybytes) : length (sha1 msg) = 20%nat.
Proof.
  unfold sha1. destruct (fold_left _ _ _) as [[[[a b] c] d] e].
  rewrite !length_app, !be_bytes_length. reflexivity.
Qed.

Lemma sha256_length (msg : pybytes) : length (sha256 msg) = 32%nat.
Proof.
  unfold sha256.
  destruct (fold_left _ _ _) as [[[[[[[a b] c] d] e] f] g] h].
  rewrite !length_app, !be_bytes_length. reflexivity.
Qed.

Lemma sha512_length (msg : pybytes) : length (sha512 msg) = 64%nat.
Proof.
  unfold sha512.
  destruct (fold_left _ _ _) as [[[[[[[a b] c] d] e] f] g] h].
  rewrite !length_app, !be_bytes_length. reflexivity.
Qed.

(** The padded message fills whole blocks. *)
Lemma pad_length (block lenbytes : nat) (enc : nat -> Z -> pybytes)
    (msg : pybytes) :
  (0 < block)%nat ->
  (forall n x, length (enc n x) = n) ->
  (Z.of_nat (length (pad block lenbytes enc msg)) mod Z.of_nat block = 0)%Z.
Proof.
  intros Hb Henc. unfold pad.
  rewrite !length_app, Henc, repeat_length. simpl length.
  set (B := Z.of_nat block).
  set (L := Z.of_nat (length msg) + 1 + Z.of_nat lenbytes).
  assert (HB : 0 < B) by (unfold B; lia).
  rewrite !Nat2Z.inj_add, Z2Nat.id
    by (apply Z.mod_pos_bound; exact HB).
  replace (Z.of_nat (length msg) +
           (Z.of_nat 1 + ((B - L mod B) mod B + Z.of_nat lenbytes)))
    with (L + (B - L mod B) mod B) by (unfold L; lia).
  rewrite Z.add_mod_idemp_r by lia.
  replace (L + (B - L mod B)) with (B + (L - L mod B)) by lia.
  rewrite (Z.div_mod L B) at 1 by lia.
  replace (B + (B * (L / B) + L mod B - L mod B)) with ((1 + L / B) * B)
    by lia.
  apply Z.mod_mul. lia.
Qed.

(** The ends of the tables of round constants, as FIPS 180-4 prints
    them. *)
Example sha256_K_ends :
  length sha256_K = 64%nat
  /\ nth 0 sha256_K 0 = 0x428a2f98 /\ nth 63 sha256_K 0 = 0xc67178f2.
Proof. repeat split. Qed.

Example sha512_K_ends :
  length sha512_K = 80%nat
  /\ nth 0 sha512_K 0 = 0x428a2f98d728ae22
  /\ nth 79 sha512_K 0 = 0x6c44198c4a475817.
Proof. repeat split. Qed.

(** Published test vectors (RFC 1321, FIPS 180-4) and the padding
    boundaries of one and two blocks. *)
Example md5_empty :
  Hex.hexlify (md5 []) = lit "d41d8cd98f00b204e9800998ecf8427e".
Proof. vm_compute. reflexivity. Qed.

Example md5_abc :
  Hex.hexlify (md5 (lit "abc")) = lit "900150983cd24fb0d6963f7d28e17f72".
Proof. vm_compute. reflexivity. Qed.

Example md5_two_blocks :
  Hex.hexlify (md5 (repeat 97 56)) = lit "3b0c8ac703f828b04c6c197006d17218".
Proof. vm_compute. reflexivity. Qed.

Example sha1_empty :
  Hex.hexlify (sha1 []) = lit "da39a3ee5e6b4b0d3255bfef95601890afd80709".
Proof. vm_compute. reflexivity. Qed.

Example sha1_abc :
  Hex.hexlify (sha1 (lit "abc"))
  = lit "a9993e364706816aba3e25717850c26c9cd0d89d".
Proof. vm_compute. reflexivity. Qed.

Example sha1_two_blocks :
  Hex.hexlify
    (sha1 (lit "abcdbcdecdefdefgefghfghighijhijkijkljklmklmnlmnomnopnopq"))
  = lit "84983e441c3bd26ebaae4aa1f95129e5e54670f1".
Proof. vm_compute. reflexivity. Qed.

Example sha256_empty :
  Hex.hexlify (sha256 [])
  = lit "e3b0c44298fc1c149afbf4c8996fb92427ae41e4649b934ca495991b7852b855".
Proof. vm_compute. reflexivity. Qed.

Example sha256_abc :
  Hex.hexlify (sha256 (lit "abc"))
  = lit "ba7816bf8f01cfea414140de5dae2223b00361a396177a9cb410ff61f20015ad".
Proof. vm_compute. reflexivity. Qed.

Example sha256_two_blocks :
  Hex.hexlify
    (sha256 (lit "abcdbcdecdefdefgefghfghighijhijkijkljklmklmnlmnomnopnopq"))
  = lit "248d6a61d20638b8e5c026930c3e6039a33ce45964ff2167f6ecedd419db06c1".
Proof. vm_compute. reflexivity. Qed.

Example sha512_empty :
  Hex.hexlify (sha512 [])
  = lit ("cf83e1357eefb8bdf1542850d66d8007d620e4050b5715dc83f4a921d36ce9ce"
      ++ "47d0d13c5d85f2b0ff8318d2877eec2f63b931bd47417a81a538327af927da3e").
Proof. vm_compute. reflexivity. Qed.

Example sha512_abc :
  Hex.hexlify (sha512 (lit "abc"))
  = lit ("ddaf35a193617abacc417349ae20413112e6fa4e89a97ea20a9eeee64b55d39a"
      ++ "2192992a274fc1a836ba3c23a3feebbd454d4423643ce80e2a9ac94fa54ca49f").
Proof. vm_compute. reflexivity. Qed.

Example sha512_two_blocks :
  Hex.hexlify (sha512 (repeat 97 112))
  = lit ("c01d080efd492776a1c43bd23dd99d0a2e626d481e16782e75d54c2503b5dc32"
      ++ "bd05f0f1ba33e568b88fd2d970929b719ecbb152f58f130a407c8830604b70ca").
Proof. vm_compute. reflexivity. Qed.

End DigestFacts.

Lemma digest_length (a : HashAlgorithm) (data : pybytes) :
  length (digest a data) = digest_size a.
Proof.
  destruct a; simpl.
  - apply DigestFacts.md5_length.
  - apply DigestFacts.sha1_length.
  - apply DigestFacts.sha256_length.
  - apply DigestFacts.sha512_length.
Qed.

Lemma digest_hex_nonempty (a : HashAlgorithm) (data : pybytes) :
  exists c r, Hex.hexlify (digest a data) = r ++ [c].
Proof.
  destruct (Hex.hexlify (digest a data)) as [|x l] eqn:E
    using rev_ind.
  - pose proof (HexFacts.hexlify_length (digest a data)) as H.
    rewrite E, digest_length in H. destruct a; discriminate.
  - eauto.
Qed.

(* ================================================================== *)
(** * Facts: [rfind], [splitext] and [join] *)

Module PosixpathFacts.
Import Posixpath.

Lemma rfind_from_notin (c : Z) (s : pystr) (i acc : Z) :
  ~ In c s -> rfind_from c s i acc = acc.
Proof.
  revert i acc; induction s as [|x s IH]; intros i acc H; simpl;
    [reflexivity|].
  rewrite IH by (intros K; apply H; right; exact K).
  destruct (Z.eqb_spec x c) as [->|_]; [|reflexivity].
  exfalso. apply H. left. reflexivity.
Qed.

Lemma rfind_from_last (c : Z) (u v : pystr) (i acc : Z) :
  ~ In c v ->
  rfind_from c (u ++ c :: v) i acc = i + Z.of_nat (length u).
Proof.
  revert i acc; induction u as [|x u IH]; intros i acc H.
  - simpl. rewrite Z.eqb_refl, rfind_from_notin by assumption. lia.
  - simpl app. simpl rfind_from. rewrite IH by assumption.
    simpl length. lia.
Qed.

(** The last occurrence of a character that occurs. *)
Lemma last_occurrence (c : Z) (s : pystr) :
  In c s -> exists u v, s = u ++ c :: v /\ ~ In c v.
Proof.
  induction s as [|x s IH]; intros H; [contradiction|].
  destruct (in_dec Z.eq_dec c s) as [Hin|Hnot].
  - destruct (IH Hin) as (u & v & -> & Hv).
    exists (x :: u), v. split; [reflexivity | assumption].
  - destruct H as [->|H]; [|contradiction].
    exists [], s. split; [reflexivity | assumption].
Qed.

Lemma rfind_notin (s : pystr) (c : Z) : ~ In c s -> rfind s c = -1.
Proof. intros H. unfold rfind. now apply rfind_from_notin. Qed.

Lemma rfind_last (u v : pystr) (c : Z) :
  ~ In c v -> rfind (u ++ c :: v) c = Z.of_nat (length u).
Proof. intros H. unfold rfind. now rewrite rfind_from_last. Qed.

(** [rfind] returns [-1] on a string without [c], and otherwise the
    index that splits the string at the last [c]. *)
Lemma rfind_spec (s : pystr) (c : Z) :
  (~ In c s /\ rfind s c = -1)
  \/ (exists u v, s = u ++ c :: v /\ ~ In c v
                  /\ rfind s c = Z.of_nat (length u)).
Proof.
  destruct (in_dec Z.eq_dec c s) as [Hin|Hnot].
  - right. destruct (last_occurrence c s Hin) as (u & v & -> & Hv).
    exists u, v. repeat split; try assumption. now apply rfind_last.
  - left. split; [assumption | now apply rfind_notin].
Qed.

Lemma rfind_bounds (s : pystr) (c : Z) :
  -1 <= rfind s c < Z.of_nat (length s).
Proof.
  destruct (rfind_spec s c) as [[_ ->]|(u & v & -> & _ & ->)].
  - lia.
  - rewrite length_app. simpl. lia.
Qed.

Lemma rfind_app_r (a b : pystr) (c : Z) :
  In c b -> rfind (a ++ b) c = Z.of_nat (length a) + rfind b c.
Proof.
  intros H. destruct (last_occurrence c b H) as (u & v & -> & Hv).
  rewrite app_assoc, !rfind_last by assumption.
  rewrite length_app. lia.
Qed.

Lemma rfind_app_l (a b : pystr) (c : Z) :
  ~ In c b -> rfind (a ++ b) c = rfind a c.
Proof.
  intros H. destruct (rfind_spec a c) as [[Ha ->]|(u & v & -> & Hv & ->)].
  - apply rfind_notin. rewrite in_app_iff. tauto.
  - rewrite <- app_assoc. simpl app. apply rfind_last.
    rewrite in_app_iff. tauto.
Qed.

(** ** Slices *)

Lemma slice_from_app (u v : pystr) :
  slice_from (u ++ v) (Z.of_nat (length u)) = v.
Proof.
  unfold slice_from. rewrite Nat2Z.id.
  rewrite skipn_app, skipn_all, Nat.sub_diag. reflexivity.
Qed.

Lemma slice_to_app (u v : pystr) :
  slice_to (u ++ v) (Z.of_nat (length u)) = u.
Proof.
  unfold slice_to. rewrite Nat2Z.id.
  rewrite firstn_app, firstn_all, Nat.sub_diag. simpl.
  apply app_nil_r.
Qed.

Lemma skipn_S_cons {A} (n : nat) (l : list A) (x : A) (r : list A) :
  skipn n l = x :: r -> skipn (S n) l = r.
Proof.
  revert l; induction n as [|n IH]; intros l H.
  - simpl in H. subst. reflexivity.
  - destruct l as [|y l]; [discriminate|]. simpl in H.
    change (skipn (S (S n)) (y :: l)) with (skipn (S n) l). now apply IH.
Qed.

Lemma skipn_nonempty {A} (n : nat) (l : list A) :
  (n < length l)%nat -> exists x r, skipn n l = x :: r.
Proof.
  revert l; induction n as [|n IH]; intros [|y l] H; simpl in *;
    try lia; eauto.
  apply IH. lia.
Qed.

(** The loop finds a character that is not a dot in
    [p[filenameIndex:dotIndex]], or there is none. *)
Lemma skip_leading_dots_spec (n : nat) (p : pystr) (k i : Z) :
  0 <= i -> k <= Z.of_nat (length p) -> n = Z.to_nat (k - i) ->
  skip_leading_dots n p k i
  = if existsb nondot (slice p i k)
    then (slice_to p k, slice_from p k) else (p, []).
Proof.
  revert i; induction n as [|n IH]; intros i Hi Hk Hn.
  - simpl. unfold slice. rewrite <- Hn. reflexivity.
  - assert (Hlt : i < k) by lia.
    simpl. apply Z.ltb_lt in Hlt as Hb. rewrite Hb. clear Hb.
    destruct (skipn_nonempty (Z.to_nat i) p) as (x & r & Hs); [lia|].
    unfold slice at 1.
    replace (i + 1 - i) with 1 by lia. rewrite Hs.
    change (firstn (Z.to_nat 1) (x :: r)) with [x].
    assert (Hsl : slice p i k = x :: slice p (i + 1) k).
    { unfold slice. rewrite Hs.
      replace (Z.to_nat (k - i)) with (S (Z.to_nat (k - (i + 1)))) by lia.
      simpl firstn. f_equal. f_equal.
      replace (Z.to_nat (i + 1)) with (S (Z.to_nat i)) by lia.
      symmetry. exact (skipn_S_cons _ _ _ _ Hs). }
    rewrite Hsl. simpl existsb. unfold nondot at 1.
    simpl str_eqb. rewrite andb_true_r.
    destruct (x =? extsep); simpl.
    + apply IH; lia.
    + reflexivity.
Qed.

(** The extension [splitext] returns, in closed form. *)
Lemma splitext_snd (n : pystr) :
  snd (splitext n)
  = if has_extension n then slice_from n (rfind n extsep) else [].
Proof.
  unfold splitext, has_extension.
  pose proof (rfind_bounds n sep) as Hs.
  pose proof (rfind_bounds n extsep) as Hk.
  destruct (rfind n sep <? rfind n extsep) eqn:E; simpl; [|reflexivity].
  rewrite skip_leading_dots_spec by lia.
  destruct (existsb nondot _); reflexivity.
Qed.

Lemma splitext_fst (n : pystr) :
  fst (splitext n)
  = if has_extension n then slice_to n (rfind n extsep) else n.
Proof.
  unfold splitext, has_extension.
  pose proof (rfind_bounds n sep) as Hs.
  pose proof (rfind_bounds n extsep) as Hk.
  destruct (rfind n sep <? rfind n extsep) eqn:E; simpl; [|reflexivity].
  rewrite skip_leading_dots_spec by lia.
  destruct (existsb nondot _); reflexivity.
Qed.

(** [splitext] splits: root and extension make the name again. *)
Lemma splitext_app (n : pystr) : fst (splitext n) ++ snd (splitext n) = n.
Proof.
  rewrite splitext_fst, splitext_snd.
  destruct (has_extension n); [|apply app_nil_r].
  apply firstn_skipn.
Qed.

Lemma has_extension_dot (n : pystr) :
  has_extension n = true -> 0 <= rfind n extsep.
Proof.
  unfold has_extension. intros H. apply andb_true_iff in H.
  destruct H as [H _]. apply Z.ltb_lt in H.
  pose proof (rfind_bounds n sep). lia.
Qed.

Lemma no_dot_no_extension (n : pystr) :
  ~ In extsep n -> has_extension n = false.
Proof.
  intros H. unfold has_extension. rewrite (rfind_notin n extsep H).
  pose proof (rfind_bounds n sep).
  destruct (rfind n sep <? -1) eqn:E; [|reflexivity].
  apply Z.ltb_lt in E. lia.
Qed.

(** A name with an extension is a root, a dot and a tail that holds
    neither a dot nor a separator. *)
Lemma has_extension_shape (n : pystr) :
  has_extension n = true ->
  exists u v, n = u ++ extsep :: v /\ ~ In extsep v /\ ~ In sep v
              /\ rfind n extsep = Z.of_nat (length u).
Proof.
  intros H. pose proof (has_extension_dot _ H) as Hd.
  destruct (rfind_spec n extsep) as [[_ E]|(u & v & Hn & Hv & Hk)]; [lia|].
  exists u, v. repeat split; try assumption.
  intros Hsep.
  unfold has_extension in H. apply andb_true_iff in H. destruct H as [H _].
  apply Z.ltb_lt in H. rewrite Hk in H.
  rewrite Hn in H. rewrite rfind_app_r in H by (right; exact Hsep).
  pose proof (rfind_bounds (extsep :: v) sep) as Hb.
  destruct (rfind_spec (extsep :: v) sep)
    as [[Hno _]|(u' & v' & E' & _ & Hr)].
  - apply Hno. right. exact Hsep.
  - destruct u' as [|y u']; [discriminate E'|].
    rewrite Hr in H. simpl length in H. lia.
Qed.

(** A dotted tail after a character that is neither a dot nor a
    separator is the extension. *)
Lemma splitext_intro (a : pystr) (h : Z) (v : pystr) :
  h <> extsep -> h <> sep -> ~ In extsep v -> ~ In sep v ->
  snd (splitext (a ++ [h] ++ extsep :: v)) = extsep :: v.
Proof.
  intros Hh1 Hh2 Hv1 Hv2.
  set (n := a ++ [h] ++ extsep :: v).
  assert (En : n = (a ++ [h]) ++ extsep :: v)
    by (unfold n; now rewrite <- app_assoc).
  assert (Hk : rfind n extsep = Z.of_nat (length (a ++ [h])))
    by (rewrite En; now apply rfind_last).
  assert (Hs : rfind n sep = rfind a sep).
  { rewrite En. rewrite rfind_app_l.
    - apply rfind_app_l. simpl. intros [K|[]]. congruence.
    - simpl. intros [K|K]; [discriminate K | contradiction]. }
  rewrite splitext_snd.
  assert (Hx : has_extension n = true).
  { unfold has_extension. rewrite Hk, Hs.
    pose proof (rfind_bounds a sep) as Hb.
    rewrite length_app. simpl length.
    apply andb_true_iff. split; [apply Z.ltb_lt; lia|].
    apply existsb_exists. exists h. split.
    - unfold slice, n.
      set (i := Z.to_nat (rfind a sep + 1)).
      assert (Hi : (i <= length a)%nat) by (unfold i; lia).
      rewrite skipn_app.
      replace (i - length a)%nat with 0%nat by lia. simpl skipn.
      rewrite firstn_app.
      rewrite length_skipn.
      replace (Z.to_nat (Z.of_nat (length a + 1) - (rfind a sep + 1))
               - (length a - i))%nat with 1%nat by (unfold i; lia).
      rewrite in_app_iff. right. left. reflexivity.
    - unfold nondot. apply negb_true_iff. now apply Z.eqb_neq. }
  rewrite Hx, Hk, En. apply slice_from_app.
Qed.

(** [splitext] as Python computes it, on a few names. *)
Example splitext_plain :
  splitext (lit "report.txt") = (lit "report", lit ".txt").
Proof. reflexivity. Qed.

Example splitext_two_dots :
  splitext (lit "a.tar.gz") = (lit "a.tar", lit ".gz").
Proof. reflexivity. Qed.

Example splitext_leading_dot : splitext (lit ".bashrc") = (lit ".bashrc", []).
Proof. reflexivity. Qed.

Example splitext_dots_only : splitext (lit "...") = (lit "...", []).
Proof. reflexivity. Qed.

Example splitext_dot_in_directory :
  splitext (lit "a.b/c") = (lit "a.b/c", []).
Proof. reflexivity. Qed.

Example splitext_trailing_dot : splitext (lit "x.") = (lit "x", lit ".").
Proof. reflexivity. Qed.

Example join_plain : join (lit "/data") (lit "a.log") = lit "/data/a.log".
Proof. reflexivity. Qed.

Example join_trailing_sep : join (lit "/data/") (lit "a.log") = lit "/data/a.log".
Proof. reflexivity. Qed.

Example join_absolute : join (lit "/data") (lit "/etc/x") = lit "/etc/x".
Proof. reflexivity. Qed.

End PosixpathFacts.

(* ================================================================== *)
(** * Facts: the program over any host *)

Section ProgramFacts.

Context {FS : Type} {host : Host FS}.

Local Open Scope py_scope.

(** The digest [hashlib.new] selects for each name of the command
    line. *)
Lemma hashlib_supported (a : HashAlgorithm) (data : pybytes) :
  hashlib_new_hexdigest (algorithm_name a) data
  = Ok (Hex.hexlify (digest a data)).
Proof. destruct a; reflexivity. Qed.

(** [anonymize_file_name], path by path. *)
Lemma anonymize_file_name_cases (n a p : pystr) (w : world FS) :
  anonymize_file_name n a p w
  = match encode_utf8 n with
    | Raise e => (logged w (ERROR, AnonymizeFailed n e), Ok None)
    | Ok data =>
        match hashlib_new_hexdigest a data with
        | Raise e => (logged w (ERROR, AnonymizeFailed n e), Ok None)
        | Ok h => (w, Ok (Some (p ++ h ++ snd (Posixpath.splitext n))))
        end
    end.
Proof.
  unfold anonymize_file_name, try_except, bind, of_result, ret,
    logging_error, handle, logged.
  destruct (encode_utf8 n) as [data|e]; [|reflexivity].
  destruct (hashlib_new_hexdigest a data) as [h|e]; reflexivity.
Qed.

Lemma anonymize_file_name_fails (n a p : pystr) (w : world FS) :
  hashable a n = false ->
  exists e,
    anonymize_file_name n a p w
    = (logged w (ERROR, AnonymizeFailed n e), Ok None).
Proof.
  unfold hashable. rewrite anonymize_file_name_cases.
  destruct (encode_utf8 n) as [data|e]; [|eauto].
  destruct (hashlib_new_hexdigest a data) as [h|e]; [discriminate|eauto].
Qed.

(** [anonymize_file_name] in terms of the name its [try] block
    computes. *)
Lemma anonymize_file_name_name_for (n a p : pystr) (w : world FS) :
  anonymize_file_name n a p w
  = match name_for a n p with
    | Ok name => (w, Ok (Some name))
    | Raise e => (logged w (ERROR, AnonymizeFailed n e), Ok None)
    end.
Proof.
  rewrite anonymize_file_name_cases. unfold name_for.
  destruct (encode_utf8 n) as [data|e]; [|reflexivity].
  destruct (hashlib_new_hexdigest a data) as [h|e]; reflexivity.
Qed.

(** The value returned does not depend on the world. *)
Lemma anonymize_file_name_value (n a p : pystr) (w1 w2 : world FS) :
  snd (anonymize_file_name n a p w1) = snd (anonymize_file_name n a p w2).
Proof.
  rewrite !anonymize_file_name_cases.
  destruct (encode_utf8 n) as [data|e]; [|reflexivity].
  destruct (hashlib_new_hexdigest a data) as [h|e]; reflexivity.
Qed.

Lemma anonymize_file_name_hashable (n a p : pystr) (w : world FS) :
  hashable a n = true ->
  exists name, anonymize_file_name n a p w = (w, Ok (Some name)).
Proof.
  unfold hashable. rewrite anonymize_file_name_cases.
  destruct (encode_utf8 n) as [data|e]; [|discriminate].
  destruct (hashlib_new_hexdigest a data) as [h|e]; [eauto|discriminate].
Qed.

(** One turn of the loop, path by path. *)
Lemma process_entry_cases (d a p : pystr) (dry : bool) (f : pystr)
    (w : world FS) :
  process_entry d a p dry f w
  = if os_path_isfile (fs w) (Posixpath.join d f) then
      match anonymize_file_name f a p w with
      | (w1, Ok (Some (c :: r))) =>
          if dry then (logged w1 (INFO, DryRunRenaming f (c :: r)), Ok tt)
          else
            match os_rename (fs w1) (Posixpath.join d f)
                            (Posixpath.join d (c :: r)) with
            | Ok f' => (logged (Running f' (log w1) (handlers w1))
                               (INFO, Renamed f (c :: r)),
                        Ok tt)
            | Raise e => (logged w1 (rename_error f (c :: r) e), Ok tt)
            end
      | (w1, _) => (w1, Ok tt)
      end
    else (w, Ok tt).
Proof.
  unfold process_entry, bind, isfile.
  destruct (os_path_isfile (fs w) (Posixpath.join d f)); [|reflexivity].
  rewrite anonymize_file_name_cases.
  destruct (encode_utf8 f) as [data|e]; [|reflexivity].
  destruct (hashlib_new_hexdigest a data) as [h|e]; [|reflexivity].
  destruct (p ++ h ++ snd (Posixpath.splitext f)) as [|c r]; [reflexivity|].
  cbv beta iota delta [truthy].
  destruct dry; [reflexivity|].
  cbv beta iota delta [try_except bind rename logging_info logging_error
                       handle rename_error logged].
  destruct (os_rename (fs w) (Posixpath.join d f)
                      (Posixpath.join d (c :: r))) as [f'|e];
    [reflexivity|].
  destruct (is_OSError e); reflexivity.
Qed.

(** One turn of the loop in terms of the name computed. *)
Lemma process_entry_outcome (d a p : pystr) (dry : bool) (n : pystr)
    (w : world FS) :
  process_entry d a p dry n w
  = if os_path_isfile (fs w) (Posixpath.join d n) then
      match name_for a n p with
      | Ok (c :: r) =>
          if dry then (logged w (INFO, DryRunRenaming n (c :: r)), Ok tt)
          else
            match os_rename (fs w) (Posixpath.join d n)
                            (Posixpath.join d (c :: r)) with
            | Ok f' => (logged (Running f' (log w) (handlers w))
                               (INFO, Renamed n (c :: r)),
                        Ok tt)
            | Raise e => (logged w (rename_error n (c :: r) e), Ok tt)
            end
      | Ok [] => (w, Ok tt)
      | Raise e => (logged w (ERROR, AnonymizeFailed n e), Ok tt)
      end
    else (w, Ok tt).
Proof.
  rewrite process_entry_cases, anonymize_file_name_name_for.
  destruct (os_path_isfile _ _); [|reflexivity].
  destruct (name_for a n p) as [[|c r]|e]; reflexivity.
Qed.

(** A turn of the loop returns. *)
Lemma process_entry_returns (d a p : pystr) (dry : bool) (f : pystr)
    (w : world FS) :
  snd (process_entry d a p dry f w) = Ok tt.
Proof.
  rewrite process_entry_cases.
  destruct (os_path_isfile _ _); [|reflexivity].
  destruct (anonymize_file_name f a p w) as [w1 [[[|c r]|]|e]];
    try reflexivity.
  destruct dry; [reflexivity|].
  destruct (os_rename _ _ _); reflexivity.
Qed.

(** A turn of the loop attaches no handler and detaches none. *)
Lemma process_entry_handlers (d a p : pystr) (dry : bool) (f : pystr)
    (w : world FS) :
  handlers (fst (process_entry d a p dry f w)) = handlers w.
Proof.
  rewrite process_entry_outcome.
  destruct (os_path_isfile _ _); [|reflexivity].
  destruct (name_for a f p) as [[|c r]|e]; try reflexivity.
  destruct dry; [reflexivity|].
  destruct (os_rename _ _ _); reflexivity.
Qed.

Lemma for_each_returns {A} (body : A -> M FS unit) (l : list A)
    (w : world FS) :
  (forall x w0, snd (body x w0) = Ok tt) ->
  snd (for_each l body w) = Ok tt.
Proof.
  intros Hb. revert w; induction l as [|x l IH]; intros w;
    [reflexivity|].
  simpl. unfold bind. specialize (Hb x w).
  destruct (body x w) as [w' [[]|e]]; simpl in Hb; [apply IH|discriminate].
Qed.

(** The loop over a list in two parts. *)
Lemma for_each_app {A} (body : A -> M FS unit) (l1 l2 : list A)
    (w : world FS) :
  (forall x w0, snd (body x w0) = Ok tt) ->
  for_each (l1 ++ l2) body w = for_each l2 body (fst (for_each l1 body w)).
Proof.
  intros Hb. revert w; induction l1 as [|x l1 IH]; intros w;
    [reflexivity|].
  simpl. unfold bind. specialize (Hb x w).
  destruct (body x w) as [w' [[]|e]]; simpl in Hb; [apply IH|discriminate].
Qed.

Lemma for_each_cons {A} (body : A -> M FS unit) (x : A) (l : list A)
    (w : world FS) :
  snd (body x w) = Ok tt ->
  for_each (x :: l) body w = for_each l body (fst (body x w)).
Proof.
  intros Hb. simpl. unfold bind.
  destruct (body x w) as [w' [[]|e]]; simpl in Hb;
    [reflexivity|discriminate].
Qed.

Lemma for_each_handlers (d a p : pystr) (dry : bool) (l : list pystr)
    (w : world FS) :
  handlers (fst (for_each l (process_entry d a p dry) w)) = handlers w.
Proof.
  revert w; induction l as [|x l IH]; intros w; [reflexivity|].
  rewrite for_each_cons by apply process_entry_returns.
  rewrite IH. apply process_entry_handlers.
Qed.

(** [process_directory] on a directory that is valid and can be listed
    is its loop. *)
Lemma process_directory_loop (d a p : pystr) (dry : bool)
    (names : list pystr) (w : world FS) :
  os_path_isdir (fs w) d = true ->
  os_listdir (fs w) d = Ok names ->
  process_directory d a p dry w
  = for_each names (process_entry d a p dry) w.
Proof.
  intros Hd Hl.
  cbv beta iota delta [process_directory try_except bind
                       is_valid_directory isdir listdir ret].
  rewrite Hd. cbv beta iota delta [negb]. rewrite Hl.
  pose proof (for_each_returns (process_entry d a p dry) names w
                (process_entry_returns d a p dry)) as H.
  destruct (for_each names (process_entry d a p dry) w) as [w' [[]|e]];
    simpl in H; [reflexivity|discriminate].
Qed.

Lemma process_directory_invalid (d a p : pystr) (dry : bool)
    (w : world FS) :
  os_path_isdir (fs w) d = false ->
  process_directory d a p dry w
  = (logged w (ERROR, NotADirectory d), Ok tt).
Proof.
  intros Hd.
  cbv beta iota delta [process_directory try_except bind
                       is_valid_directory isdir ret logging_error handle
                       logged].
  rewrite Hd. reflexivity.
Qed.

Lemma process_directory_unlistable (d a p : pystr) (dry : bool)
    (e : exn) (w : world FS) :
  os_path_isdir (fs w) d = true ->
  os_listdir (fs w) d = Raise e ->
  process_directory d a p dry w
  = (logged w (ERROR, ProcessingFailed d e), Ok tt).
Proof.
  intros Hd Hl.
  cbv beta iota delta [process_directory try_except bind
                       is_valid_directory isdir listdir ret logging_error
                       handle logged].
  rewrite Hd. cbv beta iota delta [negb]. rewrite Hl. reflexivity.
Qed.

(** Records logged one after the other. *)
Lemma logged_all_app (w : world FS) (r1 r2 : list record) :
  logged_all w (r1 ++ r2) = logged_all (logged_all w r1) r2.
Proof. unfold logged_all. apply fold_left_app. Qed.

Lemma logged_all_handlers (w : world FS) (recs : list record) :
  handlers (logged_all w recs) = handlers w.
Proof.
  revert w; induction recs as [|r recs IH]; intros w; [reflexivity|].
  simpl. now rewrite IH.
Qed.

Lemma logged_all_log (w : world FS) (recs : list record) :
  log (logged_all w recs) = log w ++ recs.
Proof.
  revert w; induction recs as [|r recs IH]; intros w.
  - simpl. now rewrite app_nil_r.
  - simpl. rewrite IH. simpl. now rewrite <- app_assoc.
Qed.

(** What logging does to the file system is what the handlers write. *)
Lemma logged_all_fs (w : world FS) (recs : list record) :
  fs (logged_all w recs) = emitted (handlers w) recs (fs w).
Proof.
  revert w; induction recs as [|r recs IH]; intros w; [reflexivity|].
  simpl. now rewrite IH.
Qed.

(** With no file handler attached, logging leaves the file system as it
    is. *)
Lemma emitted_console (recs : list record) (f : FS) :
  emitted [] recs f = f.
Proof. induction recs as [|r recs IH]; [reflexivity | exact IH]. Qed.

Lemma logged_all_console (f : FS) (l : list record) (recs : list record) :
  logged_all (World f l) recs = World f (l ++ recs).
Proof.
  revert l; induction recs as [|r recs IH]; intros l.
  - simpl. now rewrite app_nil_r.
  - simpl. unfold logged at 1. simpl. fold (World f (l ++ [r])).
    rewrite IH. now rewrite <- app_assoc.
Qed.

Lemma console_world (w : world FS) :
  handlers w = [] -> w = World (fs w) (log w).
Proof. destruct w as [f l h]. simpl. now intros ->. Qed.

Lemma previews_console (d a p : pystr) (names : list pystr) (f : FS) :
  previews d a p [] names f = flat_map (preview d a p f) names.
Proof.
  induction names as [|n names IH]; [reflexivity|].
  simpl. now rewrite emitted_console, IH.
Qed.

(** A dry turn logs the preview of its name, and does nothing else. *)
Lemma dry_turn (d a p n : pystr) (w : world FS) :
  process_entry d a p true n w
  = (logged_all w (preview d a p (fs w) n), Ok tt).
Proof.
  rewrite process_entry_outcome. unfold preview.
  destruct (os_path_isfile _ _); [|reflexivity].
  destruct (name_for a n p) as [[|c r]|e]; reflexivity.
Qed.

Lemma for_each_dry_preview (d a p : pystr) (names : list pystr)
    (w : world FS) :
  for_each names (process_entry d a p true) w
  = (logged_all w (previews d a p (handlers w) names (fs w)), Ok tt).
Proof.
  revert w; induction names as [|n names IH]; intros w; [reflexivity|].
  rewrite for_each_cons by apply process_entry_returns.
  rewrite dry_turn. cbn [fst]. rewrite IH.
  rewrite logged_all_handlers, logged_all_fs.
  cbn [previews]. now rewrite logged_all_app.
Qed.

(** A preview reports no rename. *)
Lemma preview_no_rename (d a p : pystr) (f : FS) (n : pystr) :
  existsb is_rename_report (preview d a p f n) = false.
Proof.
  unfold preview. destruct (os_path_isfile _ _); [|reflexivity].
  destruct (name_for a n p) as [[|c r]|e]; reflexivity.
Qed.

Lemma previews_no_rename (d a p : pystr) (hs : list Z)
    (names : list pystr) (f : FS) :
  existsb is_rename_report (previews d a p hs names f) = false.
Proof.
  revert f; induction names as [|n names IH]; intros f; [reflexivity|].
  cbn [previews]. rewrite existsb_app, preview_no_rename. apply IH.
Qed.

(** When a name is returned, nothing was logged. *)
Lemma anonymize_file_name_some (n a p : pystr) (w : world FS)
    (name : pystr) :
  snd (anonymize_file_name n a p w) = Ok (Some name) ->
  anonymize_file_name n a p w = (w, Ok (Some name)).
Proof.
  rewrite anonymize_file_name_cases.
  destruct (encode_utf8 n) as [data|e]; [|discriminate].
  destruct (hashlib_new_hexdigest a data) as [h|e]; [|discriminate].
  simpl. intros H. now rewrite H.
Qed.

(** [process_directory] returns, whatever it meets. *)
Lemma process_directory_returns (d a p : pystr) (dry : bool)
    (w : world FS) :
  snd (process_directory d a p dry w) = Ok tt.
Proof.
  destruct (os_path_isdir (fs w) d) eqn:Hd.
  - destruct (os_listdir (fs w) d) as [names|e] eqn:Hl.
    + rewrite (process_directory_loop d a p dry names w Hd Hl).
      apply for_each_returns. apply process_entry_returns.
    + now rewrite (process_directory_unlistable d a p dry e w Hd Hl).
  - now rewrite (process_directory_invalid d a p dry w Hd).
Qed.

(** All a dry run does is log records, none of which reports a
    rename. *)
Lemma process_directory_dry (d a p : pystr) (w : world FS) :
  exists new,
    process_directory d a p true w = (logged_all w new, Ok tt)
    /\ existsb is_rename_report new = false.
Proof.
  destruct (os_path_isdir (fs w) d) eqn:Hd.
  - destruct (os_listdir (fs w) d) as [names|e] eqn:Hl.
    + exists (previews d a p (handlers w) names (fs w)). split.
      * rewrite (process_directory_loop d a p true names w Hd Hl).
        apply for_each_dry_preview.
      * apply previews_no_rename.
    + exists [(ERROR, ProcessingFailed d e)]. split; [|reflexivity].
      now rewrite (process_directory_unlistable d a p true e w Hd Hl).
  - exists [(ERROR, NotADirectory d)]. split; [|reflexivity].
    now rewrite (process_directory_invalid d a p true w Hd).
Qed.

(** [process_directory] attaches no handler and detaches none. *)
Lemma process_directory_handlers (d a p : pystr) (dry : bool)
    (w : world FS) :
  handlers (fst (process_directory d a p dry w)) = handlers w.
Proof.
  destruct (os_path_isdir (fs w) d) eqn:Hd.
  - destruct (os_listdir (fs w) d) as [names|e] eqn:Hl.
    + rewrite (process_directory_loop d a p dry names w Hd Hl).
      apply for_each_handlers.
    + now rewrite (process_directory_unlistable d a p dry e w Hd Hl).
  - now rewrite (process_directory_invalid d a p dry w Hd).
Qed.

(** What [main] does once the log sink is attached. *)
Lemma main_attached (a : args) (w w0 : world FS) (u : unit) :
  attach_log_file a w = (w0, Ok u) ->
  script a w
  = if os_path_isdir (fs w0) (directory a)
    then (fst (process_directory (directory a) (algorithm a) (prefix a)
                 (dry_run a) w0), 0)
    else (logged w0 (ERROR, NotADirectory (directory a)), 1).
Proof.
  intros Ha. unfold script, main, bind. rewrite Ha.
  cbv beta iota delta [is_valid_directory bind isdir logging_error handle
                       ret].
  destruct (os_path_isdir (fs w0) (directory a)) eqn:Hd;
    cbv beta iota delta [negb]; [|reflexivity].
  pose proof (process_directory_returns (directory a) (algorithm a)
                (prefix a) (dry_run a) w0) as H.
  destruct (process_directory _ _ _ _ w0) as [w' [[]|e]]; simpl in H;
    [reflexivity|discriminate].
Qed.

(** A log file that cannot be opened: the exception leaves [main]. *)
Lemma main_unattached (a : args) (w w0 : world FS) (e : exn) :
  attach_log_file a w = (w0, Raise e) ->
  w0 = w /\ script a w = (w, 1).
Proof.
  intros Ha.
  assert (E : w0 = w).
  { revert Ha. unfold attach_log_file.
    destruct (log_file a) as [q|]; [|discriminate].
    destruct (truthy (Some q)); [|discriminate].
    unfold add_file_handler.
    destruct (logging_FileHandler (fs w) q) as [[h f]|e'];
      [discriminate|].
    intros H. now inversion H. }
  split; [exact E|]. subst w0.
  unfold script, main, bind. now rewrite Ha.
Qed.

End ProgramFacts.

(* ================================================================== *)
(** * The claims, over any host *)

Section Claims.

Context {FS : Type} {host : Host FS}.

(** C1.  For every UTF-8 encodable file name [n], every algorithm [a] of
    the command line and every prefix [p], [anonymize_file_name] returns
    exactly [p], then the lowercase hexadecimal digest under [a] of the
    UTF-8 bytes of the whole name [n], then the extension of [n]; the
    digest part is made of [0-9a-f] and is twice the digest size long. *)
Theorem C1_anonymized_name (n p : pystr) (a : HashAlgorithm)
    (w : world FS) :
  Utf8.encodable n = true ->
  exists data,
    Utf8.encode n = Some data
    /\ anonymize_file_name n (algorithm_name a) p w
       = (w, Ok (Some (p ++ Hex.hexlify (digest a data)
                         ++ snd (Posixpath.splitext n))))
    /\ forallb Hex.is_lower_hex (Hex.hexlify (digest a data)) = true
    /\ length (Hex.hexlify (digest a data)) = (2 * digest_size a)%nat.
Proof.
  intros H. apply Utf8Facts.encodable_encode in H. destruct H as [data Hd].
  exists data. split; [exact Hd|]. split; [|split].
  - rewrite anonymize_file_name_cases. unfold encode_utf8. rewrite Hd.
    rewrite hashlib_supported. reflexivity.
  - apply HexFacts.hexlify_lower.
  - rewrite HexFacts.hexlify_length, digest_length. reflexivity.
Qed.

(** C2, amended.  The extension [anonymize_file_name] appends is that of
    [os.path.splitext]: the substring of [n] from its final dot
    (inclusive) when that dot comes after the last ['/'] and some
    character between the two is not a dot, and empty otherwise.  When
    [n] has such an extension the name returned ends with it and has it
    as its own extension; when [n] holds no dot nothing follows the
    digest. *)
Theorem C2_extension_preserved (n p : pystr) (a : HashAlgorithm)
    (data : pybytes) (w : world FS) :
  Utf8.encode n = Some data ->
  let ext := snd (Posixpath.splitext n) in
  let out := p ++ Hex.hexlify (digest a data) ++ ext in
  anonymize_file_name n (algorithm_name a) p w = (w, Ok (Some out))
  /\ ext = (if has_extension n then final_dot_suffix n else [])
  /\ (has_extension n = true ->
      ext <> [] /\ ends_with ext out /\ snd (Posixpath.splitext out) = ext)
  /\ (~ In Posixpath.extsep n ->
      ext = [] /\ out = p ++ Hex.hexlify (digest a data)).
Proof.
  intros Hd ext out. split; [|split; [|split]].
  - rewrite anonymize_file_name_cases. unfold encode_utf8. rewrite Hd.
    rewrite hashlib_supported. reflexivity.
  - unfold ext. rewrite PosixpathFacts.splitext_snd.
    destruct (has_extension n) eqn:E; [|reflexivity].
    unfold final_dot_suffix.
    pose proof (PosixpathFacts.has_extension_dot n E) as H0.
    destruct (Posixpath.rfind n Posixpath.extsep <? 0) eqn:E0;
      [apply Z.ltb_lt in E0; lia | reflexivity].
  - intros Hx.
    destruct (PosixpathFacts.has_extension_shape n Hx)
      as (u & v & Hn & Hv1 & Hv2 & Hk).
    assert (Hext : ext = Posixpath.extsep :: v).
    { unfold ext. rewrite PosixpathFacts.splitext_snd, Hx, Hk, Hn.
      apply PosixpathFacts.slice_from_app. }
    split; [rewrite Hext; discriminate|]. split.
    + exists (p ++ Hex.hexlify (digest a data)). unfold out.
      now rewrite app_assoc.
    + destruct (digest_hex_nonempty a data) as (c & r & Hr).
      pose proof (HexFacts.hexlify_lower (digest a data)) as Hl.
      rewrite Hr, forallb_app in Hl. apply andb_true_iff in Hl.
      destruct Hl as [_ Hl]. simpl in Hl. rewrite andb_true_r in Hl.
      destruct (HexFacts.lower_hex_not_sep_dot c Hl) as [Hc1 Hc2].
      unfold out. rewrite Hr, Hext.
      replace (p ++ (r ++ [c]) ++ Posixpath.extsep :: v)
        with ((p ++ r) ++ [c] ++ Posixpath.extsep :: v)
        by (now rewrite <- !app_assoc).
      now apply PosixpathFacts.splitext_intro.
  - intros Hno.
    assert (Hext : ext = []).
    { unfold ext. rewrite PosixpathFacts.splitext_snd.
      now rewrite PosixpathFacts.no_dot_no_extension. }
    split; [exact Hext|]. unfold out. rewrite Hext.
    now rewrite app_nil_r.
Qed.


(** C4, amended.  A run of [process_directory] with [dry_run] true
    performs no rename: all it does is log records, none of which
    reports a rename.  The file system it leaves is the one it found,
    but for what the file handlers attached to the logger have written
    of those records to their log files; with no file handler attached
    it is exactly the one it found. *)
Theorem C4_dry_run_only_logs (d a p : pystr) (w : world FS) :
  exists new,
    process_directory d a p true w = (logged_all w new, Ok tt)
    /\ existsb is_rename_report new = false
    /\ fs (fst (process_directory d a p true w))
       = emitted (handlers w) new (fs w)
    /\ (handlers w = [] ->
        fs (fst (process_directory d a p true w)) = fs w).
Proof.
  destruct (process_directory_dry d a p w) as (new & H1 & H2).
  exists new. split; [exact H1|]. split; [exact H2|].
  rewrite H1. cbn [fst]. rewrite logged_all_fs. split; [reflexivity|].
  intros Hh. rewrite Hh. apply emitted_console.
Qed.

(** C5, amended.  The exit status is decided first by the log sink,
    then by the directory.  When [main] could attach the log sink (it
    always can when no [--log-file] is given), the process exits with
    status 1 when the directory path is missing or not a directory,
    having done nothing but log that error, and with status 0
    otherwise, whatever happened to the individual files.  When the log
    file cannot be opened the process exits with status 1, the directory
    valid or not, and nothing has been done. *)
Theorem C5_exit_status (a : args) (w : world FS) :
  match attach_log_file a w with
  | (w0, Ok _) =>
      if os_path_isdir (fs w0) (directory a)
      then snd (script a w) = 0
      else script a w = (logged w0 (ERROR, NotADirectory (directory a)), 1)
  | (w0, Raise e) => w0 = w /\ script a w = (w, 1)
  end
  /\ (log_file a = None -> attach_log_file a w = (w, Ok tt)).
Proof.
  split.
  - destruct (attach_log_file a w) as [w0 [u|e]] eqn:Ha.
    + rewrite (main_attached a w w0 u Ha).
      destruct (os_path_isdir (fs w0) (directory a)); reflexivity.
    + exact (main_unattached a w w0 e Ha).
  - intros Hl. unfold attach_log_file. now rewrite Hl.
Qed.

(** C7, amended.  [anonymize_file_name] is deterministic: the value it
    returns is the same in every world, so two calls with the same name,
    algorithm and prefix agree, and it never raises.  When it returns a
    name it has no side effect; when hashing fails it has one: it logs
    an error record (which the file handlers write to their log files)
    before it returns [None]. *)
Theorem C7_deterministic (n a p : pystr) (w1 w2 : world FS) :
  exists v,
    snd (anonymize_file_name n a p w1) = Ok v
    /\ snd (anonymize_file_name n a p w2) = Ok v
    /\ match v with
       | Some _ => fst (anonymize_file_name n a p w1) = w1
       | None =>
           exists e,
             fst (anonymize_file_name n a p w1)
             = logged w1 (ERROR, AnonymizeFailed n e)
       end.
Proof.
  rewrite !anonymize_file_name_name_for.
  destruct (name_for a n p) as [name|e].
  - exists (Some name). repeat split.
  - exists None. split; [reflexivity|]. split; [reflexivity|].
    exists e. reflexivity.
Qed.

(** C8.  For every file name, algorithm of the command line and prefix
    [p], the name [anonymize_file_name] returns starts with exactly
    [p], verbatim; it returns no name only for a file name that cannot
    be encoded, and it never raises. *)
Theorem C8_prefix (n p : pystr) (a : HashAlgorithm) (w : world FS) :
  match snd (anonymize_file_name n (algorithm_name a) p w) with
  | Ok (Some out) => starts_with p out /\ firstn (length p) out = p
  | Ok None => Utf8.encodable n = false
  | Raise _ => False
  end.
Proof.
  rewrite anonymize_file_name_cases. unfold encode_utf8.
  destruct (Utf8.encode n) as [data|] eqn:E.
  - rewrite hashlib_supported. simpl. split.
    + eexists; reflexivity.
    + rewrite firstn_app, Nat.sub_diag, firstn_all. simpl.
      apply app_nil_r.
  - simpl. now apply Utf8Facts.not_encodable_encode.
Qed.

(** C9.  When the rename of one file fails, [process_directory] logs an
    error record for that file and goes on with the next file, from the
    file system that the earlier renames left: nothing is rolled back
    (all that reporting the failure does to the file system is what the
    file handlers attached before the run write of that record to their
    log files: with console logging, nothing), and the run returns
    normally. *)
Theorem C9_rename_failure_isolated (d a p : pystr) (l1 : list pystr)
    (f : pystr) (l2 : list pystr) (anon : pystr) (e : exn)
    (w : world FS) :
  os_path_isdir (fs w) d = true ->
  os_listdir (fs w) d = Ok (l1 ++ f :: l2) ->
  let turn := process_entry d a p false in
  let w1 := fst (for_each l1 turn w) in
  os_path_isfile (fs w1) (Posixpath.join d f) = true ->
  snd (anonymize_file_name f a p w1) = Ok (Some anon) ->
  anon <> [] ->
  os_rename (fs w1) (Posixpath.join d f) (Posixpath.join d anon)
  = Raise e ->
  process_directory d a p false w
  = for_each l2 turn (logged w1 (rename_error f anon e))
  /\ fs (logged w1 (rename_error f anon e))
     = emit_all (handlers w) (rename_error f anon e) (fs w1)
  /\ (handlers w = [] -> fs (logged w1 (rename_error f anon e)) = fs w1)
  /\ snd (process_directory d a p false w) = Ok tt.
Proof.
  intros Hd Hl turn w1 Hf Ha Hne Hr.
  assert (Hh : handlers w1 = handlers w)
    by (unfold w1, turn; apply for_each_handlers).
  split; [|split; [|split; [|apply process_directory_returns]]].
  3:{ intros E. cbn [logged fs]. now rewrite Hh, E. }
  - rewrite (process_directory_loop d a p false (l1 ++ f :: l2) w Hd Hl).
    fold turn.
    rewrite for_each_app by apply process_entry_returns. fold w1.
    rewrite for_each_cons by apply process_entry_returns.
    f_equal. unfold turn at 1. rewrite process_entry_cases, Hf.
    rewrite (anonymize_file_name_some f a p w1 anon Ha).
    destruct anon as [|c r]; [congruence|].
    rewrite Hr. reflexivity.
  - cbn [logged fs]. now rewrite Hh.
Qed.

(** C10.  [process_directory] never lets an exception reach its caller:
    an invalid directory, a name that cannot be hashed, a rename that
    fails, a directory that cannot be listed are all handled inside,
    and the function returns normally. *)
Theorem C10_never_raises (d a p : pystr) (dry : bool) (w : world FS) :
  snd (process_directory d a p dry w) = Ok tt.
Proof.
  destruct (os_path_isdir (fs w) d) eqn:Hd.
  - destruct (os_listdir (fs w) d) as [names|e] eqn:Hl.
    + (* the walk: every turn handles its own failures *)
      rewrite (process_directory_loop d a p dry names w Hd Hl).
      apply for_each_returns. intros x w0.
      rewrite process_entry_cases.
      destruct (os_path_isfile _ _); [|reflexivity].
      destruct (anonymize_file_name x a p w0) as [w1 [[[|c r]|]|e]];
        try reflexivity.
      destruct dry; [reflexivity|].
      destruct (os_rename _ _ _); reflexivity.
    + (* [os.listdir] raised: the outer handler logs it *)
      now rewrite (process_directory_unlistable d a p dry e w Hd Hl).
  - (* not a directory: logged by [is_valid_directory], early return *)
    now rewrite (process_directory_invalid d a p dry w Hd).
Qed.

End Claims.

(* ================================================================== *)
(** * Facts: what a run can change *)

Section Invariants.

Context {FS : Type} {host : Host FS}.

Variable P : FS -> Prop.

(** [P] survives every rename whose source [os.path.isfile] accepts, and
    whatever a file handler writes. *)
Hypothesis rename_keeps :
  forall (f f' : FS) (src dst : pystr),
    os_path_isfile f src = true -> os_rename f src dst = Ok f' ->
    P f -> P f'.

Hypothesis emit_keeps :
  forall (f : FS) (h : Z) (r : record), P f -> P (handler_emit f h r).

Lemma emit_all_invariant (hs : list Z) (r : record) (f : FS) :
  P f -> P (emit_all hs r f).
Proof.
  unfold emit_all. revert f; induction hs as [|h hs IH]; intros f H;
    [exact H|].
  simpl. apply IH. now apply emit_keeps.
Qed.

Lemma logged_invariant (w : world FS) (r : record) :
  P (fs w) -> P (fs (logged w r)).
Proof. intros H. cbn [logged fs]. now apply emit_all_invariant. Qed.

Lemma process_entry_invariant (d a p : pystr) (dry : bool) (x : pystr)
    (w : world FS) :
  P (fs w) -> P (fs (fst (process_entry d a p dry x w))).
Proof.
  intros H. rewrite process_entry_outcome.
  destruct (os_path_isfile (fs w) (Posixpath.join d x)) eqn:Hf; [|exact H].
  destruct (name_for a x p) as [[|c r]|e]; [exact H| |].
  - destruct dry; [now apply logged_invariant|].
    destruct (os_rename (fs w) (Posixpath.join d x)
                        (Posixpath.join d (c :: r))) as [f'|e] eqn:Hr;
      cbn [fst]; apply logged_invariant; [|exact H].
    cbn [fs]. exact (rename_keeps _ _ _ _ Hf Hr H).
  - cbn [fst]. now apply logged_invariant.
Qed.

Lemma for_each_invariant (d a p : pystr) (dry : bool) (l : list pystr)
    (w : world FS) :
  P (fs w) -> P (fs (fst (for_each l (process_entry d a p dry) w))).
Proof.
  revert w; induction l as [|x l IH]; intros w H; [exact H|].
  rewrite for_each_cons by apply process_entry_returns.
  apply IH. now apply process_entry_invariant.
Qed.

(** The only changes [process_directory] makes to the file system are
    the rename of a path that [os.path.isfile] accepted and what the
    file handlers write. *)
Lemma process_directory_invariant (d a p : pystr) (dry : bool)
    (w : world FS) :
  P (fs w) -> P (fs (fst (process_directory d a p dry w))).
Proof.
  intros H. destruct (os_path_isdir (fs w) d) eqn:Hd.
  - destruct (os_listdir (fs w) d) as [names|e] eqn:Hl.
    + rewrite (process_directory_loop d a p dry names w Hd Hl).
      now apply for_each_invariant.
    + rewrite (process_directory_unlistable d a p dry e w Hd Hl).
      now apply logged_invariant.
  - rewrite (process_directory_invalid d a p dry w Hd).
    now apply logged_invariant.
Qed.

End Invariants.

(* ================================================================== *)
(** * Facts: the flat directory *)

Module FlatDirFacts.
Import FlatDir.

Lemma strip_prefix_app (a b : pystr) : strip_prefix a (a ++ b) = Some b.
Proof.
  induction a as [|x a IH]; simpl; [reflexivity|].
  now rewrite Z.eqb_refl.
Qed.

Lemma file_name_ok_cons (c : Z) (r : pystr) :
  file_name_ok (c :: r) = true ->
  (Posixpath.sep =? c) = false
  /\ existsb (Z.eqb Posixpath.sep) r = false.
Proof.
  unfold file_name_ok.
  change (existsb (Z.eqb Posixpath.sep) (c :: r))
    with ((Posixpath.sep =? c) || existsb (Z.eqb Posixpath.sep) r).
  intros H. apply negb_true_iff in H. now apply orb_false_iff in H.
Qed.

Lemma join_name (d name : pystr) :
  file_name_ok name = true ->
  Posixpath.join d name = Posixpath.join d [] ++ name.
Proof.
  intros H. unfold Posixpath.join.
  destruct name as [|c r]; [discriminate|].
  destruct (file_name_ok_cons c r H) as [Hc _].
  unfold Posixpath.startswith_sep. rewrite Z.eqb_sym, Hc.
  destruct d as [|y d]; [reflexivity|].
  destruct (Posixpath.endswith_sep (y :: d)).
  - now rewrite app_nil_r.
  - now rewrite <- app_assoc.
Qed.

(** A file name joined to the path of the directory names that child. *)
Lemma child_of_join (d : dir) (name : pystr) :
  file_name_ok name = true ->
  child_of d (Posixpath.join (path d) name) = Some name.
Proof.
  intros H. unfold child_of. rewrite (join_name _ _ H), strip_prefix_app.
  destruct name as [|c r]; [discriminate|].
  destruct (file_name_ok_cons c r H) as [Hc Hr].
  change (existsb (Z.eqb Posixpath.sep) (c :: r))
    with ((Posixpath.sep =? c) || existsb (Z.eqb Posixpath.sep) r).
  now rewrite Hc, Hr.
Qed.

Lemma join_name_longer (d name : pystr) :
  file_name_ok name = true ->
  str_eqb (Posixpath.join d name) d = false.
Proof.
  intros H. apply str_eqb_neq. intros E.
  apply (f_equal (@length Z)) in E.
  rewrite (join_name _ _ H) in E. rewrite length_app in E.
  assert (length d <= length (Posixpath.join d []))%nat.
  { unfold Posixpath.join. simpl.
    destruct d; [simpl; lia|]. destruct (Posixpath.endswith_sep _);
      rewrite length_app; lia. }
  destruct name; [discriminate|]. simpl in E. lia.
Qed.

(** What [os.path.isfile] looks at for a child: the entry its name
    leads to once links are followed. *)
Lemma flat_isfile_child (d : dir) (name : pystr) :
  file_name_ok name = true ->
  flat_isfile d (Posixpath.join (path d) name) = is_regular_target d name.
Proof.
  intros H. unfold flat_isfile, stat, is_regular_target.
  now rewrite (join_name_longer _ _ H), (child_of_join _ _ H).
Qed.



(** A rename that succeeds: both paths name children, the source is
    there, and either it is renamed onto itself or it takes the other
    name, which no directory held. *)
Lemma flat_rename_ok (d d' : dir) (src dst : pystr) :
  flat_rename d src dst = Ok d' ->
  exists s t n,
    child_of d src = Some s /\ child_of d dst = Some t
    /\ lookup s (entries d) = Some n
    /\ (d' = d
        \/ (d' = moved d s t /\ s <> t
            /\ lookup t (entries d) <> Some Directory)).
Proof.
  unfold flat_rename. intros Hr.
  destruct (child_of d src) as [s|]; [|discriminate].
  destruct (child_of d dst) as [t|]; [|discriminate].
  destruct (lookup s (entries d)) as [n|] eqn:En; [|discriminate].
  exists s, t, n. repeat (split; [reflexivity|]). split; [exact En|].
  destruct (lookup t (entries d)) as [m|] eqn:Et.
  - destruct (str_eqb s t) eqn:Est;
      [left; inversion Hr; reflexivity|].
    apply str_eqb_neq in Est.
    destruct (negb (writable d)); [discriminate|].
    right.
    destruct n, m; try discriminate; inversion Hr;
      (split; [reflexivity | split; [exact Est | discriminate]]).
  - destruct (refused (path d) t); [discriminate|].
    destruct (negb (writable d)); [discriminate|].
    right. inversion Hr. split; [reflexivity|]. split; [|discriminate].
    intros ->. congruence.
Qed.


(** A handler writes to its stream: no entry changes. *)
Lemma flat_emit_entries (d : dir) (h : Z) (r : record) :
  path (flat_emit d h r) = path d
  /\ writable (flat_emit d h r) = writable d
  /\ entries (flat_emit d h r) = entries d
  /\ streams (flat_emit d h r) = streams d.
Proof.
  unfold flat_emit. destruct (stream_file h (streams d)) as [name|];
    [|repeat split].
  destruct (lookup name (entries d)) as [[c| | |t]|];
    [destruct (can_be_written r)|..]; repeat split.
Qed.

(** What a handler adds to the files: its record, to the file its
    stream is open on. *)
Lemma flat_emit_written (d : dir) (h : Z) (r : record) (name : pystr) :
  stream_file h (streams d) <> Some name ->
  written (flat_emit d h r) name = written d name.
Proof.
  intros Hs. unfold flat_emit.
  destruct (stream_file h (streams d)) as [n|]; [|reflexivity].
  destruct (lookup n (entries d)) as [[c| | |t]|]; try reflexivity.
  destruct (can_be_written r); [|reflexivity].
  unfold written. cbn [appended]. rewrite filter_app, map_app.
  cbn [filter fst].
  assert (E : str_eqb n name = false) by (apply str_eqb_neq; congruence).
  rewrite E. cbn [map]. apply app_nil_r.
Qed.

Lemma emit_all_content (other : pystr -> pybytes -> result pystr)
    (hs : list Z) (r : record) (d : dir) (name : pystr) :
  (forall h, In h hs -> stream_file h (streams d) <> Some name) ->
  entries (emit_all (host := flat_host_with other) hs r d) = entries d
  /\ streams (emit_all (host := flat_host_with other) hs r d) = streams d
  /\ written (emit_all (host := flat_host_with other) hs r d) name
     = written d name.
Proof.
  unfold emit_all. revert d; induction hs as [|h hs IH]; intros d H;
    [repeat split|].
  cbn [fold_left].
  change (handler_emit d h r) with (flat_emit d h r).
  destruct (flat_emit_entries d h r) as (_ & _ & E1 & E2).
  destruct (IH (flat_emit d h r)) as (K1 & K2 & K3).
  { intros h' Hh'. rewrite E2. apply H. now right. }
  rewrite K1, K2, K3, E1, E2. repeat split.
  apply flat_emit_written. apply H. now left.
Qed.

Lemma emitted_content (other : pystr -> pybytes -> result pystr)
    (hs : list Z) (recs : list record) (d : dir) (name : pystr) :
  (forall h, In h hs -> stream_file h (streams d) <> Some name) ->
  entries (emitted (host := flat_host_with other) hs recs d) = entries d
  /\ file_content (emitted (host := flat_host_with other) hs recs d) name
     = file_content d name.
Proof.
  unfold emitted. revert d; induction recs as [|r recs IH]; intros d H;
    [split; reflexivity|].
  cbn [fold_left].
  destruct (emit_all_content other hs r d name H) as (E1 & E2 & E3).
  destruct (IH (emit_all (host := flat_host_with other) hs r d))
    as (K1 & K2).
  { intros h Hh. rewrite E2. now apply H. }
  rewrite K1, K2, E1. split; [reflexivity|].
  unfold file_content. now rewrite E1, E3.
Qed.

End FlatDirFacts.

(* ================================================================== *)
(** * The claims about files and directories, on the flat directory *)



(** In that run the link took the anonymized name and the FIFO stayed. *)
Example linked_run :
  FlatDir.entries
    (fs (fst (process_directory Samples.data (lit "sha256")
                (lit "anonymized_") false (World Samples.linked []))))
  = [(Samples.anonymized (lit "ln.txt"),
      FlatDir.Symlink (lit "report.txt"));
     (lit "pipe", FlatDir.Special);
     (Samples.anonymized (lit "report.txt"),
      FlatDir.Regular (lit "figures"))].
Proof. vm_compute. reflexivity. Qed.



(** In that run the two files that can be encoded are reported too,
    and every entry is as it was. *)
Example unsupported_algorithm_run :
  process_directory Samples.data (lit "crc32") (lit "anonymized_") false
    (World Samples.undecodable [])
  = (World Samples.undecodable
       [(ERROR, AnonymizeFailed (lit "a.txt") ValueError);
        (ERROR, AnonymizeFailed [0xDC80] UnicodeEncodeError);
        (ERROR, AnonymizeFailed (lit "b.txt") ValueError)],
     Ok tt).
Proof. vm_compute. reflexivity. Qed.

(** The claim of C4 as stated fails: with [--log-file /data/run.log] the
    dry run on [/data] appends its records to [run.log], a file of the
    directory. *)
Lemma C4_dry_run_writes_log_file : ~ dry_run_leaves_files.
Proof.
  intros H.
  specialize (H (lit "sha256") (lit "anonymized_") (lit "run.log")
                (Samples.report_logging true)).
  assert (Hd : os_path_isdir (fs (Samples.report_logging true))
                 (FlatDir.path (fs (Samples.report_logging true))) = true)
    by (vm_compute; reflexivity).
  specialize (H Hd).
  apply (f_equal (fun c => length (snd c))) in H.
  vm_compute in H. discriminate H.
Qed.

(** In that dry run the log file has received the two previews. *)
Example dry_run_log_file :
  FlatDir.file_content
    (fs (fst (process_directory Samples.data (lit "sha256")
                (lit "anonymized_") true (Samples.report_logging true))))
    (lit "run.log")
  = (Some (FlatDir.Regular []),
     [(INFO, DryRunRenaming (lit "report.txt")
               (Samples.anonymized (lit "report.txt")));
      (INFO, DryRunRenaming (lit "run.log")
               (Samples.anonymized (lit "run.log")))]).
Proof. vm_compute. reflexivity. Qed.

(** The claim of C5 as stated fails: the directory is valid, the log
    file cannot be opened, and the process exits with status 1. *)
Lemma C5_unopenable_log_file : ~ status_follows_directory.
Proof.
  intros H.
  destruct (H Samples.unopenable_args (World Samples.mixed [])) as [_ H0].
  assert (Hd : os_path_isdir (fs (World Samples.mixed []))
                 (directory Samples.unopenable_args) = true)
    by reflexivity.
  specialize (H0 Hd). vm_compute in H0. discriminate H0.
Qed.

(** The claim of C7 as stated fails: for a name that cannot be encoded
    the call logs an error record. *)
Lemma C7_failure_is_logged : ~ anonymize_has_no_effect.
Proof.
  intros H.
  specialize (H [0xDC80] (lit "sha256") (lit "anonymized_")
                (World Samples.report [])).
  apply (f_equal (fun w => length (log w))) in H.
  vm_compute in H. discriminate H.
Qed.

(** The claim of C2 as stated fails: [.bashrc] has a final dot and no
    extension. *)
Lemma C2_leading_dot_is_no_extension : ~ extension_is_final_dot_suffix.
Proof.
  intros H.
  specialize (H (lit ".bashrc") (lit "anonymized_") SHA256
                [46; 98; 97; 115; 104; 114; 99]
                (World Samples.report []) eq_refl).
  apply (f_equal (fun r => match r with
                           | Ok (Some l) => length l
                           | _ => O
                           end)) in H.
  vm_compute in H. discriminate H.
Qed.

Example bashrc_name :
  snd (anonymize_file_name (lit ".bashrc") (lit "sha256")
         (lit "anonymized_") (World Samples.report []))
  = Ok (Some (lit ("anonymized_"
      ++ "b7cf3e96e1f74fc148d130e98db1c65c7b8eb4f5b668668fa71f26768796a5b0"))).
Proof. vm_compute. reflexivity. Qed.

(* ================================================================== *)
(** * The scenarios of the specification *)

(** [report.txt], SHA-256, prefix [anonymized_], not a dry run. *)
Example scenario_rename :
  process_directory Samples.data (lit "sha256") (lit "anonymized_") false
    (World Samples.report [])
  = (World
       (FlatDir.Dir Samples.data true
          [(lit ("anonymized_"
       ++ "eafb4aff19bc57c3106afe5e1d4aef0b6422e0de242745e6e94f7d5733ab1cc1"
       ++ ".txt"),
            FlatDir.Regular (lit "figures"))])
       [(INFO, Renamed (lit "report.txt")
                 (Samples.anonymized (lit "report.txt")))],
     Ok tt).
Proof. vm_compute. reflexivity. Qed.

(** The same with [--dry-run]. *)
Example scenario_dry_run :
  process_directory Samples.data (lit "sha256") (lit "anonymized_") true
    (World Samples.report [])
  = (World Samples.report
       [(INFO, DryRunRenaming (lit "report.txt")
                 (Samples.anonymized (lit "report.txt")))],
     Ok tt).
Proof. vm_compute. reflexivity. Qed.

(** A path that does not exist. *)
Example scenario_missing_directory :
  script (Args (lit "/nowhere") (lit "sha256") (lit "anonymized_") false None)
    (World Samples.report [])
  = (World Samples.report [(ERROR, NotADirectory (lit "/nowhere"))], 1).
Proof. vm_compute. reflexivity. Qed.

(** A subdirectory [archive] and a file [a.log]. *)
Example scenario_subdirectory :
  script (Samples.default_args false) (World Samples.mixed [])
  = (World
       (FlatDir.Dir Samples.data true
          [(lit "archive", FlatDir.Directory);
           (Samples.anonymized (lit "a.log"), FlatDir.Regular (lit "x"))])
       [(INFO, Renamed (lit "a.log") (Samples.anonymized (lit "a.log")))],
     0).
Proof. vm_compute. reflexivity. Qed.

(** A name that cannot be encoded, between two files that are renamed. *)
Example scenario_undecodable :
  script (Samples.default_args false) (World Samples.undecodable [])
  = (World
       (FlatDir.Dir Samples.data true
          [(Samples.anonymized (lit "a.txt"), FlatDir.Regular (lit "A"));
           ([0xDC80], FlatDir.Regular (lit "?"));
           (Samples.anonymized (lit "b.txt"), FlatDir.Regular (lit "B"))])
       [(INFO, Renamed (lit "a.txt") (Samples.anonymized (lit "a.txt")));
        (ERROR, AnonymizeFailed [0xDC80] UnicodeEncodeError);
        (INFO, Renamed (lit "b.txt") (Samples.anonymized (lit "b.txt")))],
     0).
Proof. vm_compute. reflexivity. Qed.

(** A rename that fails, between two that succeed. *)
Example scenario_blocked :
  script (Samples.default_args false) (World Samples.blocked [])
  = (World
       (FlatDir.Dir Samples.data true
          [(Samples.anonymized (lit "a.txt"), FlatDir.Regular (lit "A"));
           (lit "b.txt", FlatDir.Regular (lit "B"));
           (Samples.anonymized (lit "b.txt"), FlatDir.Directory);
           (Samples.anonymized (lit "c.txt"), FlatDir.Regular (lit "C"))])
       [(INFO, Renamed (lit "a.txt") (Samples.anonymized (lit "a.txt")));
        (ERROR, RenameFailed (lit "b.txt") (Samples.anonymized (lit "b.txt"))
                  (OSError EISDIR));
        (INFO, Renamed (lit "c.txt") (Samples.anonymized (lit "c.txt")))],
     0).
Proof. vm_compute. reflexivity. Qed.

(** An algorithm that [hashlib] does not know: every file is reported
    and none is renamed. *)
Example scenario_unsupported_algorithm :
  process_directory Samples.data (lit "crc32") (lit "anonymized_") false
    (World Samples.report [])
  = (World Samples.report
       [(ERROR, AnonymizeFailed (lit "report.txt") ValueError)],
     Ok tt).
Proof. vm_compute. reflexivity. Qed.

(* ================================================================== *)
(** * The theorems at concrete inputs *)

Lemma C1_witness :
  Utf8.encodable (lit "report.txt") = true
  /\ exists data,
       Utf8.encode (lit "report.txt") = Some data
       /\ anonymize_file_name (lit "report.txt") (algorithm_name SHA256)
            (lit "anonymized_") (World Samples.report [])
          = (World Samples.report [],
             Ok (Some (lit "anonymized_" ++ Hex.hexlify (digest SHA256 data)
                         ++ snd (Posixpath.splitext (lit "report.txt")))))
       /\ forallb Hex.is_lower_hex (Hex.hexlify (digest SHA256 data)) = true
       /\ length (Hex.hexlify (digest SHA256 data))
          = (2 * digest_size SHA256)%nat.
Proof.
  split; [reflexivity|].
  exact (C1_anonymized_name (lit "report.txt") (lit "anonymized_") SHA256
           (World Samples.report []) eq_refl).
Defined.

Lemma C2_witness :
  Utf8.encode (lit "report.txt") = Some (lit "report.txt")
  /\ has_extension (lit "report.txt") = true
  /\ (let ext := snd (Posixpath.splitext (lit "report.txt")) in
      let out := lit "anonymized_"
                 ++ Hex.hexlify (digest SHA256 (lit "report.txt")) ++ ext in
      ext <> [] /\ ends_with ext out
      /\ snd (Posixpath.splitext out) = ext).
Proof.
  split; [reflexivity|]. split; [reflexivity|].
  exact (proj1 (proj2 (proj2
           (C2_extension_preserved (host := FlatDir.flat_host)
              (lit "report.txt") (lit "anonymized_") SHA256
              (lit "report.txt") (World Samples.report []) eq_refl)))
           eq_refl).
Defined.


Lemma C9_witness :
  process_directory Samples.data (lit "sha256") (lit "anonymized_") false
    (World Samples.blocked [])
  = for_each [Samples.anonymized (lit "b.txt"); lit "c.txt"]
      (process_entry Samples.data (lit "sha256") (lit "anonymized_") false)
      (logged
         (fst (for_each [lit "a.txt"]
                 (process_entry Samples.data (lit "sha256")
                    (lit "anonymized_") false)
                 (World Samples.blocked [])))
         (rename_error (lit "b.txt") (Samples.anonymized (lit "b.txt"))
            (OSError EISDIR))).
Proof.
  refine (proj1 (C9_rename_failure_isolated Samples.data (lit "sha256")
                   (lit "anonymized_") [lit "a.txt"] (lit "b.txt")
                   [Samples.anonymized (lit "b.txt"); lit "c.txt"]
                   (Samples.anonymized (lit "b.txt")) (OSError EISDIR)
                   (World Samples.blocked []) _ _ _ _ _ _)).
  - reflexivity.
  - reflexivity.
  - vm_compute. reflexivity.
  - vm_compute. reflexivity.
  - discriminate.
  - vm_compute. reflexivity.
Defined.

(* ================================================================== *)
(** * Further facts: what a run logs and does, over any host *)

Section RunFacts.

Context {FS : Type} {host : Host FS}.

Lemma at_level_app (l : level) (r1 r2 : list record) :
  at_level l (r1 ++ r2) = at_level l r1 ++ at_level l r2.
Proof. unfold at_level. apply filter_app. Qed.

Lemma replay_app (d : pystr) (hs : list Z) (r1 r2 : list record) (f : FS) :
  replay d hs (r1 ++ r2) f
  = match replay d hs r1 f with
    | Ok f' => replay d hs r2 f'
    | Raise e => Raise e
    end.
Proof.
  revert f; induction r1 as [|r r1 IH]; intros f; [reflexivity|].
  cbn [app replay]. destruct (redo d r f); [apply IH | reflexivity].
Qed.

(** What one turn adds to the log tells what it did to the file
    system. *)
Lemma process_entry_journal (d a p : pystr) (dry : bool) (n : pystr)
    (w : world FS) :
  exists new,
    log (fst (process_entry d a p dry n w)) = log w ++ new
    /\ replay d (handlers w) new (fs w)
       = Ok (fs (fst (process_entry d a p dry n w)))
    /\ (length new <= 1)%nat.
Proof.
  rewrite process_entry_outcome.
  destruct (os_path_isfile _ _).
  2:{ exists []. simpl. rewrite app_nil_r. auto. }
  destruct (name_for a n p) as [[|c r]|e].
  - exists []. simpl. rewrite app_nil_r. auto.
  - destruct dry.
    + eexists. simpl. split; [reflexivity|]. split; [reflexivity|]. simpl. lia.
    + destruct (os_rename (fs w) (Posixpath.join d n)
                          (Posixpath.join d (c :: r))) as [f'|e] eqn:Hr.
      * eexists. simpl. split; [reflexivity|]. simpl. rewrite Hr.
        split; [reflexivity|lia].
      * exists [rename_error n (c :: r) e]. simpl.
        split; [reflexivity|]. split; [|lia].
        unfold rename_error. destruct (is_OSError e); reflexivity.
  - eexists. simpl. split; [reflexivity|]. split; [reflexivity|]. simpl. lia.
Qed.

Lemma for_each_journal (d a p : pystr) (dry : bool) (names : list pystr)
    (w : world FS) :
  exists new,
    log (fst (for_each names (process_entry d a p dry) w)) = log w ++ new
    /\ replay d (handlers w) new (fs w)
       = Ok (fs (fst (for_each names (process_entry d a p dry) w)))
    /\ (length new <= length names)%nat.
Proof.
  revert w; induction names as [|n names IH]; intros w.
  - exists []. simpl. rewrite app_nil_r. auto.
  - rewrite for_each_cons by apply process_entry_returns.
    destruct (process_entry_journal d a p dry n w) as (r0 & H1 & H2 & H3).
    destruct (IH (fst (process_entry d a p dry n w))) as (r1 & K1 & K2 & K3).
    rewrite process_entry_handlers in K2.
    exists (r0 ++ r1). split; [|split].
    + rewrite K1, H1. now rewrite app_assoc.
    + rewrite replay_app, H2. exact K2.
    + rewrite length_app. simpl. lia.
Qed.

(** X1.  The log is a journal of the run: a run keeps the records it
    found, adds at most one record per name of the listing, and
    replaying the added records in order (doing again the rename a
    record reports, then letting the attached file handlers write the
    record) takes the file system of before the run to the file system
    of after it. *)
Theorem X1_log_is_a_journal (d a p : pystr) (dry : bool)
    (names : list pystr) (w : world FS) :
  os_path_isdir (fs w) d = true ->
  os_listdir (fs w) d = Ok names ->
  exists new,
    log (fst (process_directory d a p dry w)) = log w ++ new
    /\ replay d (handlers w) new (fs w)
       = Ok (fs (fst (process_directory d a p dry w)))
    /\ (length new <= length names)%nat.
Proof.
  intros Hd Hl.
  rewrite (process_directory_loop d a p dry names w Hd Hl).
  apply for_each_journal.
Qed.


Lemma unhashable_preview (d a p : pystr) (n : pystr) (f : FS) :
  hashable a n = false ->
  at_level INFO (preview d a p f n) = [].
Proof.
  intros Hn. unfold preview.
  destruct (os_path_isfile _ _); [|reflexivity].
  unfold hashable in Hn. unfold name_for.
  destruct (encode_utf8 n) as [data|e]; [|reflexivity].
  destruct (hashlib_new_hexdigest a data) as [h|e];
    [discriminate | reflexivity].
Qed.

Lemma unhashable_turn (d a p : pystr) (dry : bool) (n : pystr)
    (w : world FS) :
  hashable a n = false ->
  process_entry d a p dry n w
  = (logged_all w (preview d a p (fs w) n), Ok tt).
Proof.
  intros Hn. rewrite process_entry_outcome. unfold preview.
  destruct (os_path_isfile _ _); [|reflexivity].
  unfold hashable in Hn. unfold name_for.
  destruct (encode_utf8 n) as [data|e]; [|reflexivity].
  destruct (hashlib_new_hexdigest a data) as [h|e];
    [discriminate | reflexivity].
Qed.

Lemma for_each_unhashable (d a p : pystr) (dry : bool)
    (names : list pystr) (w : world FS) :
  (forall n, In n names -> hashable a n = false) ->
  for_each names (process_entry d a p dry) w
  = (logged_all w (previews d a p (handlers w) names (fs w)), Ok tt).
Proof.
  revert w; induction names as [|n names IH]; intros w H; [reflexivity|].
  rewrite for_each_cons by apply process_entry_returns.
  assert (Hn : hashable a n = false) by (apply H; now left).
  rewrite (unhashable_turn d a p dry n w Hn). cbn [fst].
  rewrite IH by (intros m Hm; apply H; now right).
  rewrite logged_all_handlers, logged_all_fs.
  cbn [previews]. now rewrite logged_all_app.
Qed.

Lemma previews_unhashable (d a p : pystr) (hs : list Z)
    (names : list pystr) (f : FS) :
  (forall n, In n names -> hashable a n = false) ->
  at_level INFO (previews d a p hs names f) = [].
Proof.
  revert f; induction names as [|n names IH]; intros f H; [reflexivity|].
  cbn [previews]. rewrite at_level_app.
  rewrite unhashable_preview by (apply H; now left).
  apply IH. intros m Hm. apply H. now right.
Qed.

(** X3.  When no name of the listing can be hashed (an algorithm that
    [hashlib] does not know, for one), a run, dry or not, renames
    nothing: all it does is log one error record for every name
    [os.path.isfile] accepted, as a dry run would.  With no file handler
    attached the file system is as before, and the records are the
    previews of the names on it. *)
Theorem X3_unhashable_run (d a p : pystr) (dry : bool)
    (names : list pystr) (w : world FS) :
  os_path_isdir (fs w) d = true ->
  os_listdir (fs w) d = Ok names ->
  (forall n, In n names -> hashable a n = false) ->
  (process_directory d a p dry w
   = (logged_all w (previews d a p (handlers w) names (fs w)), Ok tt)
   /\ at_level INFO (previews d a p (handlers w) names (fs w)) = [])
  /\ (handlers w = [] ->
      process_directory d a p dry w
      = (World (fs w) (log w ++ flat_map (preview d a p (fs w)) names), Ok tt)
      /\ at_level INFO (flat_map (preview d a p (fs w)) names) = []).
Proof.
  intros Hd Hl H.
  assert (G : process_directory d a p dry w
              = (logged_all w (previews d a p (handlers w) names (fs w)),
                 Ok tt)).
  { rewrite (process_directory_loop d a p dry names w Hd Hl).
    now apply for_each_unhashable. }
  pose proof (previews_unhashable d a p (handlers w) names (fs w) H) as L.
  split; [split; [exact G | exact L]|].
  intros Hh. rewrite G. rewrite Hh in L |- *.
  rewrite previews_console in L |- *. split; [|exact L].
  rewrite (console_world w Hh) at 1. now rewrite logged_all_console.
Qed.

(** X4.  [main] adds nothing of its own to what [process_directory]
    does: once the log sink is attached, the process ends in the world
    [process_directory] leaves, with status 0, when the directory is
    valid; and when it is not, the failure is reported once (not once
    by [main] and once more by [process_directory]) with status 1. *)
Theorem X4_main_composes (a : args) (w w0 : world FS) :
  attach_log_file a w = (w0, Ok tt) ->
  script a w
  = if os_path_isdir (fs w0) (directory a)
    then (fst (process_directory (directory a) (algorithm a) (prefix a)
                 (dry_run a) w0), 0)
    else (logged w0 (ERROR, NotADirectory (directory a)), 1).
Proof.
  intros Ha. unfold script, main, bind. rewrite Ha.
  cbv beta iota delta [is_valid_directory bind isdir logging_error handle
                       ret].
  destruct (os_path_isdir (fs w0) (directory a)) eqn:Hd;
    cbv beta iota delta [negb]; [|reflexivity].
  pose proof (process_directory_returns (directory a) (algorithm a)
                (prefix a) (dry_run a) w0) as H.
  destruct (process_directory _ _ _ _ w0) as [w' [[]|e]]; simpl in H;
    [reflexivity|discriminate].
Qed.

(** X5.  Once the log sink is attached, a directory that exists but
    cannot be listed ([os.listdir] raises, as on a directory without
    read permission) is reported with one error record; nothing is
    processed, nothing is done to the file system but for writing that
    record to the attached log files, and the process still exits with
    status 0. *)
Theorem X5_unlistable_directory (a : args) (e : exn) (w w0 : world FS) :
  attach_log_file a w = (w0, Ok tt) ->
  os_path_isdir (fs w0) (directory a) = true ->
  os_listdir (fs w0) (directory a) = Raise e ->
  script a w = (logged w0 (ERROR, ProcessingFailed (directory a) e), 0).
Proof.
  intros Ha Hd Hl. unfold script, main, bind. rewrite Ha.
  cbv beta iota delta [is_valid_directory bind isdir logging_error handle
                       ret].
  rewrite Hd. cbv beta iota delta [negb].
  now rewrite (process_directory_unlistable (directory a) (algorithm a)
                 (prefix a) (dry_run a) e w0 Hd Hl).
Qed.

End RunFacts.

(* ================================================================== *)
(** * Further facts: hexadecimal digits, octets and UTF-8 are faithful *)

Module NameFacts.

(** A check on every number below [n]. *)
Lemma bounded_forall (P : Z -> bool) (n : nat) :
  forallb P (map Z.of_nat (seq 0 n)) = true ->
  forall x, 0 <= x < Z.of_nat n -> P x = true.
Proof.
  intros H x Hx. rewrite forallb_forall in H. apply H.
  apply in_map_iff. exists (Z.to_nat x). split; [lia|].
  apply in_seq. lia.
Qed.

Lemma lor_continuation (x : Z) : 0 <= x < 64 -> Z.lor 128 x = 128 + x.
Proof.
  intros H. apply Z.eqb_eq.
  exact (bounded_forall (fun x => Z.lor 128 x =? 128 + x) 64 eq_refl x H).
Qed.

Lemma lor_lead2 (x : Z) : 0 <= x < 32 -> Z.lor 192 x = 192 + x.
Proof.
  intros H. apply Z.eqb_eq.
  exact (bounded_forall (fun x => Z.lor 192 x =? 192 + x) 32 eq_refl x H).
Qed.

Lemma lor_lead3 (x : Z) : 0 <= x < 16 -> Z.lor 224 x = 224 + x.
Proof.
  intros H. apply Z.eqb_eq.
  exact (bounded_forall (fun x => Z.lor 224 x =? 224 + x) 16 eq_refl x H).
Qed.

Lemma lor_lead4 (x : Z) : 0 <= x < 8 -> Z.lor 240 x = 240 + x.
Proof.
  intros H. apply Z.eqb_eq.
  exact (bounded_forall (fun x => Z.lor 240 x =? 240 + x) 8 eq_refl x H).
Qed.

Lemma land_63 (x : Z) : Z.land x 63 = x mod 64.
Proof. change 63 with (Z.ones 6). now rewrite Z.land_ones by lia. Qed.

Lemma land_15 (x : Z) : Z.land x 15 = x mod 16.
Proof. change 15 with (Z.ones 4). now rewrite Z.land_ones by lia. Qed.

Lemma some_inj {A} (x y : A) : Some x = Some y -> x = y.
Proof. congruence. Qed.

Lemma cons_inj {A} (x y : A) (l l' : list A) :
  x :: l = y :: l' -> x = y /\ l = l'.
Proof. intros H. split; congruence. Qed.

(** The octets of a code point, in arithmetic. *)
Lemma encode_cp_cases (c : Z) (b : pybytes) :
  Utf8.encode_cp c = Some b ->
  (0 <= c < 128 /\ b = [c])
  \/ (128 <= c < 2048 /\ b = [192 + c / 64; 128 + c mod 64])
  \/ (2048 <= c < 65536
      /\ b = [224 + c / 4096; 128 + (c / 64) mod 64; 128 + c mod 64])
  \/ (65536 <= c < 1114112
      /\ b = [240 + c / 262144; 128 + (c / 4096) mod 64;
              128 + (c / 64) mod 64; 128 + c mod 64]).
Proof.
  unfold Utf8.encode_cp.
  destruct (Z.ltb_spec c 0); [discriminate|].
  destruct (Z.ltb_spec c 128).
  { intros E. apply some_inj in E. subst b. left. split; [lia|reflexivity]. }
  destruct (Z.ltb_spec c 2048).
  { intros E. apply some_inj in E. subst b. right. left. split; [lia|].
    rewrite land_63, Z.shiftr_div_pow2 by lia.
    change (2 ^ 6) with 64.
    rewrite lor_lead2 by (split; [apply Z.div_pos; lia
                                 | apply Z.div_lt_upper_bound; lia]).
    rewrite lor_continuation by (apply Z.mod_pos_bound; lia).
    reflexivity. }
  destruct ((55296 <=? c) && (c <=? 57343)); [discriminate|].
  destruct (Z.ltb_spec c 65536).
  { intros E. apply some_inj in E. subst b. right. right. left. split; [lia|].
    rewrite !land_63, !Z.shiftr_div_pow2 by lia.
    change (2 ^ 6) with 64. change (2 ^ 12) with 4096.
    rewrite lor_lead3 by (split; [apply Z.div_pos; lia
                                 | apply Z.div_lt_upper_bound; lia]).
    rewrite !lor_continuation by (apply Z.mod_pos_bound; lia).
    reflexivity. }
  destruct (Z.ltb_spec c 1114112); [|discriminate].
  intros E. apply some_inj in E. subst b. right. right. right. split; [lia|].
  rewrite !land_63, !Z.shiftr_div_pow2 by lia.
  change (2 ^ 6) with 64. change (2 ^ 12) with 4096.
  change (2 ^ 18) with 262144.
  rewrite lor_lead4 by (split; [apply Z.div_pos; lia
                               | apply Z.div_lt_upper_bound; lia]).
  rewrite !lor_continuation by (apply Z.mod_pos_bound; lia).
  reflexivity.
Qed.

(** No encoding of a code point is the beginning of another. *)
Lemma encode_cp_prefix_free (c1 c2 : Z) (b1 b2 r1 r2 : pybytes) :
  Utf8.encode_cp c1 = Some b1 -> Utf8.encode_cp c2 = Some b2 ->
  b1 ++ r1 = b2 ++ r2 -> c1 = c2 /\ r1 = r2.
Proof.
  intros H1 H2 E.
  apply encode_cp_cases in H1. apply encode_cp_cases in H2.
  destruct H1 as [[R1 ->]|[[R1 ->]|[[R1 ->]|[R1 ->]]]];
    destruct H2 as [[R2 ->]|[[R2 ->]|[[R2 ->]|[R2 ->]]]];
    cbn [app] in E;
    repeat match type of E with
           | _ :: _ = _ :: _ =>
               apply cons_inj in E; let K := fresh "K" in destruct E as [K E]
           end;
    try (split; [Z.div_mod_to_equations; lia | exact E]);
    exfalso; Z.div_mod_to_equations; lia.
Qed.

Lemma encode_cp_nonempty (c : Z) (b : pybytes) :
  Utf8.encode_cp c = Some b -> b <> [].
Proof.
  intros H. apply encode_cp_cases in H.
  destruct H as [[_ ->]|[[_ ->]|[[_ ->]|[_ ->]]]]; discriminate.
Qed.

Lemma encode_inj (s1 s2 : pystr) (b : pybytes) :
  Utf8.encode s1 = Some b -> Utf8.encode s2 = Some b -> s1 = s2.
Proof.
  revert s2 b; induction s1 as [|c1 s1 IH]; intros [|c2 s2] b H1 H2.
  - reflexivity.
  - simpl in H1, H2. apply some_inj in H1. subst b.
    destruct (Utf8.encode_cp c2) as [b2|] eqn:E2; [|discriminate].
    destruct (Utf8.encode s2) as [bs2|]; [|discriminate].
    apply some_inj in H2. destruct b2; [|discriminate].
    now apply encode_cp_nonempty in E2.
  - simpl in H1, H2. apply some_inj in H2. subst b.
    destruct (Utf8.encode_cp c1) as [b1|] eqn:E1; [|discriminate].
    destruct (Utf8.encode s1) as [bs1|]; [|discriminate].
    apply some_inj in H1. destruct b1; [|discriminate].
    now apply encode_cp_nonempty in E1.
  - simpl in H1, H2.
    destruct (Utf8.encode_cp c1) as [b1|] eqn:E1; [|discriminate].
    destruct (Utf8.encode s1) as [bs1|] eqn:F1; [|discriminate].
    destruct (Utf8.encode_cp c2) as [b2|] eqn:E2; [|discriminate].
    destruct (Utf8.encode s2) as [bs2|] eqn:F2; [|discriminate].
    apply some_inj in H1. apply some_inj in H2. subst b.
    destruct (encode_cp_prefix_free c1 c2 b1 b2 bs1 bs2 E1 E2 (eq_sym H2))
      as [-> Hbs].
    subst bs2. f_equal. exact (IH s2 bs1 eq_refl F2).
Qed.

(** Every octet of an encoding is an octet. *)
Lemma encode_cp_octets (c : Z) (b : pybytes) :
  Utf8.encode_cp c = Some b -> Forall (fun x => 0 <= x < 256) b.
Proof.
  intros H. apply encode_cp_cases in H.
  destruct H as [[R ->]|[[R ->]|[[R ->]|[R ->]]]];
    repeat constructor; Z.div_mod_to_equations; lia.
Qed.

Lemma encode_length (s : pystr) (b : pybytes) :
  Utf8.encode s = Some b ->
  (length s <= length b <= 4 * length s)%nat
  /\ Forall (fun x => 0 <= x < 256) b.
Proof.
  revert b; induction s as [|c s IH]; intros b H.
  - simpl in H. apply some_inj in H. subst b. simpl. split; [lia|constructor].
  - simpl in H.
    destruct (Utf8.encode_cp c) as [b1|] eqn:E1; [|discriminate].
    destruct (Utf8.encode s) as [bs|] eqn:F; [|discriminate].
    apply some_inj in H. subst b.
    destruct (IH bs eq_refl) as [IH1 IH2].
    pose proof (encode_cp_octets c b1 E1) as Ho.
    split; [|apply Forall_app; now split].
    rewrite length_app. simpl length.
    apply encode_cp_cases in E1.
    destruct E1 as [[_ ->]|[[_ ->]|[[_ ->]|[_ ->]]]]; simpl; lia.
Qed.

(** ** Hexadecimal digits *)

Lemma digit_inj (d1 d2 : Z) :
  0 <= d1 < 16 -> 0 <= d2 < 16 -> Hex.digit d1 = Hex.digit d2 -> d1 = d2.
Proof.
  unfold Hex.digit. intros H1 H2.
  destruct (Z.ltb_spec d1 10); destruct (Z.ltb_spec d2 10); lia.
Qed.

Lemma of_byte_inj (b1 b2 : Z) :
  0 <= b1 < 256 -> 0 <= b2 < 256 ->
  Hex.of_byte b1 = Hex.of_byte b2 -> b1 = b2.
Proof.
  intros H1 H2. unfold Hex.of_byte.
  rewrite !land_15, !Z.shiftr_div_pow2 by lia. change (2 ^ 4) with 16.
  intros E. apply cons_inj in E. destruct E as [Eh E].
  apply cons_inj in E. destruct E as [El _].
  apply digit_inj in Eh; try (apply Z.mod_pos_bound; lia).
  apply digit_inj in El; try (apply Z.mod_pos_bound; lia).
  Z.div_mod_to_equations. lia.
Qed.

(** Two strings of octets with the same rendering are the same. *)
Lemma hexlify_inj (bs1 bs2 : pybytes) :
  Forall (fun x => 0 <= x < 256) bs1 ->
  Forall (fun x => 0 <= x < 256) bs2 ->
  Hex.hexlify bs1 = Hex.hexlify bs2 -> bs1 = bs2.
Proof.
  intros F1; revert bs2; induction F1 as [|b1 bs1 Hb1 F1 IH];
    intros bs2 F2 E; destruct F2 as [|b2 bs2 Hb2 F2].
  - reflexivity.
  - discriminate E.
  - discriminate E.
  - change (Hex.hexlify (b1 :: bs1)) with (Hex.of_byte b1 ++ Hex.hexlify bs1)
      in E.
    change (Hex.hexlify (b2 :: bs2)) with (Hex.of_byte b2 ++ Hex.hexlify bs2)
      in E.
    unfold Hex.of_byte in E. cbn [app] in E.
    apply cons_inj in E. destruct E as [E1 E].
    apply cons_inj in E. destruct E as [E2 E].
    f_equal; [|now apply IH].
    apply of_byte_inj; try assumption.
    unfold Hex.of_byte. now rewrite E1, E2.
Qed.

(** ** The digests are strings of octets *)

Lemma be_bytes_octets (n : nat) (x : Z) :
  Forall (fun b => 0 <= b < 256) (Digest.be_bytes n x).
Proof.
  induction n as [|n IH]; simpl; constructor; [|exact IH].
  apply Z.mod_pos_bound. lia.
Qed.

Lemma le_bytes_octets (n : nat) (x : Z) :
  Forall (fun b => 0 <= b < 256) (Digest.le_bytes n x).
Proof.
  revert x; induction n as [|n IH]; intros x; simpl; constructor;
    [|apply IH].
  apply Z.mod_pos_bound. lia.
Qed.

Lemma digest_octets (a : HashAlgorithm) (data : pybytes) :
  Forall (fun b => 0 <= b < 256) (digest a data).
Proof.
  destruct a; simpl.
  - unfold Digest.md5. destruct (fold_left _ _ _) as [[[x1 x2] x3] x4].
    repeat (apply Forall_app; split); apply le_bytes_octets.
  - unfold Digest.sha1. destruct (fold_left _ _ _) as [[[[x1 x2] x3] x4] x5].
    repeat (apply Forall_app; split); apply be_bytes_octets.
  - unfold Digest.sha256.
    destruct (fold_left _ _ _) as [[[[[[[x1 x2] x3] x4] x5] x6] x7] x8].
    repeat (apply Forall_app; split); apply be_bytes_octets.
  - unfold Digest.sha512.
    destruct (fold_left _ _ _) as [[[[[[[x1 x2] x3] x4] x5] x6] x7] x8].
    repeat (apply Forall_app; split); apply be_bytes_octets.
Qed.

(** Equal concatenations with heads of one length. *)
Lemma app_inj_length {A} (h1 h2 e1 e2 : list A) :
  length h1 = length h2 -> h1 ++ e1 = h2 ++ e2 -> h1 = h2 /\ e1 = e2.
Proof.
  revert h2; induction h1 as [|x h1 IH]; intros [|y h2] L E;
    try discriminate L.
  - now split.
  - simpl in E. apply cons_inj in E. destruct E as [-> E].
    simpl in L. destruct (IH h2 (eq_add_S _ _ L) E) as [-> ->].
    now split.
Qed.

End NameFacts.

(* ================================================================== *)
(** * Further facts: the names [anonymize_file_name] returns *)

Section NameProperties.

Context {FS : Type} {host : Host FS}.

Lemma name_for_supported (a : HashAlgorithm) (n p : pystr) :
  name_for (algorithm_name a) n p
  = match Renaming.new_name a p n with
    | Some y => Ok y
    | None => Raise UnicodeEncodeError
    end.
Proof.
  unfold name_for, Renaming.new_name, encode_utf8.
  destruct (Utf8.encode n) as [data|]; [|reflexivity].
  now rewrite hashlib_supported.
Qed.

Lemma new_name_nonempty (a : HashAlgorithm) (n p y : pystr) :
  Renaming.new_name a p n = Some y -> y <> [].
Proof.
  unfold Renaming.new_name.
  destruct (Utf8.encode n) as [data|]; [|discriminate].
  intros E. apply NameFacts.some_inj in E. subst y. intros E.
  apply (f_equal (@length Z)) in E.
  rewrite !length_app, HexFacts.hexlify_length, digest_length in E.
  destruct a; simpl in E; lia.
Qed.

Lemma extension_no_sep (n : pystr) :
  ~ In Posixpath.sep (snd (Posixpath.splitext n)).
Proof.
  rewrite PosixpathFacts.splitext_snd.
  destruct (has_extension n) eqn:E; [|intros []].
  destruct (PosixpathFacts.has_extension_shape n E)
    as (u & v & Hn & _ & Hv & Hk).
  rewrite Hk. rewrite Hn at 1. rewrite PosixpathFacts.slice_from_app.
  intros [H|H]; [discriminate H | contradiction].
Qed.

Lemma hex_no_sep (bs : pybytes) : ~ In Posixpath.sep (Hex.hexlify bs).
Proof.
  intros H. pose proof (HexFacts.hexlify_lower bs) as L.
  rewrite forallb_forall in L. specialize (L _ H).
  apply HexFacts.lower_hex_not_sep_dot in L. tauto.
Qed.

Lemma no_sep_In (s : pystr) :
  Renaming.no_sep s = true <-> ~ In Posixpath.sep s.
Proof.
  unfold Renaming.no_sep. rewrite negb_true_iff.
  split.
  - intros H Hin. assert (K : existsb (Z.eqb Posixpath.sep) s = true).
    { apply existsb_exists. exists Posixpath.sep. split; [exact Hin|].
      apply Z.eqb_refl. }
    congruence.
  - intros H. destruct (existsb (Z.eqb Posixpath.sep) s) eqn:E;
      [|reflexivity].
    apply existsb_exists in E. destruct E as (x & Hx & Ex).
    apply Z.eqb_eq in Ex. subst x. contradiction.
Qed.

Lemma file_name_ok_iff (s : pystr) :
  FlatDir.file_name_ok s = true <-> s <> [] /\ ~ In Posixpath.sep s.
Proof.
  rewrite <- no_sep_In. unfold FlatDir.file_name_ok, Renaming.no_sep.
  destruct s; [split; [discriminate | intros [H _]; congruence]|].
  split; [intros H; split; [discriminate | exact H] | tauto].
Qed.

(** The new name is one file name when the prefix holds no ['/']. *)
Lemma new_name_ok (a : HashAlgorithm) (n p y : pystr) :
  Renaming.no_sep p = true -> Renaming.new_name a p n = Some y ->
  FlatDir.file_name_ok y = true.
Proof.
  intros Hp Hy. apply file_name_ok_iff.
  split; [exact (new_name_nonempty a n p y Hy)|].
  unfold Renaming.new_name in Hy.
  destruct (Utf8.encode n) as [data|]; [|discriminate].
  apply NameFacts.some_inj in Hy. subst y.
  rewrite !in_app_iff. intros [H|[H|H]].
  - now apply no_sep_In in Hp.
  - now apply hex_no_sep in H.
  - now apply extension_no_sep in H.
Qed.

Lemma lower_hex_scalar (c : Z) :
  Hex.is_lower_hex c = true -> Utf8.scalar c = true.
Proof.
  unfold Hex.is_lower_hex, Utf8.scalar. intros H.
  apply orb_true_iff in H.
  assert (R : 48 <= c <= 102).
  { destruct H as [H|H]; apply andb_true_iff in H; destruct H as [H1 H2];
      apply Z.leb_le in H1; apply Z.leb_le in H2; lia. }
  apply andb_true_iff. split; [apply andb_true_iff; split|].
  - apply Z.leb_le. lia.
  - apply Z.ltb_lt. lia.
  - apply negb_true_iff, andb_false_iff. left. apply Z.leb_gt. lia.
Qed.

(** X6.  Under a digest of the command line two names that can be
    encoded receive the same anonymized name exactly when the digests of
    their UTF-8 encodings are equal and their extensions are equal; and
    two different names never have the same encoding, so for them that
    is a collision of the digest. *)
Theorem X6_same_name_iff_collision (n1 n2 p : pystr) (a : HashAlgorithm)
    (d1 d2 : pybytes) (w : world FS) :
  Utf8.encode n1 = Some d1 -> Utf8.encode n2 = Some d2 ->
  (snd (anonymize_file_name n1 (algorithm_name a) p w)
   = snd (anonymize_file_name n2 (algorithm_name a) p w)
   <-> digest a d1 = digest a d2
       /\ snd (Posixpath.splitext n1) = snd (Posixpath.splitext n2))
  /\ (n1 <> n2 -> d1 <> d2).
Proof.
  intros H1 H2. split.
  - rewrite !anonymize_file_name_cases. unfold encode_utf8.
    rewrite H1, H2, !hashlib_supported. simpl. split.
    + intros E.
      assert (E' : p ++ Hex.hexlify (digest a d1)
                     ++ snd (Posixpath.splitext n1)
                   = p ++ Hex.hexlify (digest a d2)
                       ++ snd (Posixpath.splitext n2)) by congruence.
      apply app_inv_head in E'.
      apply NameFacts.app_inj_length in E'.
      * destruct E' as [Eh Ee]. split; [|exact Ee].
        apply NameFacts.hexlify_inj; [apply NameFacts.digest_octets ..|].
        exact Eh.
      * now rewrite !HexFacts.hexlify_length, !digest_length.
    + intros [Ed Ee]. now rewrite Ed, Ee.
  - intros Hn E. subst d2. apply Hn.
    exact (NameFacts.encode_inj n1 n2 d1 H1 H2).
Qed.

(** X7.  The shape of an anonymized name: its length is that of the
    prefix, plus twice the digest size, plus that of the extension; it is
    never empty; when the prefix holds no ['/'] it is a single file name
    (the renamed file stays in its directory); and when the prefix can
    be encoded in UTF-8 so can the name. *)
Theorem X7_name_shape (n p : pystr) (a : HashAlgorithm) (data : pybytes)
    (w : world FS) :
  Utf8.encode n = Some data ->
  exists out,
    snd (anonymize_file_name n (algorithm_name a) p w) = Ok (Some out)
    /\ length out
       = (length p + 2 * digest_size a
          + length (snd (Posixpath.splitext n)))%nat
    /\ out <> []
    /\ (Renaming.no_sep p = true -> FlatDir.file_name_ok out = true)
    /\ (Utf8.encodable p = true -> Utf8.encodable out = true).
Proof.
  intros Hd.
  assert (Hy : Renaming.new_name a p n
               = Some (p ++ Hex.hexlify (digest a data)
                         ++ snd (Posixpath.splitext n))).
  { unfold Renaming.new_name. now rewrite Hd. }
  eexists. split; [|split; [|split; [|split]]].
  - rewrite anonymize_file_name_name_for, name_for_supported, Hy.
    reflexivity.
  - rewrite !length_app, HexFacts.hexlify_length, digest_length. lia.
  - exact (new_name_nonempty a n p _ Hy).
  - intros Hp. exact (new_name_ok a n p _ Hp Hy).
  - intros Hp. unfold Utf8.encodable in *. rewrite !forallb_app.
    rewrite Hp. simpl. apply andb_true_iff. split.
    + apply forallb_forall. intros c Hc.
      apply lower_hex_scalar.
      pose proof (HexFacts.hexlify_lower (digest a data)) as L.
      rewrite forallb_forall in L. now apply L.
    + assert (He : Utf8.encodable n = true)
        by (apply Utf8Facts.encodable_encode; eauto).
      unfold Utf8.encodable in He.
      rewrite <- (PosixpathFacts.splitext_app n), forallb_app in He.
      now apply andb_true_iff in He.
Qed.

(** X8.  Under a digest of the command line no file goes unreported:
    the turn of a name that [os.path.isfile] accepts adds exactly one
    record to the log (the rename, its preview, or the error), and the
    turn of a name it does not accept adds none and changes nothing. *)
Theorem X8_one_record_per_file (d p : pystr) (a : HashAlgorithm)
    (dry : bool) (n : pystr) (w : world FS) :
  if os_path_isfile (fs w) (Posixpath.join d n)
  then exists r,
         log (fst (process_entry d (algorithm_name a) p dry n w))
         = log w ++ [r]
  else process_entry d (algorithm_name a) p dry n w = (w, Ok tt).
Proof.
  rewrite process_entry_outcome.
  destruct (os_path_isfile _ _); [|reflexivity].
  rewrite name_for_supported.
  destruct (Renaming.new_name a p n) as [y|] eqn:Hy.
  - pose proof (new_name_nonempty a n p y Hy) as Hne.
    destruct y as [|c r]; [congruence|].
    destruct dry; [eexists; reflexivity|].
    destruct (os_rename _ _ _); eexists; reflexivity.
  - eexists; reflexivity.
Qed.

End NameProperties.

(* ================================================================== *)
(** * Further facts: renaming in the flat directory *)

Module RenamingFacts.
Import FlatDir Renaming.

Lemma existsb_str_eqb (n : pystr) (l : list pystr) :
  existsb (str_eqb n) l = false <-> ~ In n l.
Proof.
  induction l as [|m l IH]; simpl; [tauto|].
  rewrite orb_false_iff, IH, str_eqb_neq. intuition congruence.
Qed.

Lemma distinct_NoDup (ns : list pystr) : distinct ns = true -> NoDup ns.
Proof.
  induction ns as [|n ns IH]; simpl; intros H; constructor;
    apply andb_true_iff in H; destruct H as [H1 H2].
  - apply existsb_str_eqb. now apply negb_true_iff.
  - now apply IH.
Qed.

Lemma NoDup_insert {A} (l l' : list A) (a : A) :
  NoDup (l ++ l') -> ~ In a (l ++ l') -> NoDup (l ++ a :: l').
Proof.
  induction l as [|x l IH]; simpl; intros H1 H2.
  - now constructor.
  - inversion H1 as [|? ? Hx Hl]; subst. constructor.
    + rewrite in_app_iff in *. simpl. intuition congruence.
    + apply IH; [assumption|]. intuition.
Qed.

Lemma lookup_notin (x : pystr) (es : list (pystr * node)) :
  ~ In x (map fst es) -> lookup x es = None.
Proof.
  induction es as [|[k v] es IH]; simpl; intros H; [reflexivity|].
  assert (E : str_eqb k x = false) by (apply str_eqb_neq; intuition).
  rewrite E. apply IH. intuition.
Qed.

Lemma lookup_app_notin (x : pystr) (pre l : list (pystr * node)) :
  ~ In x (map fst pre) -> lookup x (pre ++ l) = lookup x l.
Proof.
  induction pre as [|[k v] pre IH]; simpl; intros H; [reflexivity|].
  assert (E : str_eqb k x = false) by (apply str_eqb_neq; intuition).
  rewrite E. apply IH. intuition.
Qed.

Lemma lookup_In (x : pystr) (nd : node) (es : list (pystr * node)) :
  lookup x es = Some nd -> In x (map fst es).
Proof.
  induction es as [|[k v] es IH]; simpl; [discriminate|].
  destruct (str_eqb k x) eqn:E; [|intuition].
  apply str_eqb_eq in E. intuition.
Qed.

(** A name that leads to something other than a link resolves to it. *)
Lemma resolve_plain (fuel : nat) (es : list (pystr * node)) (x : pystr)
    (nd : node) :
  lookup x es = Some nd -> (forall t, nd <> Symlink t) ->
  resolve fuel es x = Some nd.
Proof.
  intros H Hn. destruct fuel; simpl; rewrite H;
    destruct nd; try reflexivity; exfalso; eapply Hn; reflexivity.
Qed.

(** Taking a name nobody holds changes one key and nothing else. *)
Lemma move_at (x y : pystr) (v : node) (pre rest : list (pystr * node)) :
  ~ In x (map fst pre) -> ~ In x (map fst rest) ->
  ~ In y (map fst (pre ++ (x, v) :: rest)) ->
  move x y (pre ++ (x, v) :: rest) = pre ++ (y, v) :: rest.
Proof.
  intros Hp Hr Hy. unfold move.
  rewrite forallb_filter_id.
  2:{ apply forallb_forall. intros [k w] Hin. simpl.
      apply negb_true_iff, str_eqb_neq. intros ->. apply Hy.
      apply in_map_iff. exists (y, w). now split. }
  rewrite map_app. simpl. rewrite str_eqb_refl. simpl.
  assert (Hid : forall l, ~ In x (map fst l) ->
            map (fun kv : pystr * node =>
                   if str_eqb (fst kv) x then (y, snd kv) else kv) l = l).
  { induction l as [|[k w] l IH]; simpl; intros H; [reflexivity|].
    assert (E : str_eqb k x = false) by (apply str_eqb_neq; intuition).
    rewrite E. f_equal. apply IH. intuition. }
  now rewrite !Hid.
Qed.

(** After [src] took the name [dst], [dst] leads to what [src] led to
    and [src] leads nowhere. *)
Lemma lookup_move_dst (x y : pystr) (es : list (pystr * node)) :
  x <> y -> lookup y (move x y es) = lookup x es.
Proof.
  intros Hxy. unfold move. induction es as [|[k v] es IH]; [reflexivity|].
  simpl. destruct (str_eqb k y) eqn:Eky; simpl.
  - apply str_eqb_eq in Eky. subst k.
    assert (E : str_eqb y x = false) by (apply str_eqb_neq; congruence).
    now rewrite E.
  - destruct (str_eqb k x) eqn:Ekx; simpl.
    + now rewrite str_eqb_refl.
    + rewrite Eky. exact IH.
Qed.

Lemma lookup_move_src (x y : pystr) (es : list (pystr * node)) :
  x <> y -> lookup x (move x y es) = None.
Proof.
  intros Hxy. unfold move. induction es as [|[k v] es IH]; [reflexivity|].
  simpl. destruct (str_eqb k y) eqn:Eky; simpl; [exact IH|].
  destruct (str_eqb k x) eqn:Ekx; simpl.
  - assert (E : str_eqb y x = false) by (apply str_eqb_neq; congruence).
    now rewrite E.
  - rewrite Ekx. exact IH.
Qed.

Lemma move_nodes (x y : pystr) (es : list (pystr * node)) :
  incl (map snd (move x y es)) (map snd es)
  /\ (length (move x y es) <= length es)%nat.
Proof.
  unfold move. split.
  - intros nd H. apply in_map_iff in H. destruct H as ([k v] & <- & H).
    apply in_map_iff in H. destruct H as ([k' v'] & E & H).
    apply filter_In in H. destruct H as [H _].
    apply in_map_iff. exists (k', v'). split; [|exact H].
    simpl in E. destruct (str_eqb k' x); inversion E; reflexivity.
  - rewrite length_map. apply filter_length_le.
Qed.

End RenamingFacts.

(* ================================================================== *)
(** * Further facts: runs on the flat directory *)

Module FlatRuns.
Import FlatDir Renaming RenamingFacts.

Lemma flat_rename_nodes (d d' : dir) (src dst : pystr) :
  flat_rename d src dst = Ok d' ->
  path d' = path d /\ writable d' = writable d
  /\ incl (map snd (entries d')) (map snd (entries d))
  /\ (length (entries d') <= length (entries d))%nat.
Proof.
  intros Hr.
  destruct (FlatDirFacts.flat_rename_ok d d' src dst Hr)
    as (s & t & n & _ & _ & _ & [->|(-> & _ & _)]).
  - repeat split; auto using incl_refl.
  - cbn [moved path writable entries].
    destruct (move_nodes s t (entries d)). repeat split; assumption.
Qed.

Lemma fits_refused (dp y : pystr) : fits dp y = true -> refused dp y = None.
Proof. unfold fits. now destruct (refused dp y). Qed.

(** One turn on a regular file whose new name is free. *)
Lemma turn_renames (dp p : pystr) (a : HashAlgorithm) (x y : pystr)
    (c : pybytes) (pre rest : list (pystr * node)) (lg : list record) :
  file_name_ok x = true -> no_sep p = true ->
  new_name a p x = Some y ->
  fits dp y = true ->
  ~ In x (map fst pre) -> ~ In x (map fst rest) ->
  ~ In y (map fst (pre ++ (x, Regular c) :: rest)) ->
  process_entry dp (algorithm_name a) p false x
    (World (Dir dp true (pre ++ (x, Regular c) :: rest)) lg)
  = (World (Dir dp true (pre ++ (y, Regular c) :: rest))
           (lg ++ [(INFO, Renamed x y)]), Ok tt).
Proof.
  intros Hx Hp Hy Hfit Hxp Hxr Hfresh.
  set (cur := pre ++ (x, Regular c) :: rest).
  set (d := Dir dp true cur).
  assert (Hlx : lookup x cur = Some (Regular c)).
  { unfold cur. rewrite lookup_app_notin by assumption.
    simpl. now rewrite str_eqb_refl. }
  assert (Hly : lookup y cur = None) by now apply lookup_notin.
  assert (Hyok : file_name_ok y = true) by exact (new_name_ok a x p y Hp Hy).
  rewrite process_entry_outcome.
  change (fs (World d lg)) with d.
  change (os_path_isfile d) with (flat_isfile d).
  change dp with (path d) at 1 2 3.
  rewrite (FlatDirFacts.flat_isfile_child d x Hx).
  unfold is_regular_target.
  rewrite (resolve_plain SYMLOOP_MAX (entries d) x (Regular c) Hlx)
    by (intros t; discriminate).
  rewrite name_for_supported, Hy.
  pose proof (new_name_nonempty a x p y Hy) as Hne.
  destruct y as [|c0 r0] eqn:Ey; [congruence|]. rewrite <- Ey in *.
  change (os_rename d) with (flat_rename d).
  unfold flat_rename.
  rewrite (FlatDirFacts.child_of_join d x Hx),
    (FlatDirFacts.child_of_join d y Hyok).
  change (entries d) with cur. change (path d) with dp.
  change (writable d) with true.
  rewrite Hlx, Hly, (fits_refused dp y Hfit).
  cbv beta iota delta [negb].
  unfold moved. change (entries d) with cur. unfold cur.
  rewrite move_at by assumption. reflexivity.
Qed.

(** One turn on anything else leaves the directory as it is. *)
Lemma turn_keeps (dp p : pystr) (a : HashAlgorithm) (x : pystr)
    (nd : node) (pre rest : list (pystr * node)) (lg : list record) :
  file_name_ok x = true ->
  ~ In x (map fst pre) ->
  (forall t, nd <> Symlink t) ->
  (forall c, nd = Regular c -> new_name a p x = None) ->
  process_entry dp (algorithm_name a) p false x
    (World (Dir dp true (pre ++ (x, nd) :: rest)) lg)
  = (World (Dir dp true (pre ++ (x, nd) :: rest))
           (lg ++ journal a p (x, nd)), Ok tt).
Proof.
  intros Hx Hxp Hnl Hreg.
  set (cur := pre ++ (x, nd) :: rest).
  set (d := Dir dp true cur).
  assert (Hlx : lookup x cur = Some nd).
  { unfold cur. rewrite lookup_app_notin by assumption.
    simpl. now rewrite str_eqb_refl. }
  rewrite process_entry_outcome. simpl fs.
  change (os_path_isfile d) with (flat_isfile d).
  change dp with (path d) at 1 2 3.
  rewrite (FlatDirFacts.flat_isfile_child d x Hx).
  unfold is_regular_target.
  rewrite (resolve_plain SYMLOOP_MAX (entries d) x nd Hlx Hnl).
  unfold journal. simpl snd. simpl fst.
  destruct nd as [c| | |t].
  - rewrite name_for_supported, (Hreg c eq_refl). reflexivity.
  - now rewrite app_nil_r.
  - now rewrite app_nil_r.
  - exfalso. now apply (Hnl t).
Qed.

Lemma run_entries (dp p : pystr) (a : HashAlgorithm)
    (todo pre : list (pystr * node)) (lg : list record) :
  no_sep p = true ->
  forallb file_name_ok (map fst todo) = true ->
  no_links todo = true ->
  forallb (fits dp) (new_names a p todo) = true ->
  NoDup (map fst pre ++ map fst todo ++ new_names a p todo) ->
  for_each (map fst todo) (process_entry dp (algorithm_name a) p false)
    (World (Dir dp true (pre ++ todo)) lg)
  = (World (Dir dp true (pre ++ map (target a p) todo))
           (lg ++ flat_map (journal a p) todo), Ok tt).
Proof.
  intros Hp. revert pre lg.
  induction todo as [|[x nd] todo IH]; intros pre lg Hok Hnl Hfit Hnd.
  - simpl. unfold ret. now rewrite !app_nil_r.
  - simpl map. rewrite for_each_cons by apply process_entry_returns.
    simpl in Hok. apply andb_true_iff in Hok. destruct Hok as [Hx Hok].
    simpl in Hnl. apply andb_true_iff in Hnl. destruct Hnl as [Hl Hnl].
    simpl flat_map. unfold target at 1. unfold journal at 1.
    simpl fst. simpl snd.
    simpl map in Hnd. unfold new_names in Hnd, Hfit.
    simpl flat_map in Hnd, Hfit.
    fold (new_names a p todo) in Hnd, Hfit.
    destruct nd as [c| | |t]; [|..|discriminate Hl].
    + destruct (new_name a p x) as [y|] eqn:Hy.
      * (* renamed *)
        simpl app in Hnd.
        cbn [app forallb] in Hfit. apply andb_true_iff in Hfit.
        destruct Hfit as [Hfy Hfit].
        pose proof (NoDup_remove _ _ _ Hnd) as [Hnd1 Hx1].
        rewrite !in_app_iff in Hx1.
        assert (Hnd2 : NoDup ((map fst pre ++ map fst todo)
                              ++ y :: new_names a p todo))
          by (now rewrite <- app_assoc).
        pose proof (NoDup_remove _ _ _ Hnd2) as [Hnd3 Hy1].
        rewrite !in_app_iff in Hy1.
        rewrite (turn_renames dp p a x y c pre todo lg Hx Hp Hy Hfy).
        -- simpl fst.
           replace (pre ++ (y, Regular c) :: todo)
             with ((pre ++ [(y, Regular c)]) ++ todo)
             by (now rewrite <- app_assoc).
           rewrite IH; try assumption.
           ++ now rewrite <- !app_assoc.
           ++ rewrite map_app. simpl map. rewrite <- app_assoc. simpl app.
              apply NoDup_insert.
              ** now rewrite <- app_assoc in Hnd3.
              ** rewrite !in_app_iff. tauto.
        -- tauto.
        -- tauto.
        -- rewrite map_app. simpl map. rewrite in_app_iff. simpl.
           intros [H|[H|H]]; [tauto| |tauto].
           subst y. simpl in Hx1. tauto.
      * (* the name cannot be encoded *)
        rewrite (turn_keeps dp p a x (Regular c) pre todo lg Hx);
          [| | intros t; discriminate | intros c' _; exact Hy].
        -- simpl fst. unfold journal at 1. simpl. rewrite Hy.
           replace (pre ++ (x, Regular c) :: todo)
             with ((pre ++ [(x, Regular c)]) ++ todo)
             by (now rewrite <- app_assoc).
           rewrite IH; try assumption.
           ++ now rewrite <- !app_assoc.
           ++ rewrite map_app. simpl map. now rewrite <- app_assoc.
        -- apply NoDup_remove_2 in Hnd. rewrite in_app_iff in Hnd. tauto.
    + rewrite (turn_keeps dp p a x Directory pre todo lg Hx);
        [| | intros t; discriminate | intros c' E; discriminate E].
      * simpl fst. unfold journal at 1. simpl. rewrite app_nil_r.
        replace (pre ++ (x, Directory) :: todo)
          with ((pre ++ [(x, Directory)]) ++ todo)
          by (now rewrite <- app_assoc).
        rewrite IH; try assumption.
        -- now rewrite <- !app_assoc.
        -- rewrite map_app. simpl map. now rewrite <- app_assoc.
      * apply NoDup_remove_2 in Hnd. rewrite in_app_iff in Hnd. tauto.
    + rewrite (turn_keeps dp p a x Special pre todo lg Hx);
        [| | intros t; discriminate | intros c' E; discriminate E].
      * simpl fst. unfold journal at 1. simpl. rewrite app_nil_r.
        replace (pre ++ (x, Special) :: todo)
          with ((pre ++ [(x, Special)]) ++ todo)
          by (now rewrite <- app_assoc).
        rewrite IH; try assumption.
        -- now rewrite <- !app_assoc.
        -- rewrite map_app. simpl map. now rewrite <- app_assoc.
      * apply NoDup_remove_2 in Hnd. rewrite in_app_iff in Hnd. tauto.
Qed.

(** The directory of the model is valid and can be listed. *)
Lemma flat_valid (d : dir) :
  path d <> [] ->
  os_path_isdir (fs (World d [])) (path d) = true
  /\ os_listdir (fs (World d [])) (path d) = Ok (map fst (entries d)).
Proof.
  intros H. simpl. unfold flat_isdir, flat_listdir, stat.
  rewrite str_eqb_refl. destruct (path d); [congruence|].
  split; reflexivity.
Qed.

End FlatRuns.

(* ================================================================== *)
(** * Further properties of runs on the flat directory *)

Lemma filter_drops (y : pystr) (nd : FlatDir.node)
    (es : list (pystr * FlatDir.node)) :
  FlatDir.lookup y es = Some nd ->
  (length (filter (fun kv => negb (str_eqb (fst kv) y)) es)
   < length es)%nat.
Proof.
  induction es as [|[k v] es IH]; simpl; [discriminate|].
  destruct (str_eqb k y); simpl.
  - intros _.
    pose proof (filter_length_le
                  (fun kv : pystr * FlatDir.node =>
                     negb (str_eqb (fst kv) y)) es). lia.
  - intros H. specialize (IH H). lia.
Qed.

(** X9.  A run creates no entry and never alters what an entry holds:
    for a directory processed under its own path with a prefix that
    holds no ['/'], whatever the algorithm, the digests [hashlib] offers
    and the file handlers attached, every node of the directory after
    the run is a node it held before, there are no more entries than
    before, and the directory itself is the same one.  (What a file
    handler appends to a log file of the directory is kept apart from
    the nodes.) *)
Theorem X9_contents_preserved (other : pystr -> pybytes -> result pystr)
    (d : FlatDir.dir) (a p : pystr) (dry : bool) (lg : list record)
    (hs : list Z) :
  Renaming.no_sep p = true ->
  let d' := fs (fst (process_directory
                       (host := FlatDir.flat_host_with other)
                       (FlatDir.path d) a p dry (Running d lg hs))) in
  FlatDir.path d' = FlatDir.path d
  /\ FlatDir.writable d' = FlatDir.writable d
  /\ incl (map snd (FlatDir.entries d')) (map snd (FlatDir.entries d))
  /\ (length (FlatDir.entries d') <= length (FlatDir.entries d))%nat.
Proof.
  intros _.
  apply (process_directory_invariant
           (host := FlatDir.flat_host_with other)
           (fun f : FlatDir.dir =>
              FlatDir.path f = FlatDir.path d
              /\ FlatDir.writable f = FlatDir.writable d
              /\ incl (map snd (FlatDir.entries f))
                      (map snd (FlatDir.entries d))
              /\ (length (FlatDir.entries f)
                  <= length (FlatDir.entries d))%nat)).
  - intros f f' src dst _ Hr (H1 & H2 & H3 & H4).
    destruct (FlatRuns.flat_rename_nodes f f' src dst Hr)
      as (K1 & K2 & K3 & K4).
    repeat split; try congruence.
    + eapply incl_tran; eassumption.
    + lia.
  - intros f h r (H1 & H2 & H3 & H4).
    change (handler_emit f h r) with (FlatDir.flat_emit f h r).
    destruct (FlatDirFacts.flat_emit_entries f h r) as (K1 & K2 & K3 & _).
    rewrite K1, K2, K3. repeat split; assumption.
  - simpl. repeat split; auto using incl_refl.
Qed.

(** X10.  A file whose new name is already held by another regular file
    takes that name all the same: the other file is replaced and lost,
    the directory has fewer entries, and the log reports an ordinary
    successful rename. *)
Theorem X10_collision_overwrites (d : FlatDir.dir) (a : HashAlgorithm)
    (p x y : pystr) (c c' : pybytes) (lg : list record) :
  FlatDir.writable d = true ->
  FlatDir.file_name_ok x = true ->
  Renaming.no_sep p = true ->
  Renaming.new_name a p x = Some y ->
  x <> y ->
  FlatDir.lookup x (FlatDir.entries d) = Some (FlatDir.Regular c) ->
  FlatDir.lookup y (FlatDir.entries d) = Some (FlatDir.Regular c') ->
  exists d',
    process_entry (FlatDir.path d) (algorithm_name a) p false x (World d lg)
    = (World d' (lg ++ [(INFO, Renamed x y)]), Ok tt)
    /\ FlatDir.lookup y (FlatDir.entries d') = Some (FlatDir.Regular c)
    /\ FlatDir.lookup x (FlatDir.entries d') = None
    /\ (length (FlatDir.entries d') < length (FlatDir.entries d))%nat.
Proof.
  intros Hw Hx Hp Hy Hxy Hlx Hly.
  exists (FlatDir.moved d x y).
  assert (Hyok : FlatDir.file_name_ok y = true)
    by exact (new_name_ok a x p y Hp Hy).
  split; [|split; [|split]].
  - rewrite process_entry_outcome. change (fs (World d lg)) with d.
    change (os_path_isfile d) with (FlatDir.flat_isfile d).
    rewrite (FlatDirFacts.flat_isfile_child d x Hx).
    unfold FlatDir.is_regular_target.
    rewrite (RenamingFacts.resolve_plain FlatDir.SYMLOOP_MAX
               (FlatDir.entries d) x (FlatDir.Regular c) Hlx)
      by (intros t; discriminate).
    rewrite name_for_supported, Hy.
    pose proof (new_name_nonempty a x p y Hy) as Hne.
    destruct y as [|c0 r0] eqn:Ey; [congruence|]. rewrite <- Ey in *.
    change (os_rename d) with (FlatDir.flat_rename d).
    unfold FlatDir.flat_rename.
    rewrite (FlatDirFacts.child_of_join d x Hx),
      (FlatDirFacts.child_of_join d y Hyok).
    assert (E : str_eqb x y = false) by now apply str_eqb_neq.
    rewrite Hlx, Hly, E, Hw. reflexivity.
  - simpl. now rewrite RenamingFacts.lookup_move_dst.
  - simpl. now apply RenamingFacts.lookup_move_src.
  - simpl. unfold FlatDir.move. rewrite length_map.
    exact (filter_drops y _ _ Hly).
Qed.

(** X11.  The run as a whole, when no name collides.  In a writable
    directory without symbolic links, processed under its own path with
    console logging and a prefix that holds no ['/'], if the new names
    are distinct from each other and from every name present, and each
    of them can be given (Python can make its path, with no null
    character, and it is within the lengths the system accepts), then
    after the run every regular file whose name can be encoded holds its
    new name, with its content, at its place in the listing; every other
    entry is as it was; and the log has gained, in order, one record per
    regular file: its rename, or the encoding error. *)
Theorem X11_directory_renamed (dp : pystr)
    (es : list (pystr * FlatDir.node)) (a : HashAlgorithm)
    (p : pystr) (lg : list record) :
  dp <> [] ->
  Renaming.no_sep p = true ->
  forallb FlatDir.file_name_ok (map fst es) = true ->
  Renaming.no_links es = true ->
  FlatDir.distinct (map fst es ++ Renaming.new_names a p es) = true ->
  forallb (Renaming.fits dp) (Renaming.new_names a p es) = true ->
  process_directory dp (algorithm_name a) p false
    (World (FlatDir.Dir dp true es) lg)
  = (World (FlatDir.Dir dp true (map (Renaming.target a p) es))
           (lg ++ flat_map (Renaming.journal a p) es),
     Ok tt).
Proof.
  intros Hpath Hp Hok Hnl Hd Hfit.
  destruct (FlatRuns.flat_valid (FlatDir.Dir dp true es) Hpath)
    as [Hv1 Hv2].
  rewrite (process_directory_loop dp (algorithm_name a) p
             false (map fst es) (World (FlatDir.Dir dp true es) lg)
             Hv1 Hv2).
  apply (FlatRuns.run_entries dp p a es [] lg Hp Hok Hnl Hfit).
  simpl. now apply RenamingFacts.distinct_NoDup.
Qed.

Lemma lookup_NoDup (x : pystr) (nd : FlatDir.node)
    (es : list (pystr * FlatDir.node)) :
  NoDup (map fst es) -> In (x, nd) es -> FlatDir.lookup x es = Some nd.
Proof.
  induction es as [|[k v] es IH]; simpl; intros Hn Hin; [contradiction|].
  inversion Hn as [|? ? Hk Hes]; subst.
  destruct Hin as [E|Hin].
  - inversion E; subst. now rewrite str_eqb_refl.
  - destruct (str_eqb k x) eqn:Ek.
    + apply str_eqb_eq in Ek. subst k. exfalso. apply Hk.
      apply in_map_iff. exists (x, nd). now split.
    + now apply IH.
Qed.

(** What the dry run logs for an entry is the preview of what the run
    logs for it. *)
Lemma preview_entry (d : FlatDir.dir) (a : HashAlgorithm) (p x : pystr)
    (nd : FlatDir.node) :
  NoDup (map fst (FlatDir.entries d)) ->
  In (x, nd) (FlatDir.entries d) ->
  FlatDir.file_name_ok x = true ->
  (forall t, nd <> FlatDir.Symlink t) ->
  preview (FlatDir.path d) (algorithm_name a) p d x
  = map as_preview (Renaming.journal a p (x, nd)).
Proof.
  intros Hn Hin Hx Hl.
  pose proof (lookup_NoDup x nd _ Hn Hin) as Hlx.
  unfold preview.
  change (os_path_isfile d) with (FlatDir.flat_isfile d).
  rewrite (FlatDirFacts.flat_isfile_child d x Hx).
  unfold FlatDir.is_regular_target.
  rewrite (RenamingFacts.resolve_plain FlatDir.SYMLOOP_MAX
             (FlatDir.entries d) x nd Hlx Hl).
  unfold Renaming.journal. simpl fst. simpl snd.
  destruct nd as [c| | |t]; try reflexivity.
  rewrite name_for_supported.
  destruct (Renaming.new_name a p x) as [y|] eqn:Hy; [|reflexivity].
  pose proof (new_name_nonempty a x p y Hy) as Hne.
  destruct y; [congruence|reflexivity].
Qed.

(** X12.  Without symbolic links and without collisions, in a writable
    directory processed under its own path with console logging, a
    prefix that holds no ['/'] and new names that can all be given, the
    dry run is an accurate preview: it logs, record for record and in
    the same order, what the run proper then logs, with the announcement
    of a rename in place of the rename. *)
Theorem X12_dry_run_is_accurate (dp : pystr)
    (es : list (pystr * FlatDir.node)) (a : HashAlgorithm)
    (p : pystr) (lg : list record) :
  dp <> [] ->
  Renaming.no_sep p = true ->
  forallb FlatDir.file_name_ok (map fst es) = true ->
  Renaming.no_links es = true ->
  FlatDir.distinct (map fst es ++ Renaming.new_names a p es) = true ->
  forallb (Renaming.fits dp) (Renaming.new_names a p es) = true ->
  exists new,
    log (fst (process_directory dp (algorithm_name a) p false
                (World (FlatDir.Dir dp true es) lg)))
    = lg ++ new
    /\ log (fst (process_directory dp (algorithm_name a) p true
                   (World (FlatDir.Dir dp true es) lg)))
       = lg ++ map as_preview new.
Proof.
  intros Hpath Hp Hok Hnl Hd Hfit.
  set (d := FlatDir.Dir dp true es).
  destruct (FlatRuns.flat_valid d Hpath) as [Hv1 Hv2].
  exists (flat_map (Renaming.journal a p) es).
  split.
  - rewrite (process_directory_loop dp (algorithm_name a) p
               false (map fst es) (World d lg) Hv1 Hv2).
    pose proof (FlatRuns.run_entries dp p a es [] lg Hp Hok Hnl Hfit) as R.
    cbn [app map] in R. unfold d. rewrite R; [reflexivity|].
    now apply RenamingFacts.distinct_NoDup.
  - assert (Hn : NoDup (map fst (FlatDir.entries d))).
    { apply RenamingFacts.distinct_NoDup in Hd.
      now apply NoDup_app_remove_r in Hd. }
    rewrite (process_directory_loop dp (algorithm_name a) p
               true (map fst es) (World d lg) Hv1 Hv2).
    rewrite for_each_dry_preview. cbn [fst].
    rewrite logged_all_log.
    change (handlers (World d lg)) with (@nil Z).
    rewrite previews_console.
    change (log (World d lg)) with lg. change (fs (World d lg)) with d.
    f_equal.
    assert (G : forall l,
               incl l (FlatDir.entries d) ->
               flat_map (preview (FlatDir.path d) (algorithm_name a) p d)
                        (map fst l)
               = map as_preview (flat_map (Renaming.journal a p) l)).
    { induction l as [|[x nd] l IH]; intros Hi; [reflexivity|].
      cbn [map fst flat_map]. rewrite map_app.
      assert (Hin : In (x, nd) (FlatDir.entries d))
        by (apply Hi; now left).
      rewrite IH by (intros kv Hkv; apply Hi; now right).
      f_equal. apply preview_entry; try assumption.
      - rewrite forallb_forall in Hok. apply Hok.
        apply in_map_iff. exists (x, nd). now split.
      - intros t ->. unfold Renaming.no_links in Hnl.
        rewrite forallb_forall in Hnl. specialize (Hnl _ Hin).
        discriminate Hnl. }
    apply (G es). apply incl_refl.
Qed.

(** X14.  A dry run changes no file but the log files: whatever the
    path, the algorithm, the prefix and the digests [hashlib] offers,
    the entries of the directory after a dry run are those of before,
    and a file on which no attached handler has its stream has the
    content it had. *)
Theorem X14_dry_run_keeps_files (other : pystr -> pybytes -> result pystr)
    (d : FlatDir.dir) (dp a p name : pystr) (lg : list record)
    (hs : list Z) :
  (forall h, In h hs ->
             FlatDir.stream_file h (FlatDir.streams d) <> Some name) ->
  let d' := fs (fst (process_directory
                       (host := FlatDir.flat_host_with other)
                       dp a p true (Running d lg hs))) in
  FlatDir.entries d' = FlatDir.entries d
  /\ FlatDir.file_content d' name = FlatDir.file_content d name.
Proof.
  intros H.
  destruct (process_directory_dry (host := FlatDir.flat_host_with other)
              dp a p (Running d lg hs)) as (new & H1 & _).
  rewrite H1. cbn [fst]. rewrite logged_all_fs. cbn [handlers fs].
  now apply FlatDirFacts.emitted_content.
Qed.

Section SinkFacts.

Context {FS : Type} {host : Host FS}.

(** X13.  A log file that cannot be opened ends the process before
    anything else happens: [main] lets the exception out, the
    interpreter exits with status 1, nothing is logged and the file
    system is as it was, whether the directory is valid or not. *)
Theorem X13_log_file_failure (a : args) (c : Z) (r : pystr) (e : exn)
    (w : world FS) :
  log_file a = Some (c :: r) ->
  logging_FileHandler (fs w) (c :: r) = Raise e ->
  main a w = (w, Raise e) /\ script a w = (w, 1).
Proof.
  intros Hl Hr.
  assert (Hm : main a w = (w, Raise e)).
  { unfold main, bind, attach_log_file. rewrite Hl.
    cbv beta iota delta [truthy add_file_handler]. now rewrite Hr. }
  split; [exact Hm|]. unfold script. now rewrite Hm.
Qed.

End SinkFacts.

(* ================================================================== *)
(** * The further properties at concrete inputs *)

Lemma X1_witness :
  exists new,
    log (fst (process_directory Samples.data (lit "sha256")
                (lit "anonymized_") false (Samples.report_logging false)))
    = log (Samples.report_logging false) ++ new
    /\ replay Samples.data (handlers (Samples.report_logging false)) new
         (fs (Samples.report_logging false))
       = Ok (fs (fst (process_directory Samples.data (lit "sha256")
                        (lit "anonymized_") false
                        (Samples.report_logging false))))
    /\ (length new <= length [lit "report.txt"; lit "run.log"])%nat.
Proof.
  refine (X1_log_is_a_journal (host := FlatDir.flat_host) Samples.data
            (lit "sha256") (lit "anonymized_") false
            [lit "report.txt"; lit "run.log"]
            (Samples.report_logging false) _ _).
  - vm_compute. reflexivity.
  - vm_compute. reflexivity.
Defined.


Lemma X3_witness :
  (process_directory Samples.data (lit "crc32") (lit "anonymized_") false
     (World Samples.report [])
   = (logged_all (World Samples.report [])
        (previews Samples.data (lit "crc32") (lit "anonymized_")
           (handlers (World Samples.report [])) [lit "report.txt"]
           (fs (World Samples.report []))),
      Ok tt)
   /\ at_level INFO
        (previews Samples.data (lit "crc32") (lit "anonymized_")
           (handlers (World Samples.report [])) [lit "report.txt"]
           (fs (World Samples.report []))) = [])
  /\ (handlers (World Samples.report []) = [] ->
      process_directory Samples.data (lit "crc32") (lit "anonymized_") false
        (World Samples.report [])
      = (World (fs (World Samples.report []))
           (log (World Samples.report [])
            ++ flat_map (preview Samples.data (lit "crc32")
                           (lit "anonymized_")
                           (fs (World Samples.report [])))
                 [lit "report.txt"]),
         Ok tt)
      /\ at_level INFO
           (flat_map (preview Samples.data (lit "crc32")
                        (lit "anonymized_")
                        (fs (World Samples.report [])))
              [lit "report.txt"]) = []).
Proof.
  refine (X3_unhashable_run (host := FlatDir.flat_host) Samples.data
            (lit "crc32") (lit "anonymized_") false [lit "report.txt"]
            (World Samples.report []) _ _ _).
  - reflexivity.
  - reflexivity.
  - intros n [<-|[]]. reflexivity.
Defined.

Lemma X4_witness :
  script (Samples.default_args false) (World Samples.mixed [])
  = if os_path_isdir (fs (World Samples.mixed []))
         (directory (Samples.default_args false))
    then (fst (process_directory (directory (Samples.default_args false))
                 (algorithm (Samples.default_args false))
                 (prefix (Samples.default_args false))
                 (dry_run (Samples.default_args false))
                 (World Samples.mixed [])), 0)
    else (logged (World Samples.mixed [])
            (ERROR, NotADirectory (directory (Samples.default_args false))),
          1).
Proof.
  refine (X4_main_composes (host := FlatDir.flat_host)
            (Samples.default_args false) (World Samples.mixed [])
            (World Samples.mixed []) _).
  reflexivity.
Defined.

Lemma X5_witness :
  script (Args (lit "/data/archive") (lit "sha256") (lit "anonymized_")
            false None)
         (World Samples.mixed [])
  = (logged (World Samples.mixed [])
       (ERROR,
        ProcessingFailed
          (directory (Args (lit "/data/archive") (lit "sha256")
                        (lit "anonymized_") false None))
          (OSError EACCES)),
     0).
Proof.
  refine (X5_unlistable_directory (host := FlatDir.flat_host)
            (Args (lit "/data/archive") (lit "sha256") (lit "anonymized_")
               false None)
            (OSError EACCES) (World Samples.mixed [])
            (World Samples.mixed []) _ _ _); reflexivity.
Defined.

Lemma X6_witness :
  (snd (anonymize_file_name (lit "a.txt") (algorithm_name SHA256)
          (lit "anonymized_") (World Samples.report []))
   = snd (anonymize_file_name (lit "b.txt") (algorithm_name SHA256)
            (lit "anonymized_") (World Samples.report []))
   <-> digest SHA256 (lit "a.txt") = digest SHA256 (lit "b.txt")
       /\ snd (Posixpath.splitext (lit "a.txt"))
          = snd (Posixpath.splitext (lit "b.txt")))
  /\ (lit "a.txt" <> lit "b.txt" -> lit "a.txt" <> lit "b.txt").
Proof.
  refine (X6_same_name_iff_collision (host := FlatDir.flat_host)
            (lit "a.txt") (lit "b.txt") (lit "anonymized_") SHA256
            (lit "a.txt") (lit "b.txt") (World Samples.report []) _ _);
    reflexivity.
Defined.

Lemma X7_witness :
  exists out,
    snd (anonymize_file_name (lit "report.txt") (algorithm_name SHA256)
           (lit "anonymized_") (World Samples.report []))
    = Ok (Some out)
    /\ length out
       = (length (lit "anonymized_") + 2 * digest_size SHA256
          + length (snd (Posixpath.splitext (lit "report.txt"))))%nat
    /\ out <> []
    /\ (Renaming.no_sep (lit "anonymized_") = true ->
        FlatDir.file_name_ok out = true)
    /\ (Utf8.encodable (lit "anonymized_") = true ->
        Utf8.encodable out = true).
Proof.
  refine (X7_name_shape (host := FlatDir.flat_host) (lit "report.txt")
            (lit "anonymized_") SHA256 (lit "report.txt")
            (World Samples.report []) _).
  reflexivity.
Defined.

Lemma X10_witness :
  exists d',
    process_entry (FlatDir.path Samples.clash) (algorithm_name SHA256)
      (lit "anonymized_") false (lit "a.txt") (World Samples.clash [])
    = (World d'
         ([] ++ [(INFO, Renamed (lit "a.txt")
                          (Samples.anonymized (lit "a.txt")))]),
       Ok tt)
    /\ FlatDir.lookup (Samples.anonymized (lit "a.txt")) (FlatDir.entries d')
       = Some (FlatDir.Regular (lit "new"))
    /\ FlatDir.lookup (lit "a.txt") (FlatDir.entries d') = None
    /\ (length (FlatDir.entries d')
        < length (FlatDir.entries Samples.clash))%nat.
Proof.
  refine (X10_collision_overwrites Samples.clash SHA256 (lit "anonymized_")
            (lit "a.txt") (Samples.anonymized (lit "a.txt"))
            (lit "new") (lit "old") [] _ _ _ _ _ _ _).
  - reflexivity.
  - reflexivity.
  - reflexivity.
  - reflexivity.
  - intros E. apply (f_equal (@length Z)) in E. vm_compute in E.
    discriminate E.
  - vm_compute. reflexivity.
  - vm_compute. reflexivity.
Defined.

Lemma X9_witness :
  FlatDir.path
    (fs (fst (process_directory Samples.data (lit "sha256")
                (lit "anonymized_") false (Samples.report_logging false))))
  = FlatDir.path (fs (Samples.report_logging false))
  /\ (length
        (FlatDir.entries
           (fs (fst (process_directory Samples.data (lit "sha256")
                       (lit "anonymized_") false
                       (Samples.report_logging false)))))
      <= length (FlatDir.entries (fs (Samples.report_logging false))))%nat.
Proof.
  destruct (X9_contents_preserved (fun _ _ => Raise ValueError)
              (fs (Samples.report_logging false))
              (lit "sha256") (lit "anonymized_") false
              (log (Samples.report_logging false))
              (handlers (Samples.report_logging false)) eq_refl)
    as (H1 & _ & _ & H4).
  split; [exact H1 | exact H4].
Defined.

Lemma X11_witness :
  process_directory Samples.data (algorithm_name SHA256)
    (lit "anonymized_") false
    (World (FlatDir.Dir Samples.data true (FlatDir.entries Samples.office))
           [])
  = (World (FlatDir.Dir Samples.data true
              (map (Renaming.target SHA256 (lit "anonymized_"))
                   (FlatDir.entries Samples.office)))
           ([] ++ flat_map (Renaming.journal SHA256 (lit "anonymized_"))
                    (FlatDir.entries Samples.office)),
     Ok tt).
Proof.
  refine (X11_directory_renamed Samples.data
            (FlatDir.entries Samples.office) SHA256 (lit "anonymized_")
            [] _ _ _ _ _ _).
  - discriminate.
  - reflexivity.
  - reflexivity.
  - reflexivity.
  - vm_compute. reflexivity.
  - vm_compute. reflexivity.
Defined.

Lemma X12_witness :
  exists new,
    log (fst (process_directory Samples.data
                (algorithm_name SHA256) (lit "anonymized_") false
                (World (FlatDir.Dir Samples.data true
                          (FlatDir.entries Samples.office)) [])))
    = [] ++ new
    /\ log (fst (process_directory Samples.data
                   (algorithm_name SHA256) (lit "anonymized_") true
                   (World (FlatDir.Dir Samples.data true
                             (FlatDir.entries Samples.office)) [])))
       = [] ++ map as_preview new.
Proof.
  refine (X12_dry_run_is_accurate Samples.data
            (FlatDir.entries Samples.office) SHA256 (lit "anonymized_")
            [] _ _ _ _ _ _).
  - discriminate.
  - reflexivity.
  - reflexivity.
  - reflexivity.
  - vm_compute. reflexivity.
  - vm_compute. reflexivity.
Defined.

Lemma X13_witness :
  main (Args Samples.data (lit "sha256") (lit "anonymized_") false
          (Some (lit "/data/archive")))
       (World Samples.mixed [])
  = (World Samples.mixed [], Raise (OSError EISDIR))
  /\ script (Args Samples.data (lit "sha256") (lit "anonymized_") false
               (Some (lit "/data/archive")))
            (World Samples.mixed [])
     = (World Samples.mixed [], 1).
Proof.
  refine (X13_log_file_failure (host := FlatDir.flat_host)
            (Args Samples.data (lit "sha256") (lit "anonymized_") false
               (Some (lit "/data/archive")))
            47 (lit "data/archive") (OSError EISDIR)
            (World Samples.mixed []) _ _); reflexivity.
Defined.

Lemma X14_witness :
  FlatDir.entries
    (fs (fst (process_directory Samples.data (lit "sha256")
                (lit "anonymized_") true (Samples.report_logging true))))
  = FlatDir.entries (fs (Samples.report_logging true))
  /\ FlatDir.file_content
       (fs (fst (process_directory Samples.data (lit "sha256")
                   (lit "anonymized_") true (Samples.report_logging true))))
       (lit "report.txt")
     = FlatDir.file_content (fs (Samples.report_logging true))
         (lit "report.txt").
Proof.
  refine (X14_dry_run_keeps_files (fun _ _ => Raise ValueError)
            (fs (Samples.report_logging true)) Samples.data
            (lit "sha256") (lit "anonymized_") (lit "report.txt")
            (log (Samples.report_logging true))
            (handlers (Samples.report_logging true)) _).
  intros h [<-|[]]. vm_compute. discriminate.
Defined.

(** A run proper with [--log-file /data/run.log]: the log file is a
    regular file of the directory, so it is renamed too, and its stream
    goes on writing to it under its new name. *)
Example log_file_is_renamed :
  let d' := fs (fst (script (Samples.logging_args false)
                       (World Samples.report []))) in
  map fst (FlatDir.entries d')
  = [Samples.anonymized (lit "report.txt");
     Samples.anonymized (lit "run.log")]
  /\ FlatDir.written d' (Samples.anonymized (lit "run.log"))
     = [(INFO, Renamed (lit "report.txt")
                 (Samples.anonymized (lit "report.txt")));
        (INFO, Renamed (lit "run.log")
                 (Samples.anonymized (lit "run.log")))].
Proof. vm_compute. split; reflexivity. Qed.

(** The sample office after the run, entry by entry. *)
Example office_run :
  map (Renaming.target SHA256 (lit "anonymized_"))
      (FlatDir.entries Samples.office)
  = [(Samples.anonymized (lit "report.txt"), FlatDir.Regular (lit "figures"));
     (lit "archive", FlatDir.Directory);
     (Samples.anonymized (lit ".profile"), FlatDir.Regular (lit "set"));
     (lit "pipe", FlatDir.Special);
     ([0x66; 0xDCE9], FlatDir.Regular (lit "?"));
     (Samples.anonymized (lit "notes.tar.gz"), FlatDir.Regular (lit "n"))].
Proof. vm_compute. reflexivity. Qed.
